(** * Car rental back office: rental / payment lifecycle and reports

    A shallow embedding of the lifecycle code of the application:
    - [rentalService] (create, complete, cancel),
    - the payment form [PaymentModal] (prior payments, validation, submit),
    - the rental form [RentalModal] (total cost, submit),
    - [reportService] (revenue, top cars, top customers),
    over a model of the hosted database as five tables of rows.

    Conventions of the model.
    - Money (columns of type decimal(10,2)) is an integer number of cents
      in [Z]: 150.00 is [15000].  The amount input of the payment form has
      step 0.01, so amounts typed are whole cents.  The client computes
      with JS numbers, that is with doubles: [PaymentModal] reads the
      component on the decimals themselves, [PaymentModalDouble] on the
      doubles the client holds, which is where the two differ (a sum that
      rounds below the total it equals).
    - A date (columns of type date, strings yyyy-MM-dd in the client) is a
      day number in [Z]; comparing dates compares day numbers.  The client
      reads a date as the instant 00:00 UTC of that day and counts days on
      its local clock: a time zone is given by its UTC offset on each day.
    - A backend call either takes effect and answers with data, or fails
      with no effect and answers with an error object.  Which calls fail is
      given by a schedule carried next to the tables, and every call issued
      is recorded in a log, in the order of issue.
    - The column created_at is not represented. *)

From Stdlib Require Import ZArith List String Ascii DecimalString Bool Lia.
From Stdlib Require Import Permutation Sorted DecimalPos DecimalN Uint63 Floats.
Import ListNotations.
Local Open Scope string_scope.
Local Open Scope list_scope.
Local Open Scope Z_scope.

(** ** Rows (lib/supabase/types.ts, supabase/migrations) *)

Definition money := Z.
Definition date := Z.

Inductive CarStatus := Available | Rented | Maintenance.
Inductive RentalStatus := Ongoing | Completed | Cancelled.
Inductive PaymentStatus := Paid | Pending | Failed.
Inductive PaymentMethod := Cash | CreditCard | DebitCard | BankTransfer.

(** One module per table, with the columns under their own names. *)
Module Customers.
Record Row := mkCustomer {
  customer_id : Z;
  name : string;
  email : string }.
End Customers.

Module Cars.
Record Row := mkCar {
  car_id : Z;
  brand : string;
  model : string;
  year : Z;
  license_plate : string;
  status : CarStatus;
  daily_rate : money }.
End Cars.

Module Rentals.
Record Row := mkRental {
  rental_id : Z;
  customer_id : Z;
  car_id : Z;
  rental_date : date;
  return_date : option date;
  total_cost : money;
  status : RentalStatus }.
End Rentals.

Module Payments.
Record Row := mkPayment {
  payment_id : Z;
  rental_id : Z;
  amount : money;
  payment_date : date;
  payment_method : PaymentMethod;
  status : PaymentStatus }.
End Payments.

Definition Customer := Customers.Row.
Definition Car := Cars.Row.
Definition Rental := Rentals.Row.
Definition Payment := Payments.Row.

(** The rental is the entity every operation is about: its columns are
    used unqualified. *)
Export Rentals.

(** Insert payloads: the identity column is generated by the database. *)
Record RentalInsert := mkRentalInsert {
  ins_customer_id : Z;
  ins_car_id : Z;
  ins_rental_date : date;
  ins_total_cost : money;
  ins_status : RentalStatus }.

Record PaymentInsert := mkPaymentInsert {
  pins_rental_id : Z;
  pins_amount : money;
  pins_payment_method : PaymentMethod;
  pins_payment_date : date;
  pins_status : PaymentStatus }.

(** ** The database and the backend *)

Record database := mkDb {
  customers : list Customer;
  cars : list Car;
  rentals : list Rental;
  payments : list Payment;
  next_rental_id : Z;
  next_payment_id : Z }.

Inductive verb := SELECT | INSERT | UPDATE.
Inductive table := t_customers | t_cars | t_rentals | t_payments.
Definition call := (verb * table)%type.

(** [faults]: for each backend call still to come, whether it fails
    ([true]); once the schedule is used up, calls succeed.
    [log]: the calls issued so far, oldest first. *)
Record world := mkWorld {
  tables : database;
  faults : list bool;
  log : list call }.

Inductive exn :=
| BackendError
| Error (message : string).

(** What a query resolves to: [{ data, error }].  A query never rejects. *)
Record response (A : Type) := mkResponse {
  data : option A;
  error : option exn }.
Arguments mkResponse {A}.
Arguments data {A}.
Arguments error {A}.

Definition resp_ok {A} (a : A) : response A := mkResponse (Some a) None.
Definition resp_null {A} : response A := mkResponse None None.
Definition resp_error {A} : response A := mkResponse None (Some BackendError).

(** [.single()]: the row when exactly one row came back, an error otherwise. *)
Definition single {A} (rows : list A) : response A :=
  match rows with
  | [r] => resp_ok r
  | _ => resp_error
  end.

(** One backend call [c]: it is logged; unless the schedule makes it fail,
    [run] is run on the tables. *)
Definition backend {A} (c : call) (run : database -> response A * database)
  : world -> response A * world :=
  fun w =>
    let l := log w ++ [c] in
    match faults w with
    | true :: fs => (resp_error, mkWorld (tables w) fs l)
    | false :: fs => let (r, d) := run (tables w) in (r, mkWorld d fs l)
    | [] => let (r, d) := run (tables w) in (r, mkWorld d [] l)
    end.

(** *** Row updates *)

Definition set_rental_status (s : RentalStatus) (r : Rental) : Rental :=
  mkRental (rental_id r) (customer_id r) (car_id r) (rental_date r)
           (return_date r) (total_cost r) s.

Definition set_rental_completed (d : date) (r : Rental) : Rental :=
  mkRental (rental_id r) (customer_id r) (car_id r) (rental_date r)
           (Some d) (total_cost r) Completed.

Definition set_car_status (s : CarStatus) (c : Car) : Car :=
  Cars.mkCar (Cars.car_id c) (Cars.brand c) (Cars.model c) (Cars.year c)
             (Cars.license_plate c) s (Cars.daily_rate c).

(** [update(f).eq(key, k)]: every row whose key is [k] is rewritten. *)
Definition update_where {A} (key : A -> Z) (k : Z) (f : A -> A)
  (rows : list A) : list A :=
  map (fun r => if key r =? k then f r else r) rows.

Definition select_where {A} (key : A -> Z) (k : Z) (rows : list A) : list A :=
  filter (fun r => key r =? k) rows.

Definition with_rentals (d : database) (rs : list Rental) : database :=
  mkDb (customers d) (cars d) rs (payments d)
       (next_rental_id d) (next_payment_id d).

Definition with_cars (d : database) (cs : list Car) : database :=
  mkDb (customers d) cs (rentals d) (payments d)
       (next_rental_id d) (next_payment_id d).

Definition has_key {A} (key : A -> Z) (k : Z) (rows : list A) : bool :=
  existsb (fun r => key r =? k) rows.

(** *** The queries the services issue *)

(** from('rentals').select('car_id').eq('rental_id', id).single() *)
Definition q_rental_car (id : Z) : world -> response Z * world :=
  backend (SELECT, t_rentals) (fun d =>
    (single (map car_id (select_where rental_id id (rentals d))), d)).

(** from('rentals').insert(rental).select(...).single(): the foreign keys
    customer_id and car_id must reference existing rows. *)
Definition q_insert_rental (r : RentalInsert)
  : world -> response Rental * world :=
  backend (INSERT, t_rentals) (fun d =>
    if has_key Customers.customer_id (ins_customer_id r) (customers d)
       && has_key Cars.car_id (ins_car_id r) (cars d)
    then
      let row := mkRental (next_rental_id d) (ins_customer_id r) (ins_car_id r)
                          (ins_rental_date r) None (ins_total_cost r)
                          (ins_status r) in
      (resp_ok row,
       mkDb (customers d) (cars d) (rentals d ++ [row]) (payments d)
            (next_rental_id d + 1) (next_payment_id d))
    else (resp_error, d)).

(** from('rentals').update(f).eq('rental_id', id).select().single() *)
Definition q_update_rental_single (id : Z) (f : Rental -> Rental)
  : world -> response Rental * world :=
  backend (UPDATE, t_rentals) (fun d =>
    let rs := update_where rental_id id f (rentals d) in
    (single (select_where rental_id id rs), with_rentals d rs)).

(** from('rentals').update(f).eq('rental_id', id) *)
Definition q_update_rental (id : Z) (f : Rental -> Rental)
  : world -> response unit * world :=
  backend (UPDATE, t_rentals) (fun d =>
    (resp_null, with_rentals d (update_where rental_id id f (rentals d)))).

(** from('cars').update({ status }).eq('car_id', id) *)
Definition q_update_car_status (id : Z) (s : CarStatus)
  : world -> response unit * world :=
  backend (UPDATE, t_cars) (fun d =>
    (resp_null,
     with_cars d (update_where Cars.car_id id (set_car_status s) (cars d)))).

(** ** Async functions: a result or a thrown error, over the world *)

Inductive outcome (A : Type) :=
| Returned (a : A)
| Thrown (e : exn).
Arguments Returned {A}.
Arguments Thrown {A}.

Definition Async (A : Type) := world -> outcome A * world.

Definition ret {A} (a : A) : Async A := fun w => (Returned a, w).
Definition throw {A} (e : exn) : Async A := fun w => (Thrown e, w).

Definition bind {A B} (m : Async A) (k : A -> Async B) : Async B :=
  fun w =>
    match m w with
    | (Returned a, w') => k a w'
    | (Thrown e, w') => (Thrown e, w')
    end.

(** [await] of a query: it resolves, whatever the answer. *)
Definition await {A} (q : world -> response A * world) : Async (response A) :=
  fun w => let (r, w') := q w in (Returned r, w').

Notation "'let*' x ':=' m 'in' k" := (bind m (fun x => k))
  (at level 10, x name, m at level 100, k at level 200).

(** [if (error) throw error] *)
Definition throw_if_error {A} (r : response A) : Async unit :=
  match error r with
  | Some e => throw e
  | None => ret tt
  end.

(** ** rentalService (services) *)

Module rentalService.

Definition create (rental : RentalInsert) : Async (option Rental) :=
  let* r := await (q_insert_rental rental) in
  let* _ := throw_if_error r in
  (* Update car status: the answer of this query is not looked at *)
  let* _ := await (q_update_car_status (ins_car_id rental) Rented) in
  ret (data r).

Definition complete (id : Z) (returnDate : date) : Async (option Rental) :=
  let* q := await (q_rental_car id) in
  match data q with
  | None => throw (Error "Rental not found")
  | Some rental_car_id =>
      let* r := await (q_update_rental_single id
                         (set_rental_completed returnDate)) in
      let* _ := throw_if_error r in
      let* _ := await (q_update_car_status rental_car_id Available) in
      ret (data r)
  end.

Definition cancel (id : Z) : Async (option Rental) :=
  let* q := await (q_rental_car id) in
  match data q with
  | None => throw (Error "Rental not found")
  | Some rental_car_id =>
      let* r := await (q_update_rental_single id
                         (set_rental_status Cancelled)) in
      let* _ := throw_if_error r in
      let* _ := await (q_update_car_status rental_car_id Available) in
      ret (data r)
  end.

End rentalService.

(** ** Toasts and number formatting *)

Inductive toast :=
| toast_success (message : string)
| toast_error (message : string).

(** try { body } catch (error) { toast.error(msg) } *)
Definition try_toast (body : Async toast) (msg : string)
  : world -> toast * world :=
  fun w =>
    match body w with
    | (Returned t, w') => (t, w')
    | (Thrown _, w') => (toast_error msg, w')
    end.

Definition decimal (n : Z) : string :=
  NilZero.string_of_uint (N.to_uint (Z.to_N n)).

Definition two_digits (n : Z) : string :=
  String.append (if n <? 10 then "0" else "") (decimal n).

(** [x.toFixed(2)] of an amount held in cents. *)
Definition toFixed2 (cents : money) : string :=
  String.append (if cents <? 0 then "-" else "")
    (String.append (decimal (Z.abs cents / 100))
       (String.append "." (two_digits (Z.abs cents mod 100)))).

(** ** PaymentModal (components/modals) *)

(** from('payments').select('amount').eq('rental_id', id) *)
Definition q_payment_amounts (id : Z)
  : world -> response (list money) * world :=
  backend (SELECT, t_payments) (fun d =>
    (resp_ok (map Payments.amount
                (select_where Payments.rental_id id (payments d))), d)).

(** from('payments').insert(p): rental_id must reference an existing rental. *)
Definition q_insert_payment (p : PaymentInsert)
  : world -> response unit * world :=
  backend (INSERT, t_payments) (fun d =>
    if has_key rental_id (pins_rental_id p) (rentals d)
    then
      let row := Payments.mkPayment (next_payment_id d) (pins_rental_id p)
                   (pins_amount p) (pins_payment_date p)
                   (pins_payment_method p) (pins_status p) in
      (resp_null,
       mkDb (customers d) (cars d) (rentals d) (payments d ++ [row])
            (next_rental_id d) (next_payment_id d + 1))
    else (resp_error, d)).

(** The component on the decimals themselves: amounts are whole cents and
    its sums and comparisons are exact.  [PaymentModalDouble] below is the
    same component on the doubles the client holds. *)
Module PaymentModal.

(** The values held by the form fields: the amount is [None] when the
    number input is empty (NaN), the date is [None] when it is empty. *)
Record FormInput := mkFormInput {
  in_amount : option money;
  in_payment_method : PaymentMethod;
  in_payment_date : option date }.

Record PaymentFormData := mkFormData {
  amount : money;
  payment_method : PaymentMethod;
  payment_date : date }.

(** paymentSchema: amount positive and at most 1,000,000; the method is
    one of the four options; the date is not empty. *)
Definition paymentSchema (i : FormInput) : option PaymentFormData :=
  match in_amount i, in_payment_date i with
  | Some a, Some d =>
      if (0 <? a) && (a <=? 100000000)
      then Some (mkFormData a (in_payment_method i) d)
      else None
  | _, _ => None
  end.

(** Component state: [totalPaid] and the form values. *)
Record state := mkState {
  totalPaid : money;
  form : FormInput }.

Definition initial (today : date) : state :=
  mkState 0 (mkFormInput (Some 0) Cash (Some today)).

Definition sum_amounts (l : list money) : money :=
  fold_left (fun sum a => sum + a) l 0.

Definition setValue_amount (a : money) (f : FormInput) : FormInput :=
  mkFormInput (Some a) (in_payment_method f) (in_payment_date f).

(** fetchPreviousPayments: on success [totalPaid] becomes the sum of the
    rental's payments and the amount field is set to the balance; on
    failure an error toast is shown and the state is left as it was. *)
Definition fetchPreviousPayments (rental : option Rental) (st : state)
  : world -> (state * option toast) * world :=
  fun w =>
    match rental with
    | None => ((st, None), w)
    | Some rental =>
        let (r, w') := q_payment_amounts (rental_id rental) w in
        match error r with
        | Some _ =>
            ((st, Some (toast_error "Failed to fetch payment history")), w')
        | None =>
            let total := match data r with
                         | Some l => sum_amounts l
                         | None => 0
                         end in
            ((mkState total
                (setValue_amount (total_cost rental - total) (form st)),
              None), w')
        end
    end.

Definition remainingBalance (rental : option Rental) (st : state) : money :=
  match rental with
  | Some rental => total_cost rental - totalPaid st
  | None => 0
  end.

Definition full_message : string :=
  "Full payment processed and rental completed".

Definition partial_message (remaining : money) : string :=
  String.append "Partial payment processed. Remaining balance: $"
                (toFixed2 remaining).

Definition onSubmit_body (today : date) (rental : Rental) (st : state)
  (data : PaymentFormData) : Async toast :=
  (* Create payment record *)
  let* p := await (q_insert_payment
                     (mkPaymentInsert (rental_id rental) (amount data)
                        (payment_method data) (payment_date data) Paid)) in
  let* _ := throw_if_error p in
  let newTotalPaid := totalPaid st + amount data in
  let isComplete := newTotalPaid >=? total_cost rental in
  let* _ :=
    if isComplete then
      (* Promise.all: both updates are issued, then both answers checked *)
      let* rentalError := await (q_update_rental (rental_id rental)
                                   (set_rental_completed today)) in
      let* carError := await (q_update_car_status (car_id rental) Available) in
      let* _ := throw_if_error rentalError in
      throw_if_error carError
    else ret tt in
  ret (toast_success
         (if isComplete then full_message
          else partial_message (total_cost rental - newTotalPaid))).

Definition onSubmit (today : date) (rental : option Rental) (st : state)
  (data : PaymentFormData) : world -> option toast * world :=
  fun w =>
    match rental with
    | None => (None, w)
    | Some rental =>
        let (t, w') := try_toast (onSubmit_body today rental st data)
                                 "Failed to process payment" w in
        (Some t, w')
    end.

(** The amount input is rendered with max={remainingBalance}: the form is
    not submitted while the value typed is above it. *)
Definition amount_input_valid (rental : option Rental) (st : state) : bool :=
  match in_amount (form st) with
  | Some a => a <=? remainingBalance rental st
  | None => true
  end.

Inductive submission :=
| Rejected
| Submitted (t : option toast).

(** handleSubmit(onSubmit): the schema is checked first. *)
Definition handleSubmit (today : date) (rental : option Rental) (st : state)
  : world -> submission * world :=
  fun w =>
    match paymentSchema (form st) with
    | None => (Rejected, w)
    | Some data =>
        let (t, w') := onSubmit today rental st data w in (Submitted t, w')
    end.

(** Pressing the submit button of the rendered form. *)
Definition submit (today : date) (rental : option Rental) (st : state)
  : world -> submission * world :=
  fun w =>
    match rental with
    | None => (Rejected, w)
    | Some _ =>
        if amount_input_valid rental st
        then handleSubmit today rental st w
        else (Rejected, w)
    end.

End PaymentModal.

(** ** JS numbers *)

(** A JS number: an IEEE 754 double. *)
Definition number := float.

(** An integer as a number (exact below 2^53 in absolute value). *)
Definition number_of_Z (z : Z) : number :=
  if z <? 0 then PrimFloat.opp (PrimFloat.of_uint63 (Uint63.of_Z (- z)))
  else PrimFloat.of_uint63 (Uint63.of_Z z).

(** The number the client holds for a decimal with two places, given in
    cents (a decimal(10,2) column read from JSON, the value of a number
    input): the double nearest to it.  The quotient of two integers that
    are doubles themselves is rounded once, to the nearest double. *)
Definition number_of_decimal (cents : money) : number :=
  PrimFloat.div (number_of_Z cents) (number_of_Z 100).

(** [x || 0] on numbers: 0, -0 and NaN give 0. *)
Definition or_zero (x : number) : number :=
  if PrimFloat.is_nan x || PrimFloat.is_zero x then PrimFloat.zero else x.

(** [x.toFixed(2)] (ECMA-262, Number.prototype.toFixed), for [x] below
    10^21 in absolute value: with n the integer for which n / 100 - |x| is
    closest to zero, the larger one when there are two, the digits of n
    with the point before the last two, after the sign when x < 0. *)
Definition toFixed2_number (x : number) : string :=
  match Prim2SF x with
  | S754_nan => "NaN"
  | S754_infinity s => if s then "-Infinity" else "Infinity"
  | S754_zero _ => "0.00"
  | S754_finite s m e =>
      let q := Z.pos m * 100 in
      let n := if 0 <=? e then q * 2 ^ e
               else (2 * q + 2 ^ (- e)) / (2 * 2 ^ (- e)) in
      String.append (if s then "-" else "")
        (String.append (decimal (n / 100))
           (String.append "." (two_digits (n mod 100))))
  end.

(** ** PaymentModal on the numbers of the client *)

(** The same component with its arithmetic as the client does it: the
    running total, the sum with the amount and the comparison with the
    total cost are on doubles.  What is written to the tables is the
    decimal typed, as in [PaymentModal]. *)
Module PaymentModalDouble.

(** Component state: [totalPaid] and the value of the amount field. *)
Record state := mkState {
  totalPaid : number;
  amount_value : number }.

Definition initial : state := mkState PrimFloat.zero PrimFloat.zero.

(** payments.reduce((sum, payment) => sum + payment.amount, 0) *)
Definition sum_amounts (l : list number) : number :=
  fold_left (fun sum a => PrimFloat.add sum a) l PrimFloat.zero.

(** fetchPreviousPayments: on success [totalPaid] becomes the sum of the
    rental's payments and the amount field is set to the balance; on
    failure an error toast is shown and the state is left as it was. *)
Definition fetchPreviousPayments (rental : option Rental) (st : state)
  : world -> (state * option toast) * world :=
  fun w =>
    match rental with
    | None => ((st, None), w)
    | Some rental =>
        let (r, w') := q_payment_amounts (rental_id rental) w in
        match error r with
        | Some _ =>
            ((st, Some (toast_error "Failed to fetch payment history")), w')
        | None =>
            let total := match data r with
                         | Some l =>
                             or_zero (sum_amounts (map number_of_decimal l))
                         | None => PrimFloat.zero
                         end in
            ((mkState total
                (PrimFloat.sub (number_of_decimal (total_cost rental)) total),
              None), w')
        end
    end.

Definition partial_message (remaining : number) : string :=
  String.append "Partial payment processed. Remaining balance: $"
                (toFixed2_number remaining).

(** [data.amount] is the number of the decimal typed,
    [number_of_decimal (amount data)]. *)
Definition onSubmit_body (today : date) (rental : Rental) (st : state)
  (data : PaymentModal.PaymentFormData) : Async toast :=
  (* Create payment record *)
  let* p := await (q_insert_payment
                     (mkPaymentInsert (rental_id rental)
                        (PaymentModal.amount data)
                        (PaymentModal.payment_method data)
                        (PaymentModal.payment_date data) Paid)) in
  let* _ := throw_if_error p in
  let newTotalPaid :=
    PrimFloat.add (totalPaid st) (number_of_decimal (PaymentModal.amount data)) in
  (* newTotalPaid >= rental.total_cost *)
  let isComplete :=
    PrimFloat.leb (number_of_decimal (total_cost rental)) newTotalPaid in
  let* _ :=
    if isComplete then
      (* Promise.all: both updates are issued, then both answers checked *)
      let* rentalError := await (q_update_rental (rental_id rental)
                                   (set_rental_completed today)) in
      let* carError := await (q_update_car_status (car_id rental) Available) in
      let* _ := throw_if_error rentalError in
      throw_if_error carError
    else ret tt in
  ret (toast_success
         (if isComplete then PaymentModal.full_message
          else partial_message
                 (PrimFloat.sub (number_of_decimal (total_cost rental))
                                newTotalPaid))).

Definition onSubmit (today : date) (rental : option Rental) (st : state)
  (data : PaymentModal.PaymentFormData) : world -> option toast * world :=
  fun w =>
    match rental with
    | None => (None, w)
    | Some rental =>
        let (t, w') := try_toast (onSubmit_body today rental st data)
                                 "Failed to process payment" w in
        (Some t, w')
    end.

End PaymentModalDouble.

(** ** RentalModal (components/modals) *)

(** from('cars').select('*').order('created_at', { ascending: false }):
    rows are kept in the order of their creation, so newest first is the
    table reversed. *)
Definition q_all_cars : world -> response (list Car) * world :=
  backend (SELECT, t_cars) (fun d => (resp_ok (rev (cars d)), d)).

(** from('cars').select('*').eq('car_id', id).single() *)
Definition q_car_by_id (id : Z) : world -> response Car * world :=
  backend (SELECT, t_cars) (fun d =>
    (single (select_where Cars.car_id id (cars d)), d)).

(** from('cars').update({ status }).eq('car_id', id).select().single() *)
Definition q_update_car_status_single (id : Z) (s : CarStatus)
  : world -> response Car * world :=
  backend (UPDATE, t_cars) (fun d =>
    let cs := update_where Cars.car_id id (set_car_status s) (cars d) in
    (single (select_where Cars.car_id id cs), with_cars d cs)).

Module carService.

Definition getAll : Async (list Car) :=
  let* r := await q_all_cars in
  let* _ := throw_if_error r in
  ret (match data r with Some l => l | None => [] end).

Definition getById (id : Z) : Async (option Car) :=
  let* r := await (q_car_by_id id) in
  let* _ := throw_if_error r in
  ret (data r).

Definition updateStatus (id : Z) (status : CarStatus) : Async (option Car) :=
  let* r := await (q_update_car_status_single id status) in
  let* _ := throw_if_error r in
  ret (data r).

End carService.

(** *** Dates on the local clock (date-fns) *)

(** A time zone: the offset from UTC, in minutes, in force at 00:00 UTC
    of each day. *)
Definition zone := date -> Z.

Definition utc : zone := fun _ => 0.

Module date_fns.

(** The local fields of [new Date('yyyy-MM-dd')], the instant 00:00 UTC
    of the day: the day on the local calendar and the time of day, in
    minutes. *)
Definition toDate (tz : zone) (d : date) : Z * Z :=
  ((d * 1440 + tz d) / 1440, (d * 1440 + tz d) mod 1440).

(** compareLocalAsc: the order of two dates by their local fields, as
    -1, 0 or 1. *)
Definition compareLocalAsc (dateLeft dateRight : Z * Z) : Z :=
  if fst dateLeft =? fst dateRight
  then Z.sgn (snd dateLeft - snd dateRight)
  else Z.sgn (fst dateLeft - fst dateRight).

Definition differenceInCalendarDays (dateLeft dateRight : Z * Z) : Z :=
  fst dateLeft - fst dateRight.

(** differenceInDays(dateLeft, dateRight): the number of full days between
    the two dates on the local clock.  The difference in calendar days is
    taken, [dateLeft] is moved back by that many days (setDate, which keeps
    the time of day; a time of day that a clock change skips on that day
    is not modelled), and one day is taken off when the last day is not
    full. *)
Definition differenceInDays (tz : zone) (dateLeft dateRight : date) : Z :=
  let l := toDate tz dateLeft in
  let r := toDate tz dateRight in
  let sign := compareLocalAsc l r in
  let difference := Z.abs (differenceInCalendarDays l r) in
  let l' := (fst l - sign * difference, snd l) in
  let isLastDayNotFull := if compareLocalAsc l' r =? - sign then 1 else 0 in
  sign * (difference - isLastDayNotFull).

End date_fns.

Module RentalModal.

(** The values held by the form fields; a select with no choice made
    gives NaN ([None]), an empty date input gives the empty string
    ([None]). *)
Record FormInput := mkFormInput {
  in_customer_id : option Z;
  in_car_id : option Z;
  in_rental_date : option date;
  in_expected_return_date : option date }.

Record RentalFormData := mkFormData {
  customer_id : Z;
  car_id : Z;
  rental_date : date;
  expected_return_date : date }.

Record state := mkState {
  availableCars : list Car;
  form : FormInput }.

(** fetchAvailableCars: the cars whose status is Available; on failure
    an error toast and the list stays as it was. *)
Definition fetchAvailableCars (st : state)
  : world -> (state * option toast) * world :=
  fun w =>
    match carService.getAll w with
    | (Returned l, w') =>
        ((mkState (filter (fun car => match Cars.status car with
                                      | Available => true
                                      | _ => false
                                      end) l)
                  (form st), None), w')
    | (Thrown _, w') =>
        ((st, Some (toast_error "Failed to fetch available cars")), w')
    end.

(** The effect on [carId, availableCars]. *)
Definition selectedCar (st : state) : option Car :=
  match in_car_id (form st) with
  | Some carId =>
      if negb (carId =? 0) && (0 <? Z.of_nat (List.length (availableCars st)))
      then find (fun c => Cars.car_id c =? carId) (availableCars st)
      else None
  | None => None
  end.

(** The effect on [selectedCar, rentalDate, expectedReturnDate], in a
    browser whose time zone is [tz]. *)
Definition totalCost_in (tz : zone) (st : state) : money :=
  match selectedCar st, in_rental_date (form st),
        in_expected_return_date (form st) with
  | Some car, Some rentalDate, Some expectedReturnDate =>
      let days := date_fns.differenceInDays tz expectedReturnDate rentalDate in
      Z.max 1 days * Cars.daily_rate car
  | _, _, _ => 0
  end.

(** The total cost in a browser whose clock is on UTC. *)
Definition totalCost (st : state) : money := totalCost_in utc st.

(** The payload of [rentalService.create]: the form data, status
    'Ongoing' and the total cost held by the component.  [RentalInsert]
    holds the columns of the rentals table; the object the form passes
    carries its expected return date as well, a key with no column in
    that table. *)
Definition payload (st : state) (data : RentalFormData) : RentalInsert :=
  mkRentalInsert (customer_id data) (car_id data) (rental_date data)
                 (totalCost st) Ongoing.

Definition onSubmit (st : state) (data : RentalFormData)
  : world -> toast * world :=
  try_toast
    (let* _ := rentalService.create (payload st data) in
     ret (toast_success "Rental created successfully"))
    "Failed to create rental".

End RentalModal.

(** ** reportService (services/reportService.ts) *)

(** A JS object used as a map from ids to values, as the list of its
    properties in the order in which [Object.values] lists them: the
    properties whose key is an array index (an integer from 0 to 2^32 - 2)
    first, in ascending order of the key, then the others in the order in
    which they were created. *)
Definition obj (V : Type) := list (Z * V).

Fixpoint obj_get {V} (o : obj V) (k : Z) : option V :=
  match o with
  | [] => None
  | (k', v) :: o' => if k' =? k then Some v else obj_get o' k
  end.

Definition is_array_index (k : Z) : bool := (0 <=? k) && (k <? 4294967295).

(** A new property of key [k] is listed before an existing one of key
    [k']. *)
Definition goes_before (k k' : Z) : bool :=
  is_array_index k && (negb (is_array_index k') || (k <? k')).

(** Assignment to an existing property: the value changes, the place does
    not. *)
Fixpoint obj_assign {V} (o : obj V) (k : Z) (v : V) : obj V :=
  match o with
  | [] => []
  | (k', v') :: o' =>
      if k' =? k then (k', v) :: o' else (k', v') :: obj_assign o' k v
  end.

(** Creation of a property. *)
Fixpoint obj_create {V} (o : obj V) (k : Z) (v : V) : obj V :=
  match o with
  | [] => [(k, v)]
  | (k', v') :: o' =>
      if goes_before k k' then (k, v) :: (k', v') :: o'
      else (k', v') :: obj_create o' k v
  end.

(** [o[k] = v] *)
Definition obj_set {V} (o : obj V) (k : Z) (v : V) : obj V :=
  match obj_get o k with
  | Some _ => obj_assign o k v
  | None => obj_create o k v
  end.

Definition Object_values {V} (o : obj V) : list V := map snd o.

(** [array.sort(cmp)]: the stable sort by a comparator; [x] goes after [y]
    when [cmp x y] is positive. *)
Fixpoint sort_insert {V} (cmp : V -> V -> Z) (x : V) (l : list V) : list V :=
  match l with
  | [] => [x]
  | y :: ys => if 0 <? cmp x y then y :: sort_insert cmp x ys else x :: y :: ys
  end.

Definition Array_sort {V} (cmp : V -> V -> Z) (l : list V) : list V :=
  fold_right (sort_insert cmp) [] l.

(** [array.slice(0, n)] *)
Definition slice0 {V} (n : nat) (l : list V) : list V := firstn n l.

(** select('*', { count: 'exact', head: true }) and its filters: the
    answer carries the number of rows. *)
Definition q_count_cars : world -> response Z * world :=
  backend (SELECT, t_cars) (fun d =>
    (resp_ok (Z.of_nat (List.length (cars d))), d)).

Definition q_count_available_cars : world -> response Z * world :=
  backend (SELECT, t_cars) (fun d =>
    (resp_ok (Z.of_nat (List.length
                (filter (fun c => match Cars.status c with
                                  | Available => true
                                  | _ => false
                                  end) (cars d)))), d)).

Definition q_count_ongoing_rentals : world -> response Z * world :=
  backend (SELECT, t_rentals) (fun d =>
    (resp_ok (Z.of_nat (List.length
                (filter (fun r => match status r with
                                  | Ongoing => true
                                  | _ => false
                                  end) (rentals d)))), d)).

(** [count || 0] *)
Definition count_or_zero (r : response Z) : Z :=
  match data r with
  | Some c => c
  | None => 0
  end.

Module reportService.

Definition in_window (startDate : date) (r : Rental) : bool :=
  startDate <=? rental_date r.

Definition is_completed (r : Rental) : bool :=
  match status r with Completed => true | _ => false end.

Definition not_cancelled (r : Rental) : bool :=
  match status r with Cancelled => false | _ => true end.

(** select('total_cost').gte('rental_date', startDate)
    .eq('status', 'Completed') *)
Definition q_revenue (startDate : date)
  : world -> response (list money) * world :=
  backend (SELECT, t_rentals) (fun d =>
    (resp_ok (map total_cost
                (filter (fun r => in_window startDate r && is_completed r)
                        (rentals d))), d)).

Definition rows_or_throw {A} (r : response (list A)) : Async (list A) :=
  match data r with
  | Some l => ret l
  | None => throw (Error "TypeError")
  end.

Definition getRevenue (startDate : date) : Async money :=
  let* r := await (q_revenue startDate) in
  let* _ := throw_if_error r in
  let* data := rows_or_throw r in
  ret (fold_left (fun sum rental_total_cost => sum + rental_total_cost) data 0).

(** Rows of the top-cars query: [car_id] and the embedded [cars] (brand,
    model), here [row_car_id] and [row_cars]. *)
Record CarRow := mkCarRow {
  row_car_id : Z;
  row_cars : option (string * string) }.

Record CarEntry := mkCarEntry {
  car : option (string * string);
  rental_count : Z }.

Definition embed_car (d : database) (id : Z) : option (string * string) :=
  match find (fun c => Cars.car_id c =? id) (cars d) with
  | Some c => Some (Cars.brand c, Cars.model c)
  | None => None
  end.

(** select('car_id, cars(brand, model)').gte('rental_date', startDate)
    .neq('status', 'Cancelled') *)
Definition q_top_cars (startDate : date)
  : world -> response (list CarRow) * world :=
  backend (SELECT, t_rentals) (fun d =>
    (resp_ok (map (fun r => mkCarRow (car_id r) (embed_car d (car_id r)))
                (filter (fun r => in_window startDate r && not_cancelled r)
                        (rentals d))), d)).

Definition carCounts_step (acc : obj CarEntry) (rental : CarRow)
  : obj CarEntry :=
  let acc :=
    match obj_get acc (row_car_id rental) with
    | None => obj_set acc (row_car_id rental) (mkCarEntry (row_cars rental) 0)
    | Some _ => acc
    end in
  match obj_get acc (row_car_id rental) with
  | Some e => obj_set acc (row_car_id rental)
                      (mkCarEntry (car e) (rental_count e + 1))
  | None => acc
  end.

Definition carCounts (data : list CarRow) : obj CarEntry :=
  fold_left carCounts_step data [].

Definition topCars (data : list CarRow) : list CarEntry :=
  slice0 5 (Array_sort (fun a b => rental_count b - rental_count a)
                       (Object_values (carCounts data))).

Definition getTopCars (startDate : date) : Async (list CarEntry) :=
  let* r := await (q_top_cars startDate) in
  let* _ := throw_if_error r in
  let* data := rows_or_throw r in
  ret (topCars data).

(** Rows of the top-customers query: [customer_id], the embedded
    [customers] (name) and [total_cost]. *)
Record CustomerRow := mkCustomerRow {
  row_customer_id : Z;
  row_customers : option string;
  row_total_cost : money }.

(** The entry of a customer: [customer], [rental_count] (here
    [cust_rental_count]) and [total_spent]. *)
Record CustomerEntry := mkCustomerEntry {
  customer : option string;
  cust_rental_count : Z;
  total_spent : money }.

Definition embed_customer (d : database) (id : Z) : option string :=
  match find (fun c => Customers.customer_id c =? id) (customers d) with
  | Some c => Some (Customers.name c)
  | None => None
  end.

(** select('customer_id, customers(name), total_cost')
    .gte('rental_date', startDate).neq('status', 'Cancelled') *)
Definition q_top_customers (startDate : date)
  : world -> response (list CustomerRow) * world :=
  backend (SELECT, t_rentals) (fun d =>
    (resp_ok (map (fun r => mkCustomerRow (customer_id r)
                              (embed_customer d (customer_id r)) (total_cost r))
                (filter (fun r => in_window startDate r && not_cancelled r)
                        (rentals d))), d)).

Definition customerStats_step (acc : obj CustomerEntry) (rental : CustomerRow)
  : obj CustomerEntry :=
  let acc :=
    match obj_get acc (row_customer_id rental) with
    | None => obj_set acc (row_customer_id rental)
                      (mkCustomerEntry (row_customers rental) 0 0)
    | Some _ => acc
    end in
  match obj_get acc (row_customer_id rental) with
  | Some e => obj_set acc (row_customer_id rental)
                      (mkCustomerEntry (customer e) (cust_rental_count e + 1)
                         (total_spent e + row_total_cost rental))
  | None => acc
  end.

Definition customerStats (data : list CustomerRow) : obj CustomerEntry :=
  fold_left customerStats_step data [].

Definition topCustomers (data : list CustomerRow) : list CustomerEntry :=
  slice0 5 (Array_sort (fun a b => total_spent b - total_spent a)
                       (Object_values (customerStats data))).

Definition getTopCustomers (startDate : date) : Async (list CustomerEntry) :=
  let* r := await (q_top_customers startDate) in
  let* _ := throw_if_error r in
  let* data := rows_or_throw r in
  ret (topCustomers data).

Definition getTotalCars : Async Z :=
  let* r := await q_count_cars in
  let* _ := throw_if_error r in
  ret (count_or_zero r).

Definition getAvailableCars : Async Z :=
  let* r := await q_count_available_cars in
  let* _ := throw_if_error r in
  ret (count_or_zero r).

Definition getOngoingRentals : Async Z :=
  let* r := await q_count_ongoing_rentals in
  let* _ := throw_if_error r in
  ret (count_or_zero r).

End reportService.

(** Reports.tsx, fetchStats: the cutoff is today minus the timeframe. *)
Definition startDate_of (today : date) (timeframe : Z) : date :=
  today - timeframe.

(** ** paymentService (services) *)

Definition set_payment_status (s : PaymentStatus) (p : Payment) : Payment :=
  Payments.mkPayment (Payments.payment_id p) (Payments.rental_id p)
    (Payments.amount p) (Payments.payment_date p) (Payments.payment_method p) s.

(** A payment with its embedded [rental: { customer: { name } }]. *)
Record PaymentWithRental := mkPaymentWithRental {
  payment_row : Payment;
  rental_customer : option (option string) }.

Definition embed_rental (d : database) (id : Z) : option (option string) :=
  match find (fun r => rental_id r =? id) (rentals d) with
  | Some r => Some (reportService.embed_customer d (customer_id r))
  | None => None
  end.

(** from('payments').select('*, rental:rentals(customer:customers(name))')
    .eq('payment_id', id).single() *)
Definition q_payment_by_id (id : Z)
  : world -> response PaymentWithRental * world :=
  backend (SELECT, t_payments) (fun d =>
    (single (map (fun p => mkPaymentWithRental p
                              (embed_rental d (Payments.rental_id p)))
               (select_where Payments.payment_id id (payments d))), d)).

(** from('payments').insert(payment).select().single() *)
Definition q_insert_payment_single (p : PaymentInsert)
  : world -> response Payment * world :=
  backend (INSERT, t_payments) (fun d =>
    if has_key rental_id (pins_rental_id p) (rentals d)
    then
      let row := Payments.mkPayment (next_payment_id d) (pins_rental_id p)
                   (pins_amount p) (pins_payment_date p)
                   (pins_payment_method p) (pins_status p) in
      (resp_ok row,
       mkDb (customers d) (cars d) (rentals d) (payments d ++ [row])
            (next_rental_id d) (next_payment_id d + 1))
    else (resp_error, d)).

(** from('payments').update({ status }).eq('payment_id', id).select()
    .single() *)
Definition q_update_payment_status (id : Z) (s : PaymentStatus)
  : world -> response Payment * world :=
  backend (UPDATE, t_payments) (fun d =>
    let ps := update_where Payments.payment_id id (set_payment_status s)
                (payments d) in
    (single (select_where Payments.payment_id id ps),
     mkDb (customers d) (cars d) (rentals d) ps
          (next_rental_id d) (next_payment_id d))).

Module paymentService.

Definition getById (id : Z) : Async (option PaymentWithRental) :=
  let* r := await (q_payment_by_id id) in
  let* _ := throw_if_error r in
  ret (data r).

Definition create (payment : PaymentInsert) : Async (option Payment) :=
  let* r := await (q_insert_payment_single payment) in
  let* _ := throw_if_error r in
  ret (data r).

Definition updateStatus (id : Z) (status : PaymentStatus)
  : Async (option Payment) :=
  let* r := await (q_update_payment_status id status) in
  let* _ := throw_if_error r in
  ret (data r).

End paymentService.

(** ** The pages that gather statistics (pages/Reports, pages/Dashboard) *)

(** [Promise.all] of async functions: all of them are started, in the
    order of the array; the result is the pair of results, or the first
    error thrown. *)
Definition Promise_all {A B} (a : Async A) (b : Async B) : Async (A * B) :=
  fun w =>
    let (ra, w1) := a w in
    let (rb, w2) := b w1 in
    (match ra, rb with
     | Returned x, Returned y => Returned (x, y)
     | Thrown e, _ => Thrown e
     | Returned _, Thrown e => Thrown e
     end, w2).

Module Reports.

Record ReportStats := mkReportStats {
  totalRevenue : money;
  topCars : list reportService.CarEntry;
  topCustomers : list reportService.CustomerEntry }.

(** fetchStats: the three reports for the cutoff [timeframe] days back;
    [stats] is replaced when all of them come back. *)
Definition fetchStats (today : date) (timeframe : Z) (stats : option ReportStats)
  : world -> (option ReportStats * option toast) * world :=
  fun w =>
    let startDate := startDate_of today timeframe in
    match Promise_all (reportService.getRevenue startDate)
            (Promise_all (reportService.getTopCars startDate)
                         (reportService.getTopCustomers startDate)) w with
    | (Returned (revenue, (topCars, topCustomers)), w') =>
        ((Some (mkReportStats revenue topCars topCustomers), None), w')
    | (Thrown _, w') =>
        ((stats, Some (toast_error "Failed to fetch report statistics")), w')
    end.

End Reports.

Module Dashboard.

Record DashboardStats := mkDashboardStats {
  totalCars : Z;
  availableCars : Z;
  ongoingRentals : Z;
  totalRevenue : money;
  topCars : list reportService.CarEntry;
  topCustomers : list reportService.CustomerEntry }.

Definition fetchDashboardStats (today : date) (timeframe : Z)
  (stats : option DashboardStats)
  : world -> (option DashboardStats * option toast) * world :=
  fun w =>
    let startDate := startDate_of today timeframe in
    match Promise_all reportService.getTotalCars
            (Promise_all reportService.getAvailableCars
               (Promise_all reportService.getOngoingRentals
                  (Promise_all (reportService.getRevenue startDate)
                     (Promise_all (reportService.getTopCars startDate)
                        (reportService.getTopCustomers startDate))))) w with
    | (Returned (totalCarsCount,
                 (availableCarsCount,
                  (ongoingRentalsCount, (revenue, (topCars, topCustomers))))),
       w') =>
        ((Some (mkDashboardStats totalCarsCount availableCarsCount
                  ongoingRentalsCount revenue topCars topCustomers), None), w')
    | (Thrown _, w') =>
        ((stats, Some (toast_error "Failed to fetch dashboard statistics")), w')
    end.

End Dashboard.

(** ** The rentals page (pages/Rentals) *)

(** A rental with its embedded [customer: { name }] and
    [car: { brand, model }]. *)
Record RentalView := mkRentalView {
  view_rental : Rental;
  view_customer : option string;
  view_car : option (string * string) }.

(** from('rentals').select('*, customer:customers(name),
    car:cars(brand, model)').order('created_at', { ascending: false }) *)
Definition q_all_rentals : world -> response (list RentalView) * world :=
  backend (SELECT, t_rentals) (fun d =>
    (resp_ok (map (fun r => mkRentalView r
                              (reportService.embed_customer d (customer_id r))
                              (reportService.embed_car d (car_id r)))
                (rev (rentals d))), d)).

(** rentalService.getAll *)
Definition rentalService_getAll : Async (list RentalView) :=
  let* r := await q_all_rentals in
  let* _ := throw_if_error r in
  ret (match data r with Some l => l | None => [] end).

Definition RentalStatus_eqb (a b : RentalStatus) : bool :=
  match a, b with
  | Ongoing, Ongoing | Completed, Completed | Cancelled, Cancelled => true
  | _, _ => false
  end.

Module RentalsPage.

(** [statusFilter]: a status, or 'all' ([None]). *)
Record state := mkState {
  rentals : list RentalView;
  statusFilter : option RentalStatus }.

Definition fetchRentals (st : state)
  : world -> (state * option toast) * world :=
  fun w =>
    match rentalService_getAll w with
    | (Returned l, w') => ((mkState l (statusFilter st), None), w')
    | (Thrown _, w') =>
        ((st, Some (toast_error "Failed to fetch rentals")), w')
    end.

(** handleCancel; [confirmed] is the answer to window.confirm.  The
    toasts are listed in the order they are shown. *)
Definition handleCancel (confirmed : bool) (id : Z) (st : state)
  : world -> (state * list toast) * world :=
  fun w =>
    if negb confirmed then ((st, []), w)
    else
      match rentalService.cancel id w with
      | (Returned _, w') =>
          let '((st', t), w'') := fetchRentals st w' in
          ((st', toast_success "Rental cancelled successfully"
                 :: match t with Some e => [e] | None => [] end), w'')
      | (Thrown _, w') =>
          ((st, [toast_error "Failed to cancel rental"]), w')
      end.

Definition filteredRentals (st : state) : list RentalView :=
  filter (fun rental =>
            match statusFilter st with
            | None => true
            | Some s => RentalStatus_eqb (status (view_rental rental)) s
            end) (rentals st).

(** The Complete and Cancel buttons of a row are rendered for an Ongoing
    rental only. *)
Definition has_actions (rental : RentalView) : bool :=
  match status (view_rental rental) with Ongoing => true | _ => false end.

End RentalsPage.

(** * Vocabulary of the properties *)

(** The next [n] backend calls succeed. *)
Definition calls_ok (n : nat) (w : world) : bool :=
  forallb negb (firstn n (faults w)).

(** The row a rental insert creates. *)
Definition inserted_rental (d : database) (r : RentalInsert) : Rental :=
  mkRental (next_rental_id d) (ins_customer_id r) (ins_car_id r)
           (ins_rental_date r) None (ins_total_cost r) (ins_status r).

Definition references_ok (d : database) (r : RentalInsert) : bool :=
  has_key Customers.customer_id (ins_customer_id r) (customers d)
  && has_key Cars.car_id (ins_car_id r) (cars d).

(** *** A small shop: one customer, one available car at 50.00 a day *)

Definition demo_customer : Customer :=
  Customers.mkCustomer 1 "Ada" "ada@example.org".
Definition demo_car : Car :=
  Cars.mkCar 1 "Toyota" "Corolla" 2020 "B 1234 XY" Available 5000.
Definition demo_db : database := mkDb [demo_customer] [demo_car] [] [] 1 1.
Definition demo_world (fs : list bool) : world := mkWorld demo_db fs [].

(** The rental form filled in for a span of three days. *)
Definition demo_form : RentalModal.FormInput :=
  RentalModal.mkFormInput (Some 1) (Some 1) (Some 20000) (Some 20003).

(** The sum of the payments recorded for a rental. *)
Definition paid_for (d : database) (id : Z) : money :=
  fold_right Z.add 0
    (map Payments.amount (select_where Payments.rental_id id (payments d))).

(** The row a payment insert creates. *)
Definition inserted_payment (d : database) (R : Rental)
  (data : PaymentModal.PaymentFormData) : Payment :=
  Payments.mkPayment (next_payment_id d) (rental_id R)
    (PaymentModal.amount data) (PaymentModal.payment_date data)
    (PaymentModal.payment_method data) Paid.

(** A rental of the small shop's car, total cost 150.00, nothing paid yet. *)
Definition demo_rental : Rental := mkRental 1 1 1 20000 None 15000 Ongoing.
Definition rented_db : database :=
  mkDb [demo_customer] [set_car_status Rented demo_car] [demo_rental] [] 2 1.

(** The payment modal opened on [demo_rental] on day [today], then the
    amount field set to [a] and the form submitted. *)
Definition demo_payment (today : date) (a : money)
  : PaymentModal.submission * world :=
  let opened := PaymentModal.fetchPreviousPayments (Some demo_rental)
                  (PaymentModal.initial today) (mkWorld rented_db [] []) in
  let st := fst (fst opened) in
  PaymentModal.submit today (Some demo_rental)
    (PaymentModal.mkState (PaymentModal.totalPaid st)
       (PaymentModal.setValue_amount a (PaymentModal.form st)))
    (snd opened).

(** A rental of 100.20 of the small shop's car on which 20.10 has been
    paid. *)
Definition part_paid_rental : Rental := mkRental 1 1 1 20000 None 10020 Ongoing.
Definition part_paid_db : database :=
  mkDb [demo_customer] [set_car_status Rented demo_car] [part_paid_rental]
       [Payments.mkPayment 1 1 2010 20001 Cash Paid] 2 2.

(** [demo_rental], of 150.00, on which 100.00 has been paid. *)
Definition owing_db : database :=
  mkDb [demo_customer] [set_car_status Rented demo_car] [demo_rental]
       [Payments.mkPayment 1 1 10000 20001 Cash Paid] 2 2.

(** The text [s] writes the amount of [c] cents with two decimals: the
    digits of the whole part, a point, and two digits. *)
Definition writes_amount (s : string) (c : Z) : Prop :=
  exists whole frac : string,
    s = String.append whole (String.append "." frac)
    /\ String.length frac = 2%nat
    /\ exists w f,
         NilZero.uint_of_string whole = Some w
         /\ NilZero.uint_of_string frac = Some f
         /\ Z.of_N (N.of_uint w) * 100 + Z.of_N (N.of_uint f) = c.

(** The reading of the local clock, in minutes, at 00:00 UTC of a day. *)
Definition local_clock (tz : zone) (d : date) : Z := d * 1440 + tz d.

(** The whole days in the span from [d1] to [d2] as the local clock
    measures it. *)
Definition whole_days (tz : zone) (d1 d2 : date) : Z :=
  Z.quot (local_clock tz d2 - local_clock tz d1) 1440.

(** A zone where the clock is set back by an hour on day 20002: from
    four hours behind UTC to five. *)
Definition clock_set_back : zone :=
  fun d => if d <? 20002 then -240 else -300.

(** A rental counts towards revenue: Completed, dated at or after the cutoff. *)
Definition counts_for_revenue (startDate : date) (r : Rental) : bool :=
  match status r with
  | Completed => startDate <=? rental_date r
  | Ongoing | Cancelled => false
  end.

(** The revenue as the report is worded: the sum of total_cost over the
    rentals that count. *)
Definition revenue_of (startDate : date) (rs : list Rental) : money :=
  fold_right Z.add 0 (map total_cost (filter (counts_for_revenue startDate) rs)).

(** Thirty days back from day 20100: two Completed rentals of 100.00 and
    200.00 and a Cancelled one of 500.00, all inside the window. *)
Definition report_db : database :=
  mkDb [demo_customer] [demo_car]
       [ mkRental 1 1 1 20080 (Some 20082) 10000 Completed;
         mkRental 2 1 1 20085 None 50000 Cancelled;
         mkRental 3 1 1 20090 (Some 20095) 20000 Completed ]
       [] 4 1.

Definition keys {V} (o : obj V) : list Z := map fst o.

(** *** Grouping rows by a key *)

(** The shape of both reduce callbacks: create the entry of the row's key
    when it has none, then update it. *)
Definition upsert {R V} (key : R -> Z) (init : R -> V) (bump : R -> V -> V)
  (acc : obj V) (row : R) : obj V :=
  let acc :=
    match obj_get acc (key row) with
    | None => obj_set acc (key row) (init row)
    | Some _ => acc
    end in
  match obj_get acc (key row) with
  | Some e => obj_set acc (key row) (bump row e)
  | None => acc
  end.

(** What the rows do to the entry of one key. *)
Definition group_of {R V} (key : R -> Z) (init : R -> V) (bump : R -> V -> V)
  (k : Z) (rows : list R) (o : option V) : option V :=
  fold_left (fun o r =>
               if key r =? k
               then Some (bump r (match o with Some v => v | None => init r end))
               else o) rows o.

(** *** The order of the groups *)

(** The ids that are array indices. *)
Definition index_key (k : Z) : bool := (0 <=? k) && (k <=? 4294967294).

Definition other_key (k : Z) : bool := negb (index_key k).

(** The ids of [l] in the order of their first occurrence. *)
Definition first_seen (l : list Z) : list Z :=
  fold_left (fun seen k => if existsb (Z.eqb k) seen then seen else seen ++ [k])
            l [].

(** The invariant of the property list of an object: no key is listed
    after one it goes before. *)
Definition listed (l : list Z) : Prop :=
  StronglySorted (fun a b => goes_before b a = false) l.

(** *** Sorting in descending order and keeping the first entries *)

(** [a] may come before [b] in descending order of the measure [m]. *)
Definition desc_by {V} (m : V -> Z) (a b : V) : Prop := m b <= m a.

(** [result] is a top-[n] of [groups] by the measure [m]: in descending
    order of [m], of length [n] unless there are fewer groups, made of
    groups, and no group left out has a larger measure than one kept. *)
Definition top_by {V} (m : V -> Z) (n : nat) (groups result : list V) : Prop :=
  StronglySorted (desc_by m) result
  /\ List.length result = Nat.min n (List.length groups)
  /\ exists rest,
       Permutation groups (result ++ rest)
       /\ forall e e', In e result -> In e' rest -> m e' <= m e.

(** *** Top cars and top customers *)

(** A rental is counted by the top reports: not Cancelled (so Ongoing or
    Completed) and dated at or after the cutoff. *)
Definition eligible (startDate : date) (r : Rental) : bool :=
  match status r with
  | Cancelled => false
  | Ongoing | Completed => startDate <=? rental_date r
  end.

Definition rentals_of_car (startDate : date) (k : Z) (rs : list Rental)
  : list Rental :=
  filter (fun r => eligible startDate r && (car_id r =? k)) rs.

Definition rentals_of_customer (startDate : date) (k : Z) (rs : list Rental)
  : list Rental :=
  filter (fun r => eligible startDate r && (customer_id r =? k)) rs.

(** [groups] is the grouping by car of the counted rentals of [d]: one
    group per car that has a counted rental, holding their number. *)
Definition car_groups_ok (startDate : date) (d : database)
  (groups : obj reportService.CarEntry) : Prop :=
  NoDup (keys groups)
  /\ (forall k, In k (keys groups) <-> rentals_of_car startDate k (rentals d) <> [])
  /\ (forall k e, In (k, e) groups ->
        reportService.rental_count e
        = Z.of_nat (List.length (rentals_of_car startDate k (rentals d)))
        /\ reportService.car e = reportService.embed_car d k).

(** [groups] is the grouping by customer of the counted rentals of [d]:
    one group per customer that has a counted rental, holding their number
    and the sum of their total costs. *)
Definition customer_groups_ok (startDate : date) (d : database)
  (groups : obj reportService.CustomerEntry) : Prop :=
  NoDup (keys groups)
  /\ (forall k, In k (keys groups)
                <-> rentals_of_customer startDate k (rentals d) <> [])
  /\ (forall k e, In (k, e) groups ->
        reportService.cust_rental_count e
        = Z.of_nat (List.length (rentals_of_customer startDate k (rentals d)))
        /\ reportService.total_spent e
           = fold_right Z.add 0
               (map total_cost (rentals_of_customer startDate k (rentals d)))
        /\ reportService.customer e = reportService.embed_customer d k).

(** The two pieces of the reduce callback of the top-cars report. *)
Definition car_init (r : reportService.CarRow) : reportService.CarEntry :=
  reportService.mkCarEntry (reportService.row_cars r) 0.

Definition car_bump (r : reportService.CarRow) (e : reportService.CarEntry)
  : reportService.CarEntry :=
  reportService.mkCarEntry (reportService.car e) (reportService.rental_count e + 1).

(** The two pieces of the reduce callback of the top-customers report. *)
Definition customer_init (r : reportService.CustomerRow)
  : reportService.CustomerEntry :=
  reportService.mkCustomerEntry (reportService.row_customers r) 0 0.

Definition customer_bump (r : reportService.CustomerRow)
  (e : reportService.CustomerEntry) : reportService.CustomerEntry :=
  reportService.mkCustomerEntry (reportService.customer e)
    (reportService.cust_rental_count e + 1)
    (reportService.total_spent e + reportService.row_total_cost r).

(** *** Occupation of cars *)

Definition is_ongoing (r : Rental) : bool :=
  match status r with Ongoing => true | _ => false end.

(** The number of Ongoing rentals of the car [c]. *)
Definition ongoing_count (rs : list Rental) (c : Z) : nat :=
  List.length (filter (fun r => is_ongoing r && (car_id r =? c)) rs).

(** The tables agree on who has which car: no car has two Ongoing
    rentals, and a car shown as Available has none. *)
Definition consistent (d : database) : Prop :=
  (forall c, (ongoing_count (rentals d) c <= 1)%nat)
  /\ (forall car, In car (cars d) -> Cars.status car = Available ->
        ongoing_count (rentals d) (Cars.car_id car) = 0%nat).

(** *** Reading the statistics *)

(** The world after one reading call: the tables as they were, one entry
    of the schedule used up, the call logged. *)
Definition after_read (c : call) (w : world) : world :=
  mkWorld (tables w) (tl (faults w)) (log w ++ [c]).

(** Whether the next backend call fails. *)
Definition next_fails (w : world) : bool := hd false (faults w).

(** The rows the two top queries answer with. *)
Definition car_rows (startDate : date) (d : database)
  : list reportService.CarRow :=
  map (fun r => reportService.mkCarRow (car_id r)
                  (reportService.embed_car d (car_id r)))
      (filter (fun r => reportService.in_window startDate r
                        && reportService.not_cancelled r) (rentals d)).

Definition customer_rows (startDate : date) (d : database)
  : list reportService.CustomerRow :=
  map (fun r => reportService.mkCustomerRow (customer_id r)
                  (reportService.embed_customer d (customer_id r)) (total_cost r))
      (filter (fun r => reportService.in_window startDate r
                        && reportService.not_cancelled r) (rentals d)).

(** The sum of a measure over a list of entries. *)
Definition sum_of {V} (m : V -> Z) (l : list V) : Z :=
  fold_right Z.add 0 (map m l).

(** Every rental refers to a car of the cars table (the foreign key of
    the schema). *)
Definition rentals_have_cars (d : database) : Prop :=
  forall r, In r (rentals d) -> has_key Cars.car_id (car_id r) (cars d) = true.

(** * Properties *)

(** ** The backend *)

Lemma backend_ok {A} (c : call) (run : database -> response A * database)
  (w : world) (n : nat) :
  calls_ok (S n) w = true ->
  backend c run w
  = (fst (run (tables w)),
     mkWorld (snd (run (tables w))) (tl (faults w)) (log w ++ [c]))
  /\ calls_ok n (mkWorld (snd (run (tables w))) (tl (faults w)) (log w ++ [c]))
     = true.
Proof.
  unfold calls_ok, backend. destruct w as [d fs l]; simpl.
  destruct fs as [|[] fs]; simpl; try discriminate.
  - intros _. destruct (run d); simpl. split; [reflexivity|].
    destruct n; reflexivity.
  - intros H. destruct (run d); simpl. split; [reflexivity|].
    destruct n; simpl; auto.
Qed.

(** Every backend call uses up one entry of the schedule and adds one
    entry to the log. *)
Lemma backend_faults_log {A} (c : call) (run : database -> response A * database) w :
  faults (snd (backend c run w)) = tl (faults w)
  /\ log (snd (backend c run w)) = log w ++ [c].
Proof.
  unfold backend. destruct (faults w) as [|[] fs]; simpl; auto;
    destruct (run (tables w)); auto.
Qed.

(** ** Tables *)

Lemma select_where_none {A} (key : A -> Z) k rows :
  (forall r, In r rows -> key r <> k) -> select_where key k rows = [].
Proof.
  unfold select_where. induction rows as [|r rows IH]; simpl; intros H; auto.
  destruct (Z.eqb_spec (key r) k) as [E|E].
  - exfalso. apply (H r); auto.
  - apply IH. intros r' Hr'. apply H. auto.
Qed.

Lemma select_where_unique {A} (key : A -> Z) (r : A) rows :
  NoDup (map key rows) -> In r rows -> select_where key (key r) rows = [r].
Proof.
  unfold select_where. induction rows as [|x rows IH]; simpl; intros Hnd Hin.
  - contradiction.
  - inversion Hnd as [|? ? Hx Hnd']; subst.
    destruct Hin as [->|Hin].
    + rewrite Z.eqb_refl. f_equal.
      apply select_where_none. intros r' Hr' E. apply Hx. rewrite <- E.
      apply in_map. exact Hr'.
    + destruct (Z.eqb_spec (key x) (key r)) as [E|E].
      * exfalso. apply Hx. rewrite E. apply in_map. exact Hin.
      * apply IH; assumption.
Qed.

Lemma select_update_where {A} (key : A -> Z) k (f : A -> A) rows :
  (forall r, key (f r) = key r) ->
  select_where key k (update_where key k f rows) = map f (select_where key k rows).
Proof.
  intros Hf. unfold select_where, update_where.
  induction rows as [|x rows IH]; simpl; auto.
  destruct (Z.eqb_spec (key x) k) as [E|E]; simpl.
  - rewrite Hf, E, Z.eqb_refl. simpl. f_equal. exact IH.
  - destruct (Z.eqb_spec (key x) k); [contradiction|]. exact IH.
Qed.

Lemma in_update_where {A} (key : A -> Z) k (f : A -> A) rows r' :
  In r' (update_where key k f rows) <->
  exists r, In r rows /\ r' = (if key r =? k then f r else r).
Proof.
  unfold update_where. rewrite in_map_iff. split.
  - intros (r & E & H). exists r. auto.
  - intros (r & H & E). exists r. auto.
Qed.

Lemma update_where_in {A} (key : A -> Z) k (f : A -> A) rows r :
  In r rows -> key r = k -> In (f r) (update_where key k f rows).
Proof.
  intros Hin E. apply in_update_where. exists r. split; [exact Hin|].
  rewrite E, Z.eqb_refl. reflexivity.
Qed.

Lemma update_where_hit {A} (key : A -> Z) k (f : A -> A) rows r' :
  In r' (update_where key k f rows) -> key r' = k ->
  (forall r, key (f r) = key r) ->
  exists r, In r rows /\ key r = k /\ r' = f r.
Proof.
  intros Hin E Hf. apply in_update_where in Hin. destruct Hin as (r & Hr & ->).
  destruct (Z.eqb_spec (key r) k) as [Ek|Ek].
  - exists r. auto.
  - contradiction.
Qed.

Lemma update_where_other {A} (key : A -> Z) k (f : A -> A) rows r :
  (forall r, key (f r) = key r) -> key r <> k ->
  (In r (update_where key k f rows) <-> In r rows).
Proof.
  intros Hf Hne. rewrite in_update_where. split.
  - intros (r0 & Hr0 & ->).
    destruct (Z.eqb_spec (key r0) k) as [E|E]; [|exact Hr0].
    exfalso. apply Hne. rewrite Hf. exact E.
  - intros Hr. exists r. split; [exact Hr|].
    destruct (Z.eqb_spec (key r) k); [contradiction|reflexivity].
Qed.

Lemma update_where_keys {A} (key : A -> Z) k (f : A -> A) rows :
  (forall r, key (f r) = key r) ->
  map key (update_where key k f rows) = map key rows.
Proof.
  intros Hf. unfold update_where. rewrite map_map. apply map_ext.
  intros r. destruct (key r =? k); [apply Hf|reflexivity].
Qed.

(** ** rentalService *)

(** Run the next backend call of the goal, which [Hok] says succeeds;
    [Hok'] says the same of the calls after it. *)
Ltac backend_step Hok E Hok' :=
  match type of Hok with
  | calls_ok (S ?n) _ = true =>
      match goal with
      | |- context [backend ?c ?run ?w1] =>
          destruct (backend_ok c run w1 n Hok) as [E Hok']; rewrite E
      end
  end.

Ltac backend_last Hok E :=
  let H := fresh in backend_step Hok E H; clear H.

Ltac run_async :=
  unfold rentalService.create, rentalService.complete, rentalService.cancel,
    bind, await, ret, throw, throw_if_error; simpl.

Lemma q_rental_car_missing (w : world) (id : Z) :
  (forall r, In r (rentals (tables w)) -> rental_id r <> id) ->
  data (fst (q_rental_car id w)) = None
  /\ tables (snd (q_rental_car id w)) = tables w.
Proof.
  intros H. unfold q_rental_car, backend.
  rewrite (select_where_none rental_id id _ H). simpl.
  destruct (faults w) as [|[] fs]; simpl; auto.
Qed.

(** C10. For a rental id that no row of the rentals table carries,
    [rentalService.complete] and [rentalService.cancel] both throw the
    error 'Rental not found'; the only backend call issued is the lookup
    of the rental, so no update is issued and all tables are exactly as
    before. *)
Theorem complete_cancel_missing_rental (w : world) (id : Z) (returnDate : date) :
  (forall r, In r (rentals (tables w)) -> rental_id r <> id) ->
  (fst (rentalService.complete id returnDate w) = Thrown (Error "Rental not found")
   /\ tables (snd (rentalService.complete id returnDate w)) = tables w
   /\ log (snd (rentalService.complete id returnDate w))
      = log w ++ [(SELECT, t_rentals)])
  /\
  (fst (rentalService.cancel id w) = Thrown (Error "Rental not found")
   /\ tables (snd (rentalService.cancel id w)) = tables w
   /\ log (snd (rentalService.cancel id w)) = log w ++ [(SELECT, t_rentals)]).
Proof.
  intros H.
  destruct (q_rental_car_missing w id H) as [Hd Ht].
  destruct (backend_faults_log (SELECT, t_rentals)
    (fun d => (single (map car_id (select_where rental_id id (rentals d))), d)) w)
    as [_ Hl].
  fold (q_rental_car id) in Hl.
  run_async.
  destruct (q_rental_car id w) as [q w'] eqn:E. simpl in *.
  rewrite Hd. simpl. auto.
Qed.

Lemma complete_cancel_missing_rental_witness :
  (forall r, In r (rentals rented_db) -> rental_id r <> 7)
  /\ fst (rentalService.complete 7 20003 (mkWorld rented_db [] []))
     = Thrown (Error "Rental not found")
  /\ fst (rentalService.cancel 7 (mkWorld rented_db [] []))
     = Thrown (Error "Rental not found").
Proof.
  assert (H : forall r, In r (rentals rented_db) -> rental_id r <> 7).
  { intros r [<-|[]]. discriminate. }
  split; [exact H|].
  destruct (complete_cancel_missing_rental (mkWorld rented_db [] []) 7 20003 H)
    as [[Hc _] [Hx _]].
  split; [exact Hc|exact Hx].
Defined.

Lemma pk_unique {A} (key : A -> Z) (rows : list A) (r r' : A) :
  NoDup (map key rows) -> In r rows -> In r' rows -> key r = key r' -> r = r'.
Proof.
  induction rows as [|x rows IH]; simpl; intros Hnd Hr Hr' E; [contradiction|].
  inversion Hnd as [|? ? Hx Hnd']; subst.
  destruct Hr as [->|Hr], Hr' as [->|Hr']; auto.
  - exfalso. apply Hx. rewrite E. apply in_map. exact Hr'.
  - exfalso. apply Hx. rewrite <- E. apply in_map. exact Hr.
Qed.

(** The tables after a cancellation whose three calls succeed. *)
Lemma cancel_run (w : world) (R : Rental) :
  calls_ok 3 w = true ->
  NoDup (map rental_id (rentals (tables w))) ->
  In R (rentals (tables w)) ->
  rentalService.cancel (rental_id R) w
  = (Returned (Some (set_rental_status Cancelled R)),
     mkWorld
       (with_cars
          (with_rentals (tables w)
             (update_where rental_id (rental_id R) (set_rental_status Cancelled)
                (rentals (tables w))))
          (update_where Cars.car_id (car_id R) (set_car_status Available)
             (cars (tables w))))
       (tl (tl (tl (faults w))))
       (log w ++ [(SELECT, t_rentals); (UPDATE, t_rentals); (UPDATE, t_cars)])).
Proof.
  intros Hok Hnd Hin.
  unfold rentalService.cancel, bind, await.
  unfold q_rental_car. backend_step Hok E1 H1.
  cbn [fst snd]. rewrite (select_where_unique rental_id R _ Hnd Hin).
  cbn [map single resp_ok data].
  unfold q_update_rental_single.
  backend_step H1 E2 H2.
  cbn [fst snd tables faults log].
  rewrite select_update_where by reflexivity.
  rewrite (select_where_unique rental_id R _ Hnd Hin).
  cbn [map single resp_ok data error throw_if_error ret].
  unfold q_update_car_status.
  backend_last H2 E3.
  cbn [fst snd tables faults log with_rentals with_cars rentals cars customers
       payments next_rental_id next_payment_id].
  rewrite <- !app_assoc. reflexivity.
Qed.

(** C5. Cancelling an existing rental R (its three backend calls
    succeeding): the service returns R with status Cancelled; in the
    rentals table the row of R has status Cancelled and the return date it
    had, and every other rental is as before; the payments table is
    unchanged; every car row referenced by R has status Available and
    every other car is as before.  Nothing is assumed about the payments
    recorded for R. *)
Theorem cancel_existing_rental (w : world) (R : Rental) :
  calls_ok 3 w = true ->
  NoDup (map rental_id (rentals (tables w))) ->
  In R (rentals (tables w)) ->
  let out := rentalService.cancel (rental_id R) w in
  let d := tables w in
  let d' := tables (snd out) in
  fst out = Returned (Some (set_rental_status Cancelled R))
  /\ In (set_rental_status Cancelled R) (rentals d')
  /\ (forall r', In r' (rentals d') -> rental_id r' = rental_id R ->
        status r' = Cancelled /\ return_date r' = return_date R)
  /\ (forall r, rental_id r <> rental_id R -> (In r (rentals d') <-> In r (rentals d)))
  /\ payments d' = payments d
  /\ (forall c', In c' (cars d') -> Cars.car_id c' = car_id R -> Cars.status c' = Available)
  /\ (forall c, Cars.car_id c <> car_id R -> (In c (cars d') <-> In c (cars d)))
  /\ map Cars.car_id (cars d') = map Cars.car_id (cars d).
Proof.
  intros Hok Hnd Hin out d d'. subst out d d'.
  rewrite (cancel_run w R Hok Hnd Hin).
  cbn [fst snd tables with_cars with_rentals rentals payments cars].
  split; [reflexivity|].
  split; [apply update_where_in; [exact Hin|reflexivity]|].
  split.
  { intros r' Hr' Eid.
    destruct (update_where_hit _ _ _ _ _ Hr' Eid (fun _ => eq_refl))
      as (r & Hr & E & ->).
    rewrite (pk_unique rental_id _ r R Hnd Hr Hin E). split; reflexivity. }
  split; [intros r Hne; apply update_where_other; [reflexivity|exact Hne]|].
  split; [reflexivity|].
  split.
  { intros c' Hc' Eid.
    destruct (update_where_hit _ _ _ _ _ Hc' Eid (fun _ => eq_refl))
      as (c & _ & _ & ->).
    reflexivity. }
  split; [intros c Hne; apply update_where_other; [reflexivity|exact Hne]|].
  apply update_where_keys. reflexivity.
Qed.

Lemma cancel_existing_rental_witness :
  calls_ok 3 (mkWorld rented_db [] []) = true
  /\ NoDup (map rental_id (rentals rented_db))
  /\ In demo_rental (rentals rented_db)
  /\ fst (rentalService.cancel 1 (mkWorld rented_db [] []))
     = Returned (Some (set_rental_status Cancelled demo_rental)).
Proof.
  assert (Hnd : NoDup (map rental_id (rentals rented_db))).
  { constructor; [intros []|constructor]. }
  assert (Hin : In demo_rental (rentals rented_db)) by (left; reflexivity).
  split; [reflexivity|]. split; [exact Hnd|]. split; [exact Hin|].
  exact (proj1 (cancel_existing_rental (mkWorld rented_db [] []) demo_rental
                  eq_refl Hnd Hin)).
Defined.

(** [create] when both of its calls succeed. *)
Lemma create_run (w : world) (r : RentalInsert) :
  calls_ok 2 w = true ->
  references_ok (tables w) r = true ->
  rentalService.create r w
  = (Returned (Some (inserted_rental (tables w) r)),
     mkWorld
       (mkDb (customers (tables w))
             (update_where Cars.car_id (ins_car_id r) (set_car_status Rented)
                (cars (tables w)))
             (rentals (tables w) ++ [inserted_rental (tables w) r])
             (payments (tables w))
             (next_rental_id (tables w) + 1) (next_payment_id (tables w)))
       (tl (tl (faults w)))
       (log w ++ [(INSERT, t_rentals); (UPDATE, t_cars)])).
Proof.
  intros Hok Hfk. unfold references_ok in Hfk.
  unfold rentalService.create, bind, await, q_insert_rental.
  backend_step Hok E1 H1.
  rewrite Hfk. cbn [fst snd resp_ok data error throw_if_error ret].
  unfold q_update_car_status.
  backend_last H1 E2.
  cbn [fst snd tables faults log with_cars rentals cars customers
       payments next_rental_id next_payment_id].
  rewrite <- !app_assoc. reflexivity.
Qed.

(** [create] when the rental insert fails: the error is thrown, nothing
    is written and the car update is not issued. *)
Lemma create_insert_fails (w : world) (r : RentalInsert) (fs : list bool) :
  faults w = true :: fs ->
  rentalService.create r w
  = (Thrown BackendError, mkWorld (tables w) fs (log w ++ [(INSERT, t_rentals)])).
Proof.
  intros Hf.
  unfold rentalService.create, bind, await, q_insert_rental, backend.
  rewrite Hf. reflexivity.
Qed.

(** [create] when the insert succeeds and the car update fails: the
    answer of the car update is discarded, so [create] returns the new
    rental as on success; the rental stays inserted and the car is as it
    was. *)
Lemma create_car_update_fails (w : world) (r : RentalInsert) (fs : list bool) :
  faults w = false :: true :: fs ->
  references_ok (tables w) r = true ->
  rentalService.create r w
  = (Returned (Some (inserted_rental (tables w) r)),
     mkWorld
       (mkDb (customers (tables w)) (cars (tables w))
             (rentals (tables w) ++ [inserted_rental (tables w) r])
             (payments (tables w))
             (next_rental_id (tables w) + 1) (next_payment_id (tables w)))
       fs
       (log w ++ [(INSERT, t_rentals); (UPDATE, t_cars)])).
Proof.
  intros Hf Hfk. unfold references_ok in Hfk.
  unfold rentalService.create, bind, await, q_insert_rental, q_update_car_status,
    backend.
  rewrite Hf, Hfk. cbn. rewrite <- !app_assoc. reflexivity.
Qed.

(** ** Rental creation *)



(** C9, at the failing input: in the small shop with the rental insert
    succeeding and the car update failing, [rentalService.create] returns
    the new rental instead of throwing and the form reports success; the
    inserted rental stays in the table (there is no rollback) and the car
    is still Available. *)
Theorem create_car_update_failure_is_not_surfaced :
  let w := demo_world [false; true] in
  let st := RentalModal.mkState [demo_car] demo_form in
  let data := RentalModal.mkFormData 1 1 20000 20003 in
  let row := mkRental 1 1 1 20000 None 15000 Ongoing in
  rentalService.create (RentalModal.payload st data) w
  = (Returned (Some row),
     mkWorld (mkDb [demo_customer] [demo_car] [row] [] 2 1) []
             [(INSERT, t_rentals); (UPDATE, t_cars)])
  /\ fst (RentalModal.onSubmit st data w)
     = toast_success "Rental created successfully"
  /\ rentals (tables (snd (RentalModal.onSubmit st data w))) = [row]
  /\ cars (tables (snd (RentalModal.onSubmit st data w))) = [demo_car]
  /\ Cars.status demo_car = Available.
Proof.
  vm_compute. repeat split.
Qed.

(** ** Payments *)

Example toFixed2_examples :
  toFixed2 9000 = "90.00" /\ toFixed2 5 = "0.05" /\ toFixed2 (-150) = "-1.50"
  /\ toFixed2 123456 = "1234.56".
Proof. vm_compute. repeat split. Qed.

Lemma sum_amounts_from (l : list money) (acc : money) :
  fold_left (fun sum a => sum + a) l acc = acc + fold_right Z.add 0 l.
Proof.
  revert acc. induction l as [|a l IH]; simpl; intros acc; [lia|].
  rewrite IH. lia.
Qed.

Lemma fold_right_add_from (l : list Z) (z : Z) :
  fold_right Z.add z l = fold_right Z.add 0 l + z.
Proof. induction l as [|x l IH]; cbn [fold_right]; lia. Qed.

Lemma sum_amounts_spec (l : list money) :
  PaymentModal.sum_amounts l = fold_right Z.add 0 l.
Proof. unfold PaymentModal.sum_amounts. rewrite sum_amounts_from. lia. Qed.

Lemma has_key_in {A} (key : A -> Z) (r : A) rows :
  In r rows -> has_key key (key r) rows = true.
Proof.
  intros H. unfold has_key. apply existsb_exists. exists r. split; [exact H|].
  apply Z.eqb_refl.
Qed.

(** Opening the modal on a rental, the fetch succeeding: [totalPaid] is the
    sum of the payments recorded for the rental, the amount field holds the
    balance, and the tables are untouched. *)
Lemma fetchPreviousPayments_loads (R : Rental) (st : PaymentModal.state) (w : world) :
  calls_ok 1 w = true ->
  PaymentModal.fetchPreviousPayments (Some R) st w
  = ((PaymentModal.mkState (paid_for (tables w) (rental_id R))
        (PaymentModal.setValue_amount
           (total_cost R - paid_for (tables w) (rental_id R))
           (PaymentModal.form st)), None),
     mkWorld (tables w) (tl (faults w)) (log w ++ [(SELECT, t_payments)])).
Proof.
  intros Hok. unfold PaymentModal.fetchPreviousPayments, q_payment_amounts.
  backend_last Hok E1.
  cbn [fst snd resp_ok data error]. rewrite sum_amounts_spec. reflexivity.
Qed.

(** Opening the modal, the fetch failing: an error toast, and [totalPaid]
    keeps the value it had. *)
Lemma fetchPreviousPayments_fails (R : Rental) (st : PaymentModal.state) (w : world) fs :
  faults w = true :: fs ->
  PaymentModal.fetchPreviousPayments (Some R) st w
  = ((st, Some (toast_error "Failed to fetch payment history")),
     mkWorld (tables w) fs (log w ++ [(SELECT, t_payments)])).
Proof.
  intros Hf. unfold PaymentModal.fetchPreviousPayments, q_payment_amounts, backend.
  rewrite Hf. reflexivity.
Qed.

(** [onSubmit] reaching the full amount, its three calls succeeding. *)
Lemma onSubmit_full_run (today : date) (R : Rental) (st : PaymentModal.state)
  (fd : PaymentModal.PaymentFormData) (w : world) :
  calls_ok 3 w = true ->
  In R (rentals (tables w)) ->
  PaymentModal.totalPaid st + PaymentModal.amount fd >= total_cost R ->
  PaymentModal.onSubmit today (Some R) st fd w
  = (Some (toast_success PaymentModal.full_message),
     mkWorld
       (mkDb (customers (tables w))
             (update_where Cars.car_id (car_id R) (set_car_status Available)
                (cars (tables w)))
             (update_where rental_id (rental_id R) (set_rental_completed today)
                (rentals (tables w)))
             (payments (tables w) ++ [inserted_payment (tables w) R fd])
             (next_rental_id (tables w)) (next_payment_id (tables w) + 1))
       (tl (tl (tl (faults w))))
       (log w ++ [(INSERT, t_payments); (UPDATE, t_rentals); (UPDATE, t_cars)])).
Proof.
  intros Hok Hin Hge.
  unfold PaymentModal.onSubmit, try_toast, PaymentModal.onSubmit_body, bind, await.
  unfold q_insert_payment.
  backend_step Hok E1 H1.
  cbn [pins_rental_id]. rewrite (has_key_in rental_id R _ Hin).
  cbn [fst snd resp_null data error throw_if_error ret].
  assert (Hc : (PaymentModal.totalPaid st + PaymentModal.amount fd
                >=? total_cost R) = true) by (apply Z.geb_le; lia).
  rewrite Hc.
  unfold q_update_rental.
  backend_step H1 E2 H2.
  cbn [fst snd resp_null data error throw_if_error ret].
  unfold q_update_car_status.
  backend_last H2 E3.
  cbn [fst snd resp_null data error throw_if_error ret tables faults log
       with_rentals with_cars rentals cars customers payments
       next_rental_id next_payment_id pins_amount pins_payment_method
       pins_payment_date pins_status].
  rewrite <- !app_assoc. reflexivity.
Qed.

(** [onSubmit] staying below the full amount, the insert succeeding. *)
Lemma onSubmit_partial_run (today : date) (R : Rental) (st : PaymentModal.state)
  (fd : PaymentModal.PaymentFormData) (w : world) :
  calls_ok 1 w = true ->
  In R (rentals (tables w)) ->
  PaymentModal.totalPaid st + PaymentModal.amount fd < total_cost R ->
  PaymentModal.onSubmit today (Some R) st fd w
  = (Some (toast_success
             (PaymentModal.partial_message
                (total_cost R
                 - (PaymentModal.totalPaid st + PaymentModal.amount fd)))),
     mkWorld
       (mkDb (customers (tables w)) (cars (tables w)) (rentals (tables w))
             (payments (tables w) ++ [inserted_payment (tables w) R fd])
             (next_rental_id (tables w)) (next_payment_id (tables w) + 1))
       (tl (faults w))
       (log w ++ [(INSERT, t_payments)])).
Proof.
  intros Hok Hin Hlt.
  unfold PaymentModal.onSubmit, try_toast, PaymentModal.onSubmit_body, bind, await.
  unfold q_insert_payment.
  backend_last Hok E1.
  cbn [pins_rental_id]. rewrite (has_key_in rental_id R _ Hin).
  cbn [fst snd resp_null data error throw_if_error ret].
  assert (Hc : (PaymentModal.totalPaid st + PaymentModal.amount fd
                >=? total_cost R) = false).
  { rewrite Z.geb_leb. apply Z.leb_gt. lia. }
  rewrite Hc. reflexivity.
Qed.

(** [PaymentModalDouble.onSubmit] when the comparison of the code
    holds, its three calls succeeding. *)
Lemma onSubmit_double_full_run (today : date) (R : Rental)
  (st : PaymentModalDouble.state) (fd : PaymentModal.PaymentFormData) (w : world) :
  calls_ok 3 w = true ->
  In R (rentals (tables w)) ->
  PrimFloat.leb (number_of_decimal (total_cost R))
    (PrimFloat.add (PaymentModalDouble.totalPaid st)
                   (number_of_decimal (PaymentModal.amount fd))) = true ->
  PaymentModalDouble.onSubmit today (Some R) st fd w
  = (Some (toast_success PaymentModal.full_message),
     mkWorld
       (mkDb (customers (tables w))
             (update_where Cars.car_id (car_id R) (set_car_status Available)
                (cars (tables w)))
             (update_where rental_id (rental_id R) (set_rental_completed today)
                (rentals (tables w)))
             (payments (tables w) ++ [inserted_payment (tables w) R fd])
             (next_rental_id (tables w)) (next_payment_id (tables w) + 1))
       (tl (tl (tl (faults w))))
       (log w ++ [(INSERT, t_payments); (UPDATE, t_rentals); (UPDATE, t_cars)])).
Proof.
  intros Hok Hin Hc.
  unfold PaymentModalDouble.onSubmit, try_toast, PaymentModalDouble.onSubmit_body,
    bind, await.
  unfold q_insert_payment.
  backend_step Hok E1 H1.
  cbn [pins_rental_id]. rewrite (has_key_in rental_id R _ Hin).
  cbn [fst snd resp_null data error throw_if_error ret].
  rewrite Hc.
  unfold q_update_rental.
  backend_step H1 E2 H2.
  cbn [fst snd resp_null data error throw_if_error ret].
  unfold q_update_car_status.
  backend_last H2 E3.
  cbn [fst snd resp_null data error throw_if_error ret tables faults log
       with_rentals with_cars rentals cars customers payments
       next_rental_id next_payment_id pins_amount pins_payment_method
       pins_payment_date pins_status].
  rewrite <- !app_assoc. reflexivity.
Qed.

(** Opening the modal on a rental, the fetch succeeding: [totalPaid] is
    the sum of the rental's payments, added up as doubles in the order of
    the answer. *)
Lemma fetchPreviousPayments_double_loads (R : Rental)
  (st : PaymentModalDouble.state) (w : world) :
  calls_ok 1 w = true ->
  let total := or_zero
                 (PaymentModalDouble.sum_amounts
                    (map number_of_decimal
                       (map Payments.amount
                          (select_where Payments.rental_id (rental_id R)
                             (payments (tables w)))))) in
  PaymentModalDouble.fetchPreviousPayments (Some R) st w
  = ((PaymentModalDouble.mkState total
        (PrimFloat.sub (number_of_decimal (total_cost R)) total), None),
     mkWorld (tables w) (tl (faults w)) (log w ++ [(SELECT, t_payments)])).
Proof.
  intros Hok. cbv zeta.
  unfold PaymentModalDouble.fetchPreviousPayments, q_payment_amounts.
  backend_last Hok E1. reflexivity.
Qed.




(** The rental of 150.00 paid in full through the modal: the rental is
    Completed with today's return date and the car is Available again. *)
Example full_payment_scenario :
  let out := demo_payment 20003 15000 in
  fst out = PaymentModal.Submitted
              (Some (toast_success "Full payment processed and rental completed"))
  /\ rentals (tables (snd out)) = [set_rental_completed 20003 demo_rental]
  /\ cars (tables (snd out)) = [set_car_status Available demo_car]
  /\ paid_for (tables (snd out)) 1 = 15000.
Proof. vm_compute. repeat split. Qed.

Lemma two_digits_writes (r : Z) :
  0 <= r < 100 ->
  String.length (two_digits r) = 2%nat
  /\ exists f, NilZero.uint_of_string (two_digits r) = Some f
               /\ Z.of_N (N.of_uint f) = r.
Proof.
  intros Hr.
  assert (Hall : forallb
                   (fun n =>
                      let r := Z.of_nat n in
                      Nat.eqb (String.length (two_digits r)) 2
                      && match NilZero.uint_of_string (two_digits r) with
                         | Some f => Z.of_N (N.of_uint f) =? r
                         | None => false
                         end)
                   (seq 0 100) = true) by (vm_compute; reflexivity).
  rewrite forallb_forall in Hall.
  specialize (Hall (Z.to_nat r)).
  rewrite Z2Nat.id in Hall by lia. cbv zeta in Hall.
  assert (Hin : In (Z.to_nat r) (seq 0 100)) by (apply in_seq; lia).
  specialize (Hall Hin). apply andb_true_iff in Hall. destruct Hall as [Hlen Hval].
  split; [apply Nat.eqb_eq; exact Hlen|].
  destruct (NilZero.uint_of_string (two_digits r)) as [f|]; [|discriminate].
  exists f. split; [reflexivity|]. apply Z.eqb_eq. exact Hval.
Qed.

Lemma decimal_reads (q : Z) :
  0 <= q ->
  exists w, NilZero.uint_of_string (decimal q) = Some w
            /\ Z.of_N (N.of_uint w) = q.
Proof.
  intros Hq. unfold decimal. exists (N.to_uint (Z.to_N q)). split.
  - apply NilZero.usu. destruct (Z.to_N q) as [|p]; [discriminate|].
    apply DecimalPos.Unsigned.to_uint_nonnil.
  - rewrite DecimalN.Unsigned.of_to. apply Z2N.id. exact Hq.
Qed.

(** What [toFixed2] writes reads back as the amount. *)
Lemma toFixed2_writes (c : Z) : 0 <= c -> writes_amount (toFixed2 c) c.
Proof.
  intros Hc. unfold toFixed2, writes_amount.
  destruct (Z.ltb_spec c 0) as [Hneg|_]; [lia|].
  rewrite Z.abs_eq by exact Hc.
  assert (Hq : 0 <= c / 100) by (apply Z.div_pos; lia).
  assert (Hr : 0 <= c mod 100 < 100) by (apply Z.mod_pos_bound; lia).
  destruct (decimal_reads (c / 100) Hq) as (w & Ew & Vw).
  destruct (two_digits_writes (c mod 100) Hr) as (Hlen & f & Ef & Vf).
  exists (decimal (c / 100)), (two_digits (c mod 100)).
  split; [reflexivity|]. split; [exact Hlen|].
  exists w, f. split; [exact Ew|]. split; [exact Ef|].
  rewrite Vw, Vf. pose proof (Z.div_mod c 100). lia.
Qed.

(** C2. A payment submission on rental R where the modal holds the running
    total T and T plus the submitted amount a stays below R's total cost,
    the insert succeeding: the payment is recorded, no update is issued,
    the rentals table (so R's status) and the cars table are as before,
    and the message ends with a text that writes the amount
    total_cost - (T + a) with two decimals.  T is the sum P of the
    payments recorded for R once the modal's fetch has succeeded.  For a
    rental of 150.00 with nothing paid and a payment of 60.00 the message
    reports $90.00, on the doubles of the client as well, and the rental
    is still Ongoing. *)
Theorem partial_payment_keeps_rental (today : date) :
  (forall (R : Rental) (st : PaymentModal.state)
          (fd : PaymentModal.PaymentFormData) (w : world),
      calls_ok 1 w = true ->
      In R (rentals (tables w)) ->
      PaymentModal.totalPaid st + PaymentModal.amount fd < total_cost R ->
      let out := PaymentModal.onSubmit today (Some R) st fd w in
      let d := tables w in
      let d' := tables (snd out) in
      (exists s,
          fst out = Some (toast_success
                            (String.append
                               "Partial payment processed. Remaining balance: $" s))
          /\ writes_amount s (total_cost R
                              - (PaymentModal.totalPaid st + PaymentModal.amount fd)))
      /\ log (snd out) = log w ++ [(INSERT, t_payments)]
      /\ payments d' = payments d ++ [inserted_payment d R fd]
      /\ rentals d' = rentals d
      /\ In R (rentals d')
      /\ cars d' = cars d)
  /\
  (forall (R : Rental) (st0 : PaymentModal.state) (w0 : world),
      calls_ok 1 w0 = true ->
      PaymentModal.totalPaid
        (fst (fst (PaymentModal.fetchPreviousPayments (Some R) st0 w0)))
      = paid_for (tables w0) (rental_id R))
  /\
  (let out := demo_payment today 6000 in
   total_cost demo_rental = 15000
   /\ paid_for rented_db (rental_id demo_rental) = 0
   /\ fst out = PaymentModal.Submitted (Some (toast_success
                  "Partial payment processed. Remaining balance: $90.00"))
   /\ rentals (tables (snd out)) = [demo_rental]
   /\ status demo_rental = Ongoing
   /\ cars (tables (snd out)) = cars rented_db
   /\ fst (PaymentModalDouble.onSubmit today (Some demo_rental)
             PaymentModalDouble.initial
             (PaymentModal.mkFormData 6000 Cash today) (mkWorld rented_db [] []))
      = Some (toast_success
                "Partial payment processed. Remaining balance: $90.00")).
Proof.
  split; [|split].
  - intros R st fd w Hok Hin Hlt out d d'. subst out d d'.
    rewrite (onSubmit_partial_run today R st fd w Hok Hin Hlt).
    cbn [fst snd tables log rentals cars payments].
    split.
    { eexists. split; [reflexivity|]. apply toFixed2_writes. lia. }
    repeat split; auto.
  - intros R st0 w0 Hok0.
    rewrite (fetchPreviousPayments_loads R st0 w0 Hok0). reflexivity.
  - vm_compute. repeat split.
Qed.

Lemma partial_payment_keeps_rental_witness :
  let st := PaymentModal.initial 20003 in
  let fd := PaymentModal.mkFormData 6000 Cash 20003 in
  let w := mkWorld rented_db [] [] in
  calls_ok 1 w = true
  /\ In demo_rental (rentals (tables w))
  /\ PaymentModal.totalPaid st + PaymentModal.amount fd < total_cost demo_rental
  /\ rentals (tables (snd (PaymentModal.onSubmit 20003 (Some demo_rental) st fd w)))
     = rentals (tables w).
Proof.
  intros st fd w.
  assert (Hin : In demo_rental (rentals (tables w))) by (left; reflexivity).
  assert (Hlt : PaymentModal.totalPaid st + PaymentModal.amount fd
                < total_cost demo_rental)
    by reflexivity.
  split; [reflexivity|]. split; [exact Hin|]. split; [exact Hlt|].
  destruct (proj1 (partial_payment_keeps_rental 20003) demo_rental st fd w
              eq_refl Hin Hlt) as (_ & _ & _ & H & _).
  exact H.
Defined.

(** A partial payment whose message does not state total_cost - (P + a).
    On a rental of 150.00 with 100.00 paid, the fetch of the modal fails
    and the modal still holds 0; a payment of 20.00 is reported with a
    balance of $130.00, where 30.00 is left. *)
Lemma partial_payment_reports_stale_balance :
  let w := mkWorld owing_db [true] [] in
  let opened := PaymentModal.fetchPreviousPayments (Some demo_rental)
                  (PaymentModal.initial 20003) w in
  let typed := PaymentModal.mkState (PaymentModal.totalPaid (fst (fst opened)))
                 (PaymentModal.mkFormInput (Some 2000) Cash (Some 20003)) in
  let out := PaymentModal.submit 20003 (Some demo_rental) typed (snd opened) in
  snd (fst opened) = Some (toast_error "Failed to fetch payment history")
  /\ paid_for owing_db (rental_id demo_rental) = 10000
  /\ 10000 + 2000 < total_cost demo_rental
  /\ total_cost demo_rental - (10000 + 2000) = 3000
  /\ fst out = PaymentModal.Submitted (Some (toast_success
                 "Partial payment processed. Remaining balance: $130.00"))
  /\ rentals (tables (snd out)) = [demo_rental].
Proof.
  vm_compute. repeat split.
Qed.

(** Whatever the backend does, [onSubmit] records at most the submitted
    payment, and it records it whenever it reports success. *)
Lemma onSubmit_payments (today : date) (R : Rental) (st : PaymentModal.state)
  (fd : PaymentModal.PaymentFormData) (w : world) :
  let out := PaymentModal.onSubmit today (Some R) st fd w in
  (payments (tables (snd out)) = payments (tables w)
   /\ forall m, fst out <> Some (toast_success m))
  \/ payments (tables (snd out))
     = payments (tables w) ++ [inserted_payment (tables w) R fd].
Proof.
  destruct w as [d fs l].
  unfold PaymentModal.onSubmit, try_toast, PaymentModal.onSubmit_body, bind, await,
    q_insert_payment, q_update_rental, q_update_car_status, backend,
    throw_if_error, ret, throw.
  cbn [faults tables log pins_rental_id].
  destruct fs as [|[] fs]; cbn [fst snd];
    try (left; split; [reflexivity|intros m; discriminate]).
  - destruct (has_key rental_id (rental_id R) (rentals d)); cbn;
      [|left; split; [reflexivity|intros m; discriminate]].
    destruct (PaymentModal.totalPaid st + PaymentModal.amount fd >=? total_cost R);
      cbn; right; reflexivity.
  - destruct (has_key rental_id (rental_id R) (rentals d)); cbn;
      [|left; split; [reflexivity|intros m; discriminate]].
    destruct (PaymentModal.totalPaid st + PaymentModal.amount fd >=? total_cost R);
      cbn; [|right; reflexivity].
    destruct fs as [|[] [|[] fs]]; cbn; right; reflexivity.
Qed.

Lemma paid_for_after_insert (d d' : database) (R : Rental)
  (fd : PaymentModal.PaymentFormData) :
  payments d' = payments d ++ [inserted_payment d R fd] ->
  paid_for d' (rental_id R) = paid_for d (rental_id R) + PaymentModal.amount fd.
Proof.
  intros E. unfold paid_for, select_where. rewrite E, filter_app, map_app.
  cbn [filter inserted_payment Payments.rental_id]. rewrite Z.eqb_refl.
  rewrite fold_right_app, fold_right_add_from.
  cbn [map fold_right Payments.amount inserted_payment].
  rewrite Z.add_0_r. reflexivity.
Qed.

(** C3. A press of the submit button of the payment modal on rental R,
    where the modal holds the running total T: with an amount that is not
    strictly positive, or above R's total cost minus T, it is rejected
    with no backend call issued and nothing changed; a submission that
    goes through has 0 < amount <= total_cost - T, records at most that
    payment, and records it when it reports success; so when T is the sum
    of the payments recorded for R, the payments recorded for R sum to at
    most R's total cost afterwards.  T is that sum when the modal's fetch
    of R's payments has just succeeded. *)
Theorem payment_amount_bounded_by_balance (today : date) (R : Rental)
  (st : PaymentModal.state) (w : world) :
  let T := PaymentModal.totalPaid st in
  let P := paid_for (tables w) (rental_id R) in
  let out := PaymentModal.submit today (Some R) st w in
  ((~ exists a, PaymentModal.in_amount (PaymentModal.form st) = Some a
                /\ 0 < a <= total_cost R - T) ->
   out = (PaymentModal.Rejected, w))
  /\ (forall t, fst out = PaymentModal.Submitted t ->
        exists a, PaymentModal.in_amount (PaymentModal.form st) = Some a
                  /\ 0 < a <= total_cost R - T
                  /\ (paid_for (tables (snd out)) (rental_id R) = P
                      \/ paid_for (tables (snd out)) (rental_id R) = P + a)
                  /\ (forall m, t = Some (toast_success m) ->
                        paid_for (tables (snd out)) (rental_id R) = P + a)
                  /\ (T = P ->
                        paid_for (tables (snd out)) (rental_id R) <= total_cost R))
  /\ (forall st0 w0, calls_ok 1 w0 = true ->
        let opened := PaymentModal.fetchPreviousPayments (Some R) st0 w0 in
        PaymentModal.totalPaid (fst (fst opened))
        = paid_for (tables w0) (rental_id R)
        /\ tables (snd opened) = tables w0).
Proof.
  cbv zeta.
  split; [|split].
  3:{ intros st0 w0 Hok0.
      rewrite (fetchPreviousPayments_loads R st0 w0 Hok0). split; reflexivity. }
  all: unfold PaymentModal.submit, PaymentModal.amount_input_valid,
         PaymentModal.remainingBalance, PaymentModal.handleSubmit,
         PaymentModal.paymentSchema.
  all: set (T := PaymentModal.totalPaid st).
  all: set (P := paid_for (tables w) (rental_id R)).
  all: destruct (PaymentModal.in_amount (PaymentModal.form st)) as [a|] eqn:Ea.
  2,4: (try reflexivity);
       (try (intros t; destruct (PaymentModal.in_payment_date (PaymentModal.form st));
             discriminate)).
  all: destruct (Z.leb_spec a (total_cost R - T)) as [Hle|Hgt].
  2,4: (try reflexivity); (try (intros t; discriminate)).
  all: destruct (PaymentModal.in_payment_date (PaymentModal.form st)) as [pd|].
  2,4: (try reflexivity); (try (intros t; discriminate)).
  all: destruct (Z.ltb_spec 0 a) as [Hpos|Hnpos]; cbn [andb].
  2,4: (try reflexivity); (try (intros t; discriminate)).
  all: destruct (Z.leb_spec a 100000000) as [Hcap|Hcap].
  2,4: (try (intros _; reflexivity)); (try (intros t; discriminate)).
  - intros Hno. exfalso. apply Hno. exists a. split; [reflexivity|lia].
  - intros t Ht. exists a. split; [reflexivity|]. split; [lia|].
    set (fd := PaymentModal.mkFormData a
                 (PaymentModal.in_payment_method (PaymentModal.form st)) pd) in *.
    pose proof (onSubmit_payments today R st fd w) as Hpay. cbv zeta in Hpay.
    destruct (PaymentModal.onSubmit today (Some R) st fd w) as [t' w2] eqn:E.
    cbn [fst snd] in *. injection Ht as <-.
    destruct Hpay as [[Hsame Hnot]|Hins].
    + assert (Hp : paid_for (tables w2) (rental_id R) = P).
      { unfold paid_for. rewrite Hsame. reflexivity. }
      split; [left; exact Hp|]. split.
      * intros m Hm. exfalso. apply (Hnot m). exact Hm.
      * intros HT. rewrite Hp. lia.
    + pose proof (paid_for_after_insert (tables w) (tables w2) R fd Hins) as Hsum.
      fold P in Hsum. cbn [PaymentModal.amount fd] in Hsum.
      assert (Hp : paid_for (tables w2) (rental_id R) = P + a).
      { rewrite Hsum. subst fd. reflexivity. }
      split; [right; exact Hp|]. split.
      * intros m _. exact Hp.
      * intros HT. rewrite Hp. lia.
Qed.

Lemma payment_amount_bounded_by_balance_witness :
  let w0 := mkWorld rented_db [] [] in
  let opened := PaymentModal.fetchPreviousPayments (Some demo_rental)
                  (PaymentModal.initial 20003) w0 in
  let typed a := PaymentModal.mkState
                   (PaymentModal.totalPaid (fst (fst opened)))
                   (PaymentModal.mkFormInput (Some a) Cash (Some 20003)) in
  fst (PaymentModal.submit 20003 (Some demo_rental) (typed 20000) (snd opened))
  = PaymentModal.Rejected
  /\ paid_for
       (tables (snd (PaymentModal.submit 20003 (Some demo_rental) (typed 15000)
                       (snd opened))))
       (rental_id demo_rental)
     <= total_cost demo_rental.
Proof.
  intros w0 opened typed. split.
  - destruct (payment_amount_bounded_by_balance 20003 demo_rental
                (typed 20000) (snd opened)) as (Hrej & _).
    refine (f_equal fst (Hrej _)).
    intros (a & Ha & _ & Hle). injection Ha as <-.
    apply Hle. reflexivity.
  - destruct (payment_amount_bounded_by_balance 20003 demo_rental
                (typed 15000) (snd opened)) as (_ & Hacc & _).
    destruct (Hacc (Some (toast_success PaymentModal.full_message)) eq_refl)
      as (a & _ & _ & _ & _ & Hle).
    apply Hle. reflexivity.
Defined.

(** Two ways in which the payments recorded for the rental of 150.00 come
    to exceed its total cost through submissions that are accepted.  With
    100.00 paid and the fetch of the modal failing, the modal holds 0 and
    takes a payment of 150.00: 250.00 is recorded.  With nothing paid, two
    modals opened before either submits each take the 150.00 they
    prefilled: 300.00 is recorded. *)
Lemma payments_exceed_total_cost :
  (let w := mkWorld owing_db [true] [] in
   let opened := PaymentModal.fetchPreviousPayments (Some demo_rental)
                   (PaymentModal.initial 20003) w in
   let typed := PaymentModal.mkState (PaymentModal.totalPaid (fst (fst opened)))
                  (PaymentModal.mkFormInput (Some 15000) Cash (Some 20003)) in
   let out := PaymentModal.submit 20003 (Some demo_rental) typed (snd opened) in
   paid_for owing_db (rental_id demo_rental) = 10000
   /\ total_cost demo_rental = 15000
   /\ fst out = PaymentModal.Submitted (Some (toast_success
                  "Full payment processed and rental completed"))
   /\ paid_for (tables (snd out)) (rental_id demo_rental) = 25000)
  /\
  (let w := mkWorld rented_db [] [] in
   let first := PaymentModal.fetchPreviousPayments (Some demo_rental)
                  (PaymentModal.initial 20003) w in
   let second := PaymentModal.fetchPreviousPayments (Some demo_rental)
                   (PaymentModal.initial 20003) (snd first) in
   let out1 := PaymentModal.submit 20003 (Some demo_rental) (fst (fst first))
                 (snd second) in
   let out2 := PaymentModal.submit 20003 (Some demo_rental) (fst (fst second))
                 (snd out1) in
   snd (fst first) = None /\ snd (fst second) = None
   /\ fst out1 = PaymentModal.Submitted (Some (toast_success
                   "Full payment processed and rental completed"))
   /\ fst out2 = PaymentModal.Submitted (Some (toast_success
                   "Full payment processed and rental completed"))
   /\ paid_for (tables (snd out2)) (rental_id demo_rental) = 30000).
Proof.
  split; vm_compute; repeat split.
Qed.

(** The schema by itself does not know the balance: [handleSubmit] run on
    an amount above it (200.00 against a rental of 150.00) records the
    payment.  The bound on the amount comes from the max attribute of the
    amount input, checked in [PaymentModal.submit]. *)
Lemma handleSubmit_alone_admits_overpayment :
  let st := PaymentModal.mkState 0
              (PaymentModal.mkFormInput (Some 20000) Cash (Some 20003)) in
  let out := PaymentModal.handleSubmit 20003 (Some demo_rental) st
               (mkWorld rented_db [] []) in
  fst out = PaymentModal.Submitted
              (Some (toast_success "Full payment processed and rental completed"))
  /\ paid_for (tables (snd out)) 1 = 20000
  /\ total_cost demo_rental = 15000.
Proof. vm_compute. repeat split. Qed.

(** ** Total cost of a rental *)

(** The rentals table after [create], as soon as the insert succeeds. *)
Lemma create_rentals (w : world) (r : RentalInsert) :
  calls_ok 1 w = true ->
  references_ok (tables w) r = true ->
  rentals (tables (snd (rentalService.create r w)))
  = rentals (tables w) ++ [inserted_rental (tables w) r].
Proof.
  intros Hok Hfk. unfold references_ok in Hfk. destruct w as [d fs l].
  unfold calls_ok in Hok. cbn [faults tables] in *.
  unfold rentalService.create, bind, await, q_insert_rental, q_update_car_status,
    backend, throw_if_error, ret.
  cbn [faults tables log].
  destruct fs as [|[] fs]; [| discriminate |]; rewrite Hfk; cbn.
  - reflexivity.
  - destruct fs as [|[] fs]; reflexivity.
Qed.

(** differenceInDays counts the whole days of the span on the local
    clock. *)
Lemma differenceInDays_whole_days (tz : zone) (d1 d2 : date) :
  date_fns.differenceInDays tz d2 d1 = whole_days tz d1 d2.
Proof.
  unfold date_fns.differenceInDays, date_fns.toDate, date_fns.compareLocalAsc,
    date_fns.differenceInCalendarDays, whole_days, local_clock.
  cbv zeta. cbn [fst snd].
  generalize (d2 * 1440 + tz d2) (d1 * 1440 + tz d1). intros L2 L1.
  set (D2 := L2 / 1440). set (D1 := L1 / 1440).
  set (t2 := L2 mod 1440). set (t1 := L1 mod 1440).
  assert (H2 : L2 = 1440 * D2 + t2 /\ 0 <= t2 < 1440).
  { subst D2 t2. split; [apply Z.div_mod; lia|apply Z.mod_pos_bound; lia]. }
  assert (H1 : L1 = 1440 * D1 + t1 /\ 0 <= t1 < 1440).
  { subst D1 t1. split; [apply Z.div_mod; lia|apply Z.mod_pos_bound; lia]. }
  clearbody D2 D1 t2 t1. destruct H2 as [-> B2]. destruct H1 as [-> B1].
  destruct (Z.sgn_spec (t2 - t1)) as [[Ht Et]|[[Ht Et]|[Ht Et]]];
    rewrite Et in *;
    destruct (Z.sgn_spec (D2 - D1)) as [[Hd Ed]|[[Hd Ed]|[Hd Ed]]];
    rewrite Ed in *;
    destruct (Z.abs_spec (D2 - D1)) as [[Ha Ea]|[Ha Ea]];
    rewrite Ea in *; try lia;
    repeat match goal with
           | |- context [Z.sgn ?x] =>
               let H := fresh in let E := fresh in
               destruct (Z.sgn_spec x) as [[H E]|[[H E]|[H E]]]; rewrite E in *
           end;
    repeat match goal with
           | |- context [Z.eqb ?a ?b] => destruct (Z.eqb_spec a b)
           | H : context [Z.eqb ?a ?b] |- _ => destruct (Z.eqb_spec a b)
           end;
    try lia;
    Z.to_euclidean_division_equations; nia.
Qed.

Lemma whole_days_same_offset (tz : zone) (d1 d2 : date) :
  tz d2 = tz d1 -> whole_days tz d1 d2 = d2 - d1.
Proof.
  intros E. unfold whole_days, local_clock. rewrite E.
  replace (d2 * 1440 + tz d1 - (d1 * 1440 + tz d1)) with ((d2 - d1) * 1440) by lia.
  apply Z.quot_mul. lia.
Qed.

Lemma whole_days_set_back (tz : zone) (d1 d2 : date) :
  d1 < d2 -> tz d1 - 1440 < tz d2 < tz d1 -> whole_days tz d1 d2 = d2 - d1 - 1.
Proof.
  intros Hd Ht. unfold whole_days, local_clock.
  Z.to_euclidean_division_equations. nia.
Qed.

Lemma whole_days_short (tz : zone) (d1 d2 : date) :
  d2 - d1 <= 1 -> tz d2 - tz d1 < 1440 -> whole_days tz d1 d2 <= 1.
Proof.
  intros Hd Ht. unfold whole_days, local_clock.
  Z.to_euclidean_division_equations. nia.
Qed.




(** ** Reports *)

Lemma counts_for_revenue_spec (startDate : date) (r : Rental) :
  counts_for_revenue startDate r = true
  <-> status r = Completed /\ startDate <= rental_date r.
Proof.
  unfold counts_for_revenue. destruct (status r); split.
  - discriminate.
  - intros [H _]; discriminate.
  - intros H. split; [reflexivity|]. apply Z.leb_le. exact H.
  - intros [_ H]. apply Z.leb_le. exact H.
  - discriminate.
  - intros [H _]; discriminate.
Qed.

Lemma revenue_filter_agree (startDate : date) (rs : list Rental) :
  filter (fun r => reportService.in_window startDate r
                   && reportService.is_completed r) rs
  = filter (counts_for_revenue startDate) rs.
Proof.
  apply filter_ext. intros r.
  unfold reportService.in_window, reportService.is_completed, counts_for_revenue.
  destruct (status r); [apply andb_false_r|apply andb_true_r|apply andb_false_r].
Qed.

Lemma revenue_of_app (startDate : date) (rs1 rs2 : list Rental) :
  revenue_of startDate (rs1 ++ rs2)
  = revenue_of startDate rs1 + revenue_of startDate rs2.
Proof.
  unfold revenue_of. rewrite filter_app, map_app, fold_right_app.
  apply fold_right_add_from.
Qed.

(** C6. For every cutoff, the revenue report (its query succeeding)
    returns the sum of total_cost over exactly the rentals that are
    Completed and dated at or after the cutoff, and reads only; a rental
    that is Ongoing, Cancelled or dated before the cutoff adds nothing
    wherever it sits in the table.  With the cutoff 30 days back, two
    Completed rentals of 100.00 and 200.00 in the window and a Cancelled
    one of 500.00 give 300.00. *)
Theorem revenue_sums_completed_in_window :
  (forall (startDate : date) (w : world),
      calls_ok 1 w = true ->
      fst (reportService.getRevenue startDate w)
      = Returned (revenue_of startDate (rentals (tables w)))
      /\ tables (snd (reportService.getRevenue startDate w)) = tables w)
  /\ (forall startDate r,
        counts_for_revenue startDate r = true
        <-> status r = Completed /\ startDate <= rental_date r)
  /\ (forall startDate rs1 r rs2,
        revenue_of startDate (rs1 ++ r :: rs2)
        = revenue_of startDate (rs1 ++ rs2)
          + (if counts_for_revenue startDate r then total_cost r else 0))
  /\ fst (reportService.getRevenue (startDate_of 20100 30) (mkWorld report_db [] []))
     = Returned 30000.
Proof.
  split; [|split; [|split]].
  - intros startDate w Hok.
    unfold reportService.getRevenue, bind, await, reportService.q_revenue.
    backend_last Hok E1.
    cbn [fst snd resp_ok data error throw_if_error ret reportService.rows_or_throw
         tables].
    split; [|reflexivity].
    rewrite revenue_filter_agree, sum_amounts_from. unfold revenue_of.
    f_equal.
  - exact counts_for_revenue_spec.
  - intros startDate rs1 r rs2.
    rewrite !revenue_of_app.
    change (r :: rs2) with ([r] ++ rs2). rewrite revenue_of_app.
    unfold revenue_of at 2. cbn [filter].
    destruct (counts_for_revenue startDate r); cbn [map fold_right]; lia.
  - vm_compute. reflexivity.
Qed.

Lemma revenue_sums_completed_in_window_witness :
  calls_ok 1 (mkWorld report_db [] []) = true
  /\ fst (reportService.getRevenue 20070 (mkWorld report_db [] []))
     = Returned (revenue_of 20070 (rentals report_db)).
Proof.
  split; [reflexivity|].
  exact (proj1 (proj1 revenue_sums_completed_in_window 20070
                  (mkWorld report_db [] []) eq_refl)).
Defined.

(** *** Objects used as maps *)

Section Objects.
Context {V : Type}.
Implicit Types (o : obj V) (k : Z) (v : V).

Lemma obj_get_in o k v : obj_get o k = Some v -> In (k, v) o.
Proof.
  induction o as [|[k' v'] o IH]; cbn [obj_get]; [discriminate|].
  destruct (Z.eqb_spec k' k) as [E|E].
  - intros H. injection H as ->. subst k'. left. reflexivity.
  - intros H. right. exact (IH H).
Qed.

Lemma obj_keys_get o k : In k (keys o) <-> exists v, obj_get o k = Some v.
Proof.
  unfold keys. induction o as [|[k' v'] o IH]; cbn [map fst In obj_get].
  - split; [contradiction|intros [v H]; discriminate].
  - destruct (Z.eqb_spec k' k) as [E|E].
    + split; [intros _; exists v'; reflexivity|intros _; left; exact E].
    + rewrite <- IH. split; [intros [H|H]; [contradiction|exact H]|auto].
Qed.

Lemma obj_get_none_keys o k : obj_get o k = None <-> ~ In k (keys o).
Proof.
  rewrite obj_keys_get. split.
  - intros G [v H]. rewrite G in H. discriminate.
  - intros H. destruct (obj_get o k) as [v|]; [|reflexivity].
    exfalso. apply H. exists v. reflexivity.
Qed.

Lemma obj_assign_keys o k v : keys (obj_assign o k v) = keys o.
Proof.
  unfold keys. induction o as [|[k' v'] o IH]; cbn [obj_assign map fst];
    [reflexivity|].
  destruct (k' =? k); cbn [map fst]; [reflexivity|]. rewrite IH. reflexivity.
Qed.

Lemma obj_get_assign_eq o k v v0 :
  obj_get o k = Some v0 -> obj_get (obj_assign o k v) k = Some v.
Proof.
  induction o as [|[k' v'] o IH]; cbn [obj_get obj_assign]; [discriminate|].
  destruct (k' =? k) eqn:E; cbn [obj_get]; rewrite E; [reflexivity|exact IH].
Qed.

Lemma obj_get_assign_neq o k k0 v :
  k <> k0 -> obj_get (obj_assign o k v) k0 = obj_get o k0.
Proof.
  intros Hne. induction o as [|[k' v'] o IH]; cbn [obj_get obj_assign];
    [reflexivity|].
  destruct (Z.eqb_spec k' k) as [E|E]; cbn [obj_get].
  - subst k'. destruct (Z.eqb_spec k k0); [contradiction|reflexivity].
  - rewrite IH. reflexivity.
Qed.

Lemma obj_get_create_eq o k v :
  obj_get o k = None -> obj_get (obj_create o k v) k = Some v.
Proof.
  induction o as [|[k' v'] o IH]; cbn [obj_get obj_create].
  - rewrite Z.eqb_refl. reflexivity.
  - destruct (k' =? k) eqn:E; [discriminate|]. intros G.
    destruct (goes_before k k'); cbn [obj_get].
    + rewrite Z.eqb_refl. reflexivity.
    + rewrite E. exact (IH G).
Qed.

Lemma obj_get_create_neq o k k0 v :
  k <> k0 -> obj_get (obj_create o k v) k0 = obj_get o k0.
Proof.
  intros Hne. induction o as [|[k' v'] o IH]; cbn [obj_get obj_create].
  - destruct (Z.eqb_spec k k0); [contradiction|reflexivity].
  - destruct (goes_before k k'); cbn [obj_get].
    + destruct (Z.eqb_spec k k0); [contradiction|reflexivity].
    + rewrite IH. reflexivity.
Qed.

Lemma obj_create_keys o k v k0 :
  In k0 (keys (obj_create o k v)) <-> k0 = k \/ In k0 (keys o).
Proof.
  unfold keys. induction o as [|[k' v'] o IH]; cbn [obj_create map fst In].
  - split; intros [H|H]; auto.
  - destruct (goes_before k k'); cbn [map fst In].
    + split; intros H; intuition auto.
    + rewrite IH. split; intros H; intuition auto.
Qed.

Lemma obj_create_NoDup o k v :
  ~ In k (keys o) -> NoDup (keys o) -> NoDup (keys (obj_create o k v)).
Proof.
  induction o as [|[k' v'] o IH]; intros Hk Hnd.
  - repeat constructor. intros [].
  - cbn [obj_create]. destruct (goes_before k k').
    + change (NoDup (k :: keys ((k', v') :: o))). constructor; assumption.
    + change (NoDup (k' :: keys (obj_create o k v))).
      change (NoDup (k' :: keys o)) in Hnd.
      change (~ In k (k' :: keys o)) in Hk.
      apply NoDup_cons_iff in Hnd. destruct Hnd as [Hk' Hnd].
      constructor.
      * rewrite obj_create_keys. intros [->|H]; [|exact (Hk' H)].
        apply Hk. left. reflexivity.
      * apply IH; [|exact Hnd]. intros H. apply Hk. right. exact H.
Qed.

Lemma obj_get_set_eq o k v : obj_get (obj_set o k v) k = Some v.
Proof.
  unfold obj_set. destruct (obj_get o k) as [v0|] eqn:G.
  - exact (obj_get_assign_eq o k v v0 G).
  - exact (obj_get_create_eq o k v G).
Qed.

Lemma obj_get_set_neq o k k0 v :
  k <> k0 -> obj_get (obj_set o k v) k0 = obj_get o k0.
Proof.
  intros Hne. unfold obj_set. destruct (obj_get o k).
  - apply obj_get_assign_neq. exact Hne.
  - apply obj_get_create_neq. exact Hne.
Qed.

Lemma obj_set_keys o k v k0 :
  In k0 (keys (obj_set o k v)) <-> k0 = k \/ In k0 (keys o).
Proof.
  unfold obj_set. destruct (obj_get o k) as [v0|] eqn:G.
  - rewrite obj_assign_keys. split; [auto|]. intros [->|H]; [|exact H].
    apply obj_keys_get. exists v0. exact G.
  - apply obj_create_keys.
Qed.

Lemma obj_set_NoDup o k v :
  NoDup (keys o) -> NoDup (keys (obj_set o k v)).
Proof.
  intros Hnd. unfold obj_set. destruct (obj_get o k) as [v0|] eqn:G.
  - rewrite obj_assign_keys. exact Hnd.
  - apply obj_create_NoDup; [|exact Hnd]. apply obj_get_none_keys. exact G.
Qed.

Lemma obj_in_get o k v :
  NoDup (keys o) -> In (k, v) o -> obj_get o k = Some v.
Proof.
  induction o as [|[k' v'] o IH]; intros Hnd Hin; [contradiction|].
  change (NoDup (k' :: keys o)) in Hnd.
  apply NoDup_cons_iff in Hnd. destruct Hnd as [Hk' Hnd].
  cbn [obj_get]. destruct Hin as [E|Hin].
  - injection E as -> ->. rewrite Z.eqb_refl. reflexivity.
  - destruct (Z.eqb_spec k' k) as [E|E].
    + exfalso. subst k'. apply Hk'. exact (in_map fst _ _ Hin).
    + exact (IH Hnd Hin).
Qed.

End Objects.

(** *** Grouping rows by a key *)

Section Grouping.
Context {R V : Type} (key : R -> Z) (init : R -> V) (bump : R -> V -> V).

Lemma upsert_get acc row k :
  obj_get (upsert key init bump acc row) k
  = if key row =? k
    then Some (bump row (match obj_get acc k with
                         | Some v => v
                         | None => init row
                         end))
    else obj_get acc k.
Proof.
  unfold upsert. destruct (Z.eqb_spec (key row) k) as [E|E].
  - subst k. destruct (obj_get acc (key row)) as [v|] eqn:G.
    + rewrite G. apply obj_get_set_eq.
    + rewrite obj_get_set_eq. apply obj_get_set_eq.
  - destruct (obj_get acc (key row)) as [v|] eqn:G.
    + rewrite G. apply obj_get_set_neq. exact E.
    + rewrite obj_get_set_eq. rewrite !obj_get_set_neq by exact E. reflexivity.
Qed.

Lemma upsert_NoDup acc row :
  NoDup (keys acc) -> NoDup (keys (upsert key init bump acc row)).
Proof.
  intros Hs. unfold upsert. destruct (obj_get acc (key row)) as [v|] eqn:G.
  - rewrite G. apply obj_set_NoDup. exact Hs.
  - rewrite obj_get_set_eq. apply obj_set_NoDup, obj_set_NoDup. exact Hs.
Qed.

Lemma fold_upsert_get rows : forall acc k,
  obj_get (fold_left (upsert key init bump) rows acc) k = group_of key init bump k rows (obj_get acc k).
Proof.
  unfold group_of. induction rows as [|row rows IH]; intros acc k; cbn [fold_left].
  - reflexivity.
  - rewrite IH, upsert_get. reflexivity.
Qed.

Lemma fold_upsert_NoDup rows : forall acc,
  NoDup (keys acc) ->
  NoDup (keys (fold_left (upsert key init bump) rows acc)).
Proof.
  induction rows as [|row rows IH]; intros acc Hs; cbn [fold_left].
  - exact Hs.
  - apply IH, upsert_NoDup, Hs.
Qed.

End Grouping.

(** *** Sorting in descending order and keeping the first entries *)

Section Sorting.
Context {V : Type} (m : V -> Z).

Lemma sort_insert_perm (cmp : V -> V -> Z) (x : V) (l : list V) :
  Permutation (sort_insert cmp x l) (x :: l).
Proof.
  induction l as [|y ys IH]; cbn [sort_insert].
  - apply Permutation_refl.
  - destruct (0 <? cmp x y).
    + apply perm_trans with (y :: x :: ys).
      * apply perm_skip. exact IH.
      * apply perm_swap.
    + apply Permutation_refl.
Qed.

Lemma Array_sort_perm (cmp : V -> V -> Z) (l : list V) :
  Permutation (Array_sort cmp l) l.
Proof.
  unfold Array_sort. induction l as [|x l IH]; cbn [fold_right].
  - apply perm_nil.
  - apply perm_trans with (x :: fold_right (sort_insert cmp) [] l).
    + apply sort_insert_perm.
    + apply perm_skip. exact IH.
Qed.

Lemma sort_insert_desc (x : V) (l : list V) :
  StronglySorted (desc_by m) l ->
  StronglySorted (desc_by m) (sort_insert (fun a b => m b - m a) x l).
Proof.
  induction l as [|y ys IH]; intros Hs; cbn [sort_insert].
  - repeat constructor.
  - apply StronglySorted_inv in Hs. destruct Hs as [Hs Hall].
    destruct (Z.ltb_spec 0 (m y - m x)) as [Hlt|Hge].
    + constructor; [exact (IH Hs)|].
      rewrite Forall_forall in Hall |- *. intros z Hz.
      apply (Permutation_in _ (sort_insert_perm _ x ys)) in Hz.
      destruct Hz as [<-|Hz]; [unfold desc_by; lia|exact (Hall z Hz)].
    + constructor; [constructor; assumption|].
      constructor; [unfold desc_by; lia|].
      rewrite Forall_forall in Hall |- *. intros z Hz.
      specialize (Hall z Hz). unfold desc_by in *. lia.
Qed.

Lemma Array_sort_desc (l : list V) :
  StronglySorted (desc_by m) (Array_sort (fun a b => m b - m a) l).
Proof.
  unfold Array_sort. induction l as [|x l IH]; cbn [fold_right].
  - constructor.
  - apply sort_insert_desc. exact IH.
Qed.

Lemma sorted_firstn (n : nat) (l : list V) :
  StronglySorted (desc_by m) l -> StronglySorted (desc_by m) (firstn n l).
Proof.
  intros Hs. revert n. induction Hs as [|x l Hs IH Hall]; intros [|n];
    cbn [firstn]; try constructor.
  - apply IH.
  - rewrite Forall_forall in Hall |- *. intros z Hz.
    apply Hall. rewrite <- (firstn_skipn n l). apply in_or_app. left. exact Hz.
Qed.

Lemma sorted_firstn_skipn (n : nat) (l : list V) :
  StronglySorted (desc_by m) l ->
  forall e e', In e (firstn n l) -> In e' (skipn n l) -> (desc_by m) e e'.
Proof.
  intros Hs. revert n. induction Hs as [|x l Hs IH Hall]; intros [|n] e e';
    cbn [firstn skipn]; try contradiction.
  intros [<-|He] He'.
  - rewrite Forall_forall in Hall. apply Hall.
    rewrite <- (firstn_skipn n l). apply in_or_app. right. exact He'.
  - exact (IH n e e' He He').
Qed.

(** Sorting by [b.m - a.m] and slicing to [n] gives a top-[n]. *)
Lemma sort_slice_top (n : nat) (l : list V) :
  top_by m n l (slice0 n (Array_sort (fun a b => m b - m a) l)).
Proof.
  unfold top_by, slice0. split; [|split].
  - apply sorted_firstn, Array_sort_desc.
  - rewrite length_firstn.
    rewrite (Permutation_length (Array_sort_perm (fun a b => m b - m a) l)).
    reflexivity.
  - exists (skipn n (Array_sort (fun a b => m b - m a) l)). split.
    + rewrite firstn_skipn. apply Permutation_sym, Array_sort_perm.
    + intros e e' He He'.
      exact (sorted_firstn_skipn n _ (Array_sort_desc l) e e' He He').
Qed.

End Sorting.

(** *** Top cars and top customers *)

Lemma eligible_agree (startDate : date) (r : Rental) :
  reportService.in_window startDate r && reportService.not_cancelled r
  = eligible startDate r.
Proof.
  unfold reportService.in_window, reportService.not_cancelled, eligible.
  destruct (status r); [apply andb_true_r|apply andb_true_r|apply andb_false_r].
Qed.

Lemma select_rows {Row} (f : Rental -> Row) (rkey : Row -> Z) (key : Rental -> Z)
  (p : Rental -> bool) (k : Z) (rs : list Rental) :
  (forall r, rkey (f r) = key r) ->
  select_where rkey k (map f (filter p rs))
  = map f (filter (fun r => p r && (key r =? k)) rs).
Proof.
  intros Hk. unfold select_where. induction rs as [|r rs IH]; cbn [filter map].
  - reflexivity.
  - destruct (p r); cbn [andb filter map].
    + rewrite Hk. destruct (key r =? k); cbn [map]; rewrite IH; reflexivity.
    + exact IH.
Qed.

Section CarGroups.
Import reportService.

Lemma carCounts_is_grouping (rows : list CarRow) :
  carCounts rows = fold_left (upsert row_car_id car_init car_bump) rows [].
Proof. reflexivity. Qed.

Lemma car_group_some (k : Z) (rows : list CarRow) : forall e,
  group_of row_car_id car_init car_bump k rows (Some e)
  = Some (mkCarEntry (car e)
            (rental_count e
             + Z.of_nat (List.length (select_where row_car_id k rows)))).
Proof.
  unfold group_of, select_where.
  induction rows as [|r rows IH]; intros e; cbn [fold_left filter].
  - cbn [List.length]. destruct e; cbn. f_equal. f_equal. lia.
  - destruct (row_car_id r =? k).
    + rewrite IH. cbn [car_bump car rental_count List.length]. f_equal. f_equal. lia.
    + apply IH.
Qed.

Lemma car_group_none (k : Z) (rows : list CarRow) :
  group_of row_car_id car_init car_bump k rows None
  = match select_where row_car_id k rows with
    | [] => None
    | r0 :: _ =>
        Some (mkCarEntry (row_cars r0)
                (Z.of_nat (List.length (select_where row_car_id k rows))))
    end.
Proof.
  induction rows as [|r rows IH]; [reflexivity|].
  unfold group_of, select_where in *. cbn [fold_left filter].
  destruct (row_car_id r =? k) eqn:E.
  - pose proof (car_group_some k rows (car_bump r (car_init r))) as H.
    unfold group_of, select_where in H. rewrite H.
    cbn [car_bump car_init car rental_count List.length]. f_equal. f_equal. lia.
  - exact IH.
Qed.

Lemma carCounts_ok (startDate : date) (d : database) :
  car_groups_ok startDate d
    (carCounts
       (map (fun r => mkCarRow (car_id r) (embed_car d (car_id r)))
            (filter (fun r => in_window startDate r && not_cancelled r)
                    (rentals d)))).
Proof.
  set (f := fun r => mkCarRow (car_id r) (embed_car d (car_id r))).
  set (rows := map f _).
  assert (Hsel : forall k, select_where row_car_id k rows
                           = map f (rentals_of_car startDate k (rentals d))).
  { intros k. unfold rows. rewrite (select_rows f row_car_id car_id) by reflexivity.
    unfold rentals_of_car. f_equal. apply filter_ext. intros r.
    rewrite eligible_agree. reflexivity. }
  assert (Hdistinct : NoDup (keys (carCounts rows))).
  { rewrite carCounts_is_grouping. apply fold_upsert_NoDup. constructor. }
  assert (Hget : forall k, obj_get (carCounts rows) k
                           = match rentals_of_car startDate k (rentals d) with
                             | [] => None
                             | r0 :: l =>
                                 Some (mkCarEntry (embed_car d k)
                                         (Z.of_nat (List.length (r0 :: l))))
                             end).
  { intros k. rewrite carCounts_is_grouping, fold_upsert_get. cbn [obj_get].
    rewrite car_group_none, Hsel.
    destruct (rentals_of_car startDate k (rentals d)) as [|r0 l] eqn:E;
      [reflexivity|].
    cbn [map List.length]. rewrite length_map. cbn [f row_cars].
    assert (Hk : car_id r0 = k).
    { assert (Hin : In r0 (rentals_of_car startDate k (rentals d)))
        by (rewrite E; left; reflexivity).
      unfold rentals_of_car in Hin. apply filter_In in Hin.
      destruct Hin as [_ Hin]. apply andb_true_iff in Hin.
      apply Z.eqb_eq. apply Hin. }
    rewrite Hk. reflexivity. }
  split; [|split].
  - exact Hdistinct.
  - intros k. rewrite obj_keys_get, Hget.
    destruct (rentals_of_car startDate k (rentals d)); split.
    + intros [v H]; discriminate.
    + intros H. exfalso. apply H. reflexivity.
    + discriminate.
    + intros _. eexists. reflexivity.
  - intros k e Hin. apply (obj_in_get _ _ _ Hdistinct) in Hin. rewrite Hget in Hin.
    destruct (rentals_of_car startDate k (rentals d)); [discriminate|].
    injection Hin as <-. split; reflexivity.
Qed.

End CarGroups.

Section CustomerGroups.
Import reportService.

Lemma customerStats_is_grouping (rows : list CustomerRow) :
  customerStats rows = fold_left (upsert row_customer_id customer_init customer_bump) rows [].
Proof. reflexivity. Qed.

Lemma customer_group_some (k : Z) (rows : list CustomerRow) : forall e,
  group_of row_customer_id customer_init customer_bump k rows (Some e)
  = Some (mkCustomerEntry (customer e)
            (cust_rental_count e
             + Z.of_nat (List.length (select_where row_customer_id k rows)))
            (total_spent e
             + fold_right Z.add 0
                 (map row_total_cost (select_where row_customer_id k rows)))).
Proof.
  unfold group_of, select_where.
  induction rows as [|r rows IH]; intros e; cbn [fold_left filter].
  - cbn [List.length map fold_right]. destruct e; cbn. f_equal. f_equal; lia.
  - destruct (row_customer_id r =? k).
    + rewrite IH.
      cbn [customer_bump customer cust_rental_count total_spent List.length map fold_right].
      f_equal. f_equal; lia.
    + apply IH.
Qed.

Lemma customer_group_none (k : Z) (rows : list CustomerRow) :
  group_of row_customer_id customer_init customer_bump k rows None
  = match select_where row_customer_id k rows with
    | [] => None
    | r0 :: _ =>
        Some (mkCustomerEntry (row_customers r0)
                (Z.of_nat (List.length (select_where row_customer_id k rows)))
                (fold_right Z.add 0
                   (map row_total_cost (select_where row_customer_id k rows))))
    end.
Proof.
  induction rows as [|r rows IH]; [reflexivity|].
  unfold group_of, select_where in *. cbn [fold_left filter].
  destruct (row_customer_id r =? k) eqn:E.
  - pose proof (customer_group_some k rows (customer_bump r (customer_init r))) as H.
    unfold group_of, select_where in H. rewrite H.
    cbn [customer_bump customer_init customer cust_rental_count total_spent List.length map
         fold_right].
    f_equal. f_equal; lia.
  - exact IH.
Qed.

Lemma customerStats_ok (startDate : date) (d : database) :
  customer_groups_ok startDate d
    (customerStats
       (map (fun r => mkCustomerRow (customer_id r)
                        (embed_customer d (customer_id r)) (total_cost r))
            (filter (fun r => in_window startDate r && not_cancelled r)
                    (rentals d)))).
Proof.
  set (f := fun r => mkCustomerRow (customer_id r)
                       (embed_customer d (customer_id r)) (total_cost r)).
  set (rows := map f _).
  assert (Hsel : forall k, select_where row_customer_id k rows
                           = map f (rentals_of_customer startDate k (rentals d))).
  { intros k. unfold rows.
    rewrite (select_rows f row_customer_id customer_id) by reflexivity.
    unfold rentals_of_customer. f_equal. apply filter_ext. intros r.
    rewrite eligible_agree. reflexivity. }
  assert (Hdistinct : NoDup (keys (customerStats rows))).
  { rewrite customerStats_is_grouping. apply fold_upsert_NoDup. constructor. }
  assert (Hget : forall k,
             obj_get (customerStats rows) k
             = match rentals_of_customer startDate k (rentals d) with
               | [] => None
               | r0 :: l =>
                   Some (mkCustomerEntry (embed_customer d k)
                           (Z.of_nat (List.length (r0 :: l)))
                           (fold_right Z.add 0 (map total_cost (r0 :: l))))
               end).
  { intros k. rewrite customerStats_is_grouping, fold_upsert_get. cbn [obj_get].
    rewrite customer_group_none, Hsel.
    destruct (rentals_of_customer startDate k (rentals d)) as [|r0 l] eqn:E;
      [reflexivity|].
    rewrite length_map, map_map.
    cbn [map f row_customers row_total_cost].
    assert (Hk : customer_id r0 = k).
    { assert (Hin : In r0 (rentals_of_customer startDate k (rentals d)))
        by (rewrite E; left; reflexivity).
      unfold rentals_of_customer in Hin. apply filter_In in Hin.
      destruct Hin as [_ Hin]. apply andb_true_iff in Hin.
      apply Z.eqb_eq. apply Hin. }
    rewrite Hk. reflexivity. }
  split; [|split].
  - exact Hdistinct.
  - intros k. rewrite obj_keys_get, Hget.
    destruct (rentals_of_customer startDate k (rentals d)); split.
    + intros [v H]; discriminate.
    + intros H. exfalso. apply H. reflexivity.
    + discriminate.
    + intros _. eexists. reflexivity.
  - intros k e Hin. apply (obj_in_get _ _ _ Hdistinct) in Hin. rewrite Hget in Hin.
    destruct (rentals_of_customer startDate k (rentals d)); [discriminate|].
    injection Hin as <-. repeat split.
Qed.

End CustomerGroups.

(** Ties come out in the order in which [Object.values] lists the
    groups, for ids that are array indices the ascending order of the
    id: cars 3 and 1 with two rentals each are reported as 1 then 3,
    although a rental of car 3 comes first in the rows. *)
Example topCars_ties :
  let row k b := reportService.mkCarRow k (Some (b, "")) in
  let entry b n := reportService.mkCarEntry (Some (b, "")) n in
  reportService.topCars
    [row 3 "C"; row 1 "A"; row 3 "C"; row 1 "A"; row 2 "B"]
  = [entry "A" 2; entry "C" 2; entry "B" 1].
Proof. vm_compute. reflexivity. Qed.

(** C7. For every cutoff and every content of the rentals table (the
    query succeeding): the top-cars report groups the rentals that are not
    Cancelled and dated at or after the cutoff by car, one group per car
    with the number of its rentals; the top-customers report groups them by
    customer, with the number of rentals and the sum of their total costs;
    each result is a top five of its groups, in descending order of the
    count (cars) or of the total spent (customers), and has at most five
    entries. *)
Theorem top_reports_group_sort_truncate (startDate : date) (w : world) :
  calls_ok 1 w = true ->
  (exists groups result,
      fst (reportService.getTopCars startDate w) = Returned result
      /\ car_groups_ok startDate (tables w) groups
      /\ top_by reportService.rental_count 5 (map snd groups) result
      /\ (List.length result <= 5)%nat)
  /\
  (exists groups result,
      fst (reportService.getTopCustomers startDate w) = Returned result
      /\ customer_groups_ok startDate (tables w) groups
      /\ top_by reportService.total_spent 5 (map snd groups) result
      /\ (List.length result <= 5)%nat).
Proof.
  intros Hok. split.
  - eexists. eexists.
    unfold reportService.getTopCars, bind, await, reportService.q_top_cars.
    backend_last Hok E1.
    cbn [fst snd resp_ok data error throw_if_error ret reportService.rows_or_throw].
    split; [reflexivity|]. split; [apply carCounts_ok|]. split.
    + apply sort_slice_top.
    + unfold reportService.topCars, slice0. apply firstn_le_length.
  - eexists. eexists.
    unfold reportService.getTopCustomers, bind, await, reportService.q_top_customers.
    backend_last Hok E1.
    cbn [fst snd resp_ok data error throw_if_error ret reportService.rows_or_throw].
    split; [reflexivity|]. split; [apply customerStats_ok|]. split.
    + apply sort_slice_top.
    + unfold reportService.topCustomers, slice0. apply firstn_le_length.
Qed.

Lemma top_reports_group_sort_truncate_witness :
  calls_ok 1 (mkWorld report_db [] []) = true
  /\ (exists result,
        fst (reportService.getTopCars 20070 (mkWorld report_db [] []))
        = Returned result
        /\ (List.length result <= 5)%nat)
  /\ (exists result,
        fst (reportService.getTopCustomers 20070 (mkWorld report_db [] []))
        = Returned result
        /\ (List.length result <= 5)%nat).
Proof.
  split; [reflexivity|].
  destruct (top_reports_group_sort_truncate 20070 (mkWorld report_db [] []) eq_refl)
    as [(g1 & r1 & E1 & _ & _ & L1) (g2 & r2 & E2 & _ & _ & L2)].
  split; [exists r1|exists r2]; split; assumption.
Defined.

(** * Further properties of the services and forms *)

(** ** rentalService: complete, failures, repetition *)

Lemma calls_ok_tl (n : nat) (d d' : database) (fs : list bool) (l l' : list call) :
  calls_ok (S n) (mkWorld d fs l) = true ->
  calls_ok n (mkWorld d' (tl fs) l') = true.
Proof.
  unfold calls_ok. cbn [faults]. destruct fs as [|[] fs]; cbn; try discriminate.
  - intros _. destruct n; reflexivity.
  - auto.
Qed.

(** The tables after a completion whose three calls succeed. *)
Lemma complete_run (w : world) (R : Rental) (returnDate : date) :
  calls_ok 3 w = true ->
  NoDup (map rental_id (rentals (tables w))) ->
  In R (rentals (tables w)) ->
  rentalService.complete (rental_id R) returnDate w
  = (Returned (Some (set_rental_completed returnDate R)),
     mkWorld
       (with_cars
          (with_rentals (tables w)
             (update_where rental_id (rental_id R)
                (set_rental_completed returnDate) (rentals (tables w))))
          (update_where Cars.car_id (car_id R) (set_car_status Available)
             (cars (tables w))))
       (tl (tl (tl (faults w))))
       (log w ++ [(SELECT, t_rentals); (UPDATE, t_rentals); (UPDATE, t_cars)])).
Proof.
  intros Hok Hnd Hin.
  unfold rentalService.complete, bind, await.
  unfold q_rental_car. backend_step Hok E1 H1.
  cbn [fst snd]. rewrite (select_where_unique rental_id R _ Hnd Hin).
  cbn [map single resp_ok data].
  unfold q_update_rental_single. backend_step H1 E2 H2.
  cbn [fst snd tables faults log].
  rewrite select_update_where by reflexivity.
  rewrite (select_where_unique rental_id R _ Hnd Hin).
  cbn [map single resp_ok data error throw_if_error ret].
  unfold q_update_car_status. backend_last H2 E3.
  cbn [fst snd tables faults log with_rentals with_cars rentals cars customers
       payments next_rental_id next_payment_id].
  rewrite <- !app_assoc. reflexivity.
Qed.

(** X1. Completing an existing rental R through the service (its three
    backend calls succeeding): the service returns R with status Completed
    and the given return date; the rentals row of R carries both, its
    total cost is untouched, every other rental is as before; payments are
    unchanged; every car row referenced by R is Available and every other
    car is as before. *)
Theorem complete_existing_rental (w : world) (R : Rental) (returnDate : date) :
  calls_ok 3 w = true ->
  NoDup (map rental_id (rentals (tables w))) ->
  In R (rentals (tables w)) ->
  let out := rentalService.complete (rental_id R) returnDate w in
  let d := tables w in
  let d' := tables (snd out) in
  fst out = Returned (Some (set_rental_completed returnDate R))
  /\ (forall r', In r' (rentals d') -> rental_id r' = rental_id R ->
        status r' = Completed /\ return_date r' = Some returnDate
        /\ total_cost r' = total_cost R /\ car_id r' = car_id R)
  /\ (forall r, rental_id r <> rental_id R ->
        (In r (rentals d') <-> In r (rentals d)))
  /\ payments d' = payments d
  /\ (forall c', In c' (cars d') -> Cars.car_id c' = car_id R ->
        Cars.status c' = Available)
  /\ (forall c, Cars.car_id c <> car_id R -> (In c (cars d') <-> In c (cars d))).
Proof.
  intros Hok Hnd Hin out d d'. subst out d d'.
  rewrite (complete_run w R returnDate Hok Hnd Hin).
  cbn [fst snd tables with_cars with_rentals rentals payments cars].
  split; [reflexivity|].
  split.
  { intros r' Hr' Eid.
    destruct (update_where_hit _ _ _ _ _ Hr' Eid (fun _ => eq_refl))
      as (r & Hr & E & ->).
    rewrite (pk_unique rental_id _ r R Hnd Hr Hin E). repeat split. }
  split; [intros r Hne; apply update_where_other; [reflexivity|exact Hne]|].
  split; [reflexivity|].
  split.
  { intros c' Hc' Eid.
    destruct (update_where_hit _ _ _ _ _ Hc' Eid (fun _ => eq_refl))
      as (c & _ & _ & ->).
    reflexivity. }
  intros c Hne. apply update_where_other; [reflexivity|exact Hne].
Qed.

Lemma complete_existing_rental_witness :
  calls_ok 3 (mkWorld rented_db [] []) = true
  /\ NoDup (map rental_id (rentals rented_db))
  /\ In demo_rental (rentals rented_db)
  /\ fst (rentalService.complete 1 20003 (mkWorld rented_db [] []))
     = Returned (Some (set_rental_completed 20003 demo_rental)).
Proof.
  assert (Hnd : NoDup (map rental_id (rentals rented_db))).
  { constructor; [intros []|constructor]. }
  assert (Hin : In demo_rental (rentals rented_db)) by (left; reflexivity).
  split; [reflexivity|]. split; [exact Hnd|]. split; [exact Hin|].
  exact (proj1 (complete_existing_rental (mkWorld rented_db [] []) demo_rental
                  20003 eq_refl Hnd Hin)).
Defined.

(** X2. When the lookup that opens [complete] and [cancel] fails at the
    backend, its error is not looked at: both functions throw 'Rental not
    found', whether or not the rental exists, issue no update and leave
    all tables as they were. *)
Theorem lookup_failure_reads_as_not_found (w : world) (id : Z)
  (returnDate : date) (fs : list bool) :
  faults w = true :: fs ->
  rentalService.complete id returnDate w
  = (Thrown (Error "Rental not found"),
     mkWorld (tables w) fs (log w ++ [(SELECT, t_rentals)]))
  /\ rentalService.cancel id w
     = (Thrown (Error "Rental not found"),
        mkWorld (tables w) fs (log w ++ [(SELECT, t_rentals)])).
Proof.
  intros Hf.
  unfold rentalService.complete, rentalService.cancel, bind, await, q_rental_car,
    backend.
  rewrite Hf. split; reflexivity.
Qed.

Lemma lookup_failure_reads_as_not_found_witness :
  faults (mkWorld rented_db [true] []) = [true]
  /\ In demo_rental (rentals rented_db)
  /\ fst (rentalService.cancel (rental_id demo_rental) (mkWorld rented_db [true] []))
     = Thrown (Error "Rental not found").
Proof.
  split; [reflexivity|]. split; [left; reflexivity|].
  exact (f_equal fst
           (proj2 (lookup_failure_reads_as_not_found
                     (mkWorld rented_db [true] []) 1 20003 [] eq_refl))).
Defined.

(** X3. When the rental update of [cancel] or [complete] succeeds and the
    car update after it fails, the failure is not reported: the function
    returns the updated rental, the rental keeps its new status, and the
    cars table is as it was, so the car is not freed. *)
Theorem finish_with_failed_car_update (w : world) (R : Rental)
  (returnDate : date) (fs : list bool) :
  faults w = false :: false :: true :: fs ->
  NoDup (map rental_id (rentals (tables w))) ->
  In R (rentals (tables w)) ->
  let lg := log w ++ [(SELECT, t_rentals); (UPDATE, t_rentals); (UPDATE, t_cars)] in
  rentalService.cancel (rental_id R) w
  = (Returned (Some (set_rental_status Cancelled R)),
     mkWorld (with_rentals (tables w)
                (update_where rental_id (rental_id R)
                   (set_rental_status Cancelled) (rentals (tables w))))
             fs lg)
  /\ rentalService.complete (rental_id R) returnDate w
     = (Returned (Some (set_rental_completed returnDate R)),
        mkWorld (with_rentals (tables w)
                   (update_where rental_id (rental_id R)
                      (set_rental_completed returnDate) (rentals (tables w))))
                fs lg).
Proof.
  intros Hf Hnd Hin lg. subst lg.
  unfold rentalService.cancel, rentalService.complete, bind, await, q_rental_car,
    q_update_rental_single, q_update_car_status, backend.
  rewrite Hf. cbn [fst snd tables faults log].
  rewrite (select_where_unique rental_id R _ Hnd Hin).
  cbn [map single resp_ok data fst snd tables faults log].
  rewrite !select_update_where by reflexivity.
  rewrite (select_where_unique rental_id R _ Hnd Hin).
  cbn [map single resp_ok data error throw_if_error ret fst snd tables faults log].
  rewrite <- !app_assoc. split; reflexivity.
Qed.

Lemma finish_with_failed_car_update_witness :
  let w := mkWorld rented_db [false; false; true] [] in
  faults w = [false; false; true]
  /\ NoDup (map rental_id (rentals (tables w)))
  /\ In demo_rental (rentals (tables w))
  /\ cars (tables (snd (rentalService.cancel 1 w))) = cars rented_db.
Proof.
  intros w.
  assert (Hnd : NoDup (map rental_id (rentals (tables w)))).
  { constructor; [intros []|constructor]. }
  assert (Hin : In demo_rental (rentals (tables w))) by (left; reflexivity).
  split; [reflexivity|]. split; [exact Hnd|]. split; [exact Hin|].
  exact (f_equal (fun o => cars (tables (snd o)))
           (proj1 (finish_with_failed_car_update w demo_rental 20003 []
                     eq_refl Hnd Hin))).
Defined.

Lemma update_where_idem {A} (key : A -> Z) k (f : A -> A) rows :
  (forall r, key (f r) = key r) -> (forall r, f (f r) = f r) ->
  update_where key k f (update_where key k f rows) = update_where key k f rows.
Proof.
  intros Hk Hf. unfold update_where. rewrite map_map. apply map_ext.
  intros r. destruct (Z.eqb_spec (key r) k) as [E|E].
  - rewrite Hk, E, Z.eqb_refl. apply Hf.
  - destruct (Z.eqb_spec (key r) k); [contradiction|reflexivity].
Qed.

Lemma update_where_miss {A} (key : A -> Z) k (f : A -> A) rows :
  (forall r, In r rows -> key r <> k) -> update_where key k f rows = rows.
Proof.
  intros H. unfold update_where. rewrite <- (map_id rows) at 2.
  apply map_ext_in. intros r Hr.
  destruct (Z.eqb_spec (key r) k) as [E|E]; [|reflexivity].
  exfalso. exact (H r Hr E).
Qed.

(** With a primary key, an update by key rewrites one row in place. *)
Lemma update_where_split {A} (key : A -> Z) (f : A -> A) rows (R : A) :
  NoDup (map key rows) -> In R rows ->
  exists l1 l2, rows = l1 ++ R :: l2
                /\ update_where key (key R) f rows = l1 ++ f R :: l2.
Proof.
  intros Hnd Hin. destruct (in_split _ _ Hin) as (l1 & l2 & ->).
  exists l1, l2. split; [reflexivity|].
  rewrite map_app in Hnd. cbn [map] in Hnd.
  pose proof (NoDup_remove_2 _ _ _ Hnd) as Hnot.
  assert (H1 : forall r, In r l1 -> key r <> key R).
  { intros r Hr E. apply Hnot. apply in_or_app. left. rewrite <- E.
    apply in_map. exact Hr. }
  assert (H2 : forall r, In r l2 -> key r <> key R).
  { intros r Hr E. apply Hnot. apply in_or_app. right. rewrite <- E.
    apply in_map. exact Hr. }
  pose proof (update_where_miss key (key R) f l1 H1) as E1.
  pose proof (update_where_miss key (key R) f l2 H2) as E2.
  unfold update_where in *. rewrite map_app. cbn [map].
  rewrite E1, E2, Z.eqb_refl. reflexivity.
Qed.

(** X4. Cancelling twice is cancelling once: with all calls succeeding, a
    second [cancel] of the same rental returns the same row and leaves
    every table as the first one left it. *)
Theorem cancel_twice (w : world) (R : Rental) :
  calls_ok 6 w = true ->
  NoDup (map rental_id (rentals (tables w))) ->
  In R (rentals (tables w)) ->
  let first := rentalService.cancel (rental_id R) w in
  let second := rentalService.cancel (rental_id R) (snd first) in
  fst second = fst first
  /\ tables (snd second) = tables (snd first)
  /\ fst first = Returned (Some (set_rental_status Cancelled R)).
Proof.
  intros Hok Hnd Hin. cbv zeta.
  assert (Hok3 : calls_ok 3 w = true).
  { revert Hok. unfold calls_ok. destruct (faults w) as [|[] [|[] [|[] fs]]];
      cbn; auto; discriminate. }
  rewrite (cancel_run w R Hok3 Hnd Hin). cbn [fst snd].
  set (R1 := set_rental_status Cancelled R).
  match goal with
  | |- context [rentalService.cancel _ ?x] => set (w1 := x)
  end.
  assert (Hok1 : calls_ok 3 w1 = true).
  { subst w1. destruct w as [d fs l]. cbn [faults tables log] in *.
    revert Hok. unfold calls_ok. cbn [faults].
    destruct fs as [|[] [|[] [|[] fs]]]; cbn; auto; discriminate. }
  assert (Hnd1 : NoDup (map rental_id (rentals (tables w1)))).
  { subst w1. cbn [tables with_cars with_rentals rentals].
    rewrite update_where_keys by reflexivity. exact Hnd. }
  assert (Hin1 : In R1 (rentals (tables w1))).
  { subst w1 R1. cbn [tables with_cars with_rentals rentals].
    apply update_where_in; [exact Hin|reflexivity]. }
  change (rental_id R) with (rental_id R1).
  rewrite (cancel_run w1 R1 Hok1 Hnd1 Hin1). cbn [fst snd tables].
  split; [reflexivity|]. split; [|reflexivity].
  subst w1 R1.
  cbn [tables with_cars with_rentals rentals cars customers payments
       next_rental_id next_payment_id rental_id car_id set_rental_status].
  rewrite !update_where_idem by reflexivity. reflexivity.
Qed.

Lemma cancel_twice_witness :
  let w := mkWorld rented_db [] [] in
  calls_ok 6 w = true
  /\ NoDup (map rental_id (rentals (tables w)))
  /\ In demo_rental (rentals (tables w))
  /\ tables (snd (rentalService.cancel 1 (snd (rentalService.cancel 1 w))))
     = tables (snd (rentalService.cancel 1 w)).
Proof.
  intros w.
  assert (Hnd : NoDup (map rental_id (rentals (tables w)))).
  { constructor; [intros []|constructor]. }
  assert (Hin : In demo_rental (rentals (tables w))) by (left; reflexivity).
  split; [reflexivity|]. split; [exact Hnd|]. split; [exact Hin|].
  exact (proj1 (proj2 (cancel_twice w demo_rental eq_refl Hnd Hin))).
Defined.

(** ** Who has which car *)

Lemma calls_ok_le (n m : nat) (w : world) :
  (n <= m)%nat -> calls_ok m w = true -> calls_ok n w = true.
Proof.
  unfold calls_ok. generalize (faults w). intros fs. revert m fs.
  induction n as [|n IH]; intros m fs Hle H; [reflexivity|].
  destruct m as [|m]; [lia|]. destruct fs as [|b fs]; [reflexivity|].
  cbn [firstn forallb] in *. apply andb_true_iff in H. destruct H as [Hb H].
  rewrite Hb. cbn [andb]. apply (IH m); [lia|exact H].
Qed.

Lemma ongoing_count_app (rs1 rs2 : list Rental) (c : Z) :
  ongoing_count (rs1 ++ rs2) c
  = (ongoing_count rs1 c + ongoing_count rs2 c)%nat.
Proof. unfold ongoing_count. rewrite filter_app, length_app. reflexivity. Qed.

Lemma ongoing_count_cons (r : Rental) (rs : list Rental) (c : Z) :
  ongoing_count (r :: rs) c
  = Nat.add (if is_ongoing r && (car_id r =? c) then 1%nat else 0%nat)
            (ongoing_count rs c).
Proof.
  unfold ongoing_count. cbn [filter].
  destruct (is_ongoing r && (car_id r =? c)); reflexivity.
Qed.

(** A new rental of car [k] on top of tables where [k] has no Ongoing
    rental, the cars of id [k] being marked Rented. *)
Lemma creation_keeps_consistency (d d' : database) (row : Rental) :
  rentals d' = rentals d ++ [row] ->
  cars d' = update_where Cars.car_id (car_id row) (set_car_status Rented) (cars d) ->
  ongoing_count (rentals d) (car_id row) = 0%nat ->
  consistent d -> consistent d'.
Proof.
  intros Hr Hc Hfree [Hone Havail]. split.
  - intros c. rewrite Hr, ongoing_count_app, ongoing_count_cons.
    change (ongoing_count [] c) with 0%nat.
    destruct (Z.eqb_spec (car_id row) c) as [E|E].
    + subst c. rewrite Hfree. destruct (is_ongoing row); cbn; lia.
    + rewrite andb_false_r. specialize (Hone c). lia.
  - intros car Hin Hst. rewrite Hc in Hin. apply in_update_where in Hin.
    destruct Hin as (c0 & Hc0 & ->).
    destruct (Z.eqb_spec (Cars.car_id c0) (car_id row)) as [E|E];
      [discriminate Hst|].
    rewrite Hr, ongoing_count_app, ongoing_count_cons.
    change (ongoing_count [] (Cars.car_id c0)) with 0%nat.
    destruct (Z.eqb_spec (car_id row) (Cars.car_id c0)) as [E'|E'];
      [exfalso; apply E; symmetry; exact E'|].
    rewrite andb_false_r, (Havail c0 Hc0 Hst). reflexivity.
Qed.

(** An Ongoing rental R leaving that status, the cars of R's car id being
    marked Available. *)
Lemma release_keeps_consistency (d d' : database) (R : Rental)
  (f : Rental -> Rental) :
  NoDup (map rental_id (rentals d)) ->
  In R (rentals d) ->
  status R = Ongoing ->
  is_ongoing (f R) = false ->
  rentals d' = update_where rental_id (rental_id R) f (rentals d) ->
  cars d' = update_where Cars.car_id (car_id R) (set_car_status Available) (cars d) ->
  consistent d -> consistent d'.
Proof.
  intros Hnd Hin Hst Hf Hr Hc [Hone Havail].
  destruct (update_where_split rental_id f _ R Hnd Hin) as (l1 & l2 & E1 & E2).
  assert (Hcount : forall c,
             ongoing_count (rentals d) c
             = Nat.add (ongoing_count (rentals d') c)
                       (if car_id R =? c then 1%nat else 0%nat)).
  { intros c. rewrite Hr, E2, E1.
    rewrite !ongoing_count_app, !ongoing_count_cons.
    rewrite Hf. unfold is_ongoing at 1. rewrite Hst. cbn [andb].
    destruct (car_id R =? c); lia. }
  split.
  - intros c. specialize (Hone c). rewrite (Hcount c) in Hone. lia.
  - intros car Hcar Hav. rewrite Hc in Hcar. apply in_update_where in Hcar.
    destruct Hcar as (c0 & Hc0 & ->).
    destruct (Z.eqb_spec (Cars.car_id c0) (car_id R)) as [E|E].
    + cbn [set_car_status Cars.car_id]. rewrite E.
      pose proof (Hone (car_id R)) as H1. rewrite (Hcount (car_id R)) in H1.
      rewrite Z.eqb_refl in H1. lia.
    + pose proof (Havail c0 Hc0 Hav) as H0. rewrite (Hcount (Cars.car_id c0)) in H0.
      lia.
Qed.

(** X5. Rental creation never looks at the car's occupation: as soon as
    the insert of a request with status Ongoing succeeds, the number of
    Ongoing rentals of the chosen car is one more than before, whatever
    the status of the car and however many Ongoing rentals it already
    had. *)
Theorem creation_ignores_occupation (r : RentalInsert) (w : world) :
  calls_ok 1 w = true ->
  references_ok (tables w) r = true ->
  ins_status r = Ongoing ->
  ongoing_count (rentals (tables (snd (rentalService.create r w)))) (ins_car_id r)
  = S (ongoing_count (rentals (tables w)) (ins_car_id r)).
Proof.
  intros Hok Hfk Hst.
  rewrite (create_rentals w r Hok Hfk), ongoing_count_app, ongoing_count_cons.
  unfold is_ongoing.
  cbn [inserted_rental status car_id]. rewrite Hst, Z.eqb_refl.
  change (ongoing_count [] (ins_car_id r)) with 0%nat. cbn [andb]. lia.
Qed.

Lemma creation_ignores_occupation_witness :
  let r := mkRentalInsert 1 1 20000 15000 Ongoing in
  let w := mkWorld rented_db [] [] in
  calls_ok 1 w = true
  /\ references_ok (tables w) r = true
  /\ ins_status r = Ongoing
  /\ ongoing_count (rentals rented_db) 1 = 1%nat
  /\ ongoing_count (rentals (tables (snd (rentalService.create r w)))) 1 = 2%nat.
Proof.
  intros r w. split; [reflexivity|]. split; [reflexivity|].
  split; [reflexivity|]. split; [reflexivity|].
  exact (creation_ignores_occupation r w eq_refl eq_refl eq_refl).
Defined.

Lemma fetchAvailableCars_loads (st : RentalModal.state) (w : world) (n : nat) :
  calls_ok (S n) w = true ->
  RentalModal.fetchAvailableCars st w
  = ((RentalModal.mkState
        (filter (fun car => match Cars.status car with
                            | Available => true
                            | _ => false
                            end) (rev (cars (tables w))))
        (RentalModal.form st), None),
     mkWorld (tables w) (tl (faults w)) (log w ++ [(SELECT, t_cars)]))
  /\ calls_ok n (mkWorld (tables w) (tl (faults w)) (log w ++ [(SELECT, t_cars)]))
     = true.
Proof.
  intros Hok.
  unfold RentalModal.fetchAvailableCars, carService.getAll, bind, await, q_all_cars.
  backend_step Hok E1 H1. cbn [fst snd] in *. split; [reflexivity|exact H1].
Qed.

Lemma selectedCar_spec (st : RentalModal.state) (c : Car) :
  RentalModal.selectedCar st = Some c ->
  In c (RentalModal.availableCars st)
  /\ RentalModal.in_car_id (RentalModal.form st) = Some (Cars.car_id c).
Proof.
  unfold RentalModal.selectedCar.
  destruct (RentalModal.in_car_id (RentalModal.form st)) as [carId|];
    [|discriminate].
  destruct (negb (carId =? 0)
            && (0 <? Z.of_nat (List.length (RentalModal.availableCars st))));
    [|discriminate].
  intros H. apply find_some in H. destruct H as [Hin E].
  apply Z.eqb_eq in E. subst carId. auto.
Qed.

(** X6. A rental created through the service for the car selected in
    the form right after the list of available cars was fetched (the
    fetch and both writes succeeding) keeps the tables consistent: the
    selected car was an Available row of the cars table, and afterwards
    still no car has two Ongoing rentals and no Available car has one. *)
Theorem fresh_creation_keeps_consistency (st0 : RentalModal.state)
  (r : RentalInsert) (c : Car) (w : world) :
  calls_ok 3 w = true ->
  consistent (tables w) ->
  RentalModal.selectedCar (fst (fst (RentalModal.fetchAvailableCars st0 w)))
  = Some c ->
  ins_car_id r = Cars.car_id c ->
  has_key Customers.customer_id (ins_customer_id r) (customers (tables w)) = true ->
  let loaded := RentalModal.fetchAvailableCars st0 w in
  let out := rentalService.create r (snd loaded) in
  In c (cars (tables w)) /\ Cars.status c = Available
  /\ fst out = Returned (Some (inserted_rental (tables w) r))
  /\ consistent (tables (snd out)).
Proof.
  intros Hok Hcons Hsel Ecar Hcust. cbv zeta.
  destruct (fetchAvailableCars_loads st0 w 2 Hok) as [Eload Hok2].
  rewrite Eload in *. cbn [fst snd] in *.
  set (st := RentalModal.mkState _ (RentalModal.form st0)) in *.
  destruct (selectedCar_spec st c Hsel) as [Hin _].
  subst st. cbn [RentalModal.availableCars] in Hin.
  apply filter_In in Hin. destruct Hin as [Hin Hav].
  apply in_rev in Hin.
  assert (Hst : Cars.status c = Available)
    by (destruct (Cars.status c); [reflexivity|discriminate|discriminate]).
  split; [exact Hin|]. split; [exact Hst|].
  match goal with
  | |- context [rentalService.create r ?w1] =>
      assert (Hfk : references_ok (tables w1) r = true)
  end.
  { unfold references_ok. cbn [tables].
    rewrite Hcust, Ecar, (has_key_in Cars.car_id c _ Hin). reflexivity. }
  rewrite (create_run _ _ Hok2 Hfk). cbn [fst snd tables].
  split; [reflexivity|].
  eapply creation_keeps_consistency; [| | |exact Hcons].
  - reflexivity.
  - reflexivity.
  - cbn [inserted_rental car_id]. rewrite Ecar. apply Hcons; assumption.
Qed.

Lemma fresh_creation_keeps_consistency_witness :
  let st0 := RentalModal.mkState [] demo_form in
  let r := mkRentalInsert 1 1 20000 15000 Ongoing in
  let w := demo_world [] in
  calls_ok 3 w = true
  /\ consistent (tables w)
  /\ RentalModal.selectedCar (fst (fst (RentalModal.fetchAvailableCars st0 w)))
     = Some demo_car
  /\ consistent
       (tables (snd (rentalService.create r
                       (snd (RentalModal.fetchAvailableCars st0 w))))).
Proof.
  intros st0 r w.
  assert (Hc : consistent (tables w)).
  { split; [intros c; apply le_0_n|intros car _ _; reflexivity]. }
  split; [reflexivity|]. split; [exact Hc|]. split; [reflexivity|].
  exact (proj2 (proj2 (proj2
    (fresh_creation_keeps_consistency st0 r demo_car w
       eq_refl Hc eq_refl eq_refl eq_refl)))).
Defined.

(** X7. Cancelling or completing an Ongoing rental through the service
    (all three calls succeeding) keeps the tables consistent: still no car
    has two Ongoing rentals and no Available car has one. *)
Theorem finishing_ongoing_keeps_consistency (w : world) (R : Rental)
  (returnDate : date) :
  calls_ok 3 w = true ->
  NoDup (map rental_id (rentals (tables w))) ->
  In R (rentals (tables w)) ->
  status R = Ongoing ->
  consistent (tables w) ->
  consistent (tables (snd (rentalService.cancel (rental_id R) w)))
  /\ consistent (tables (snd (rentalService.complete (rental_id R) returnDate w))).
Proof.
  intros Hok Hnd Hin Hst Hcons. split.
  - rewrite (cancel_run w R Hok Hnd Hin). cbn [snd tables].
    eapply (release_keeps_consistency (tables w) _ R
              (set_rental_status Cancelled)); try eassumption; reflexivity.
  - rewrite (complete_run w R returnDate Hok Hnd Hin). cbn [snd tables].
    eapply (release_keeps_consistency (tables w) _ R
              (set_rental_completed returnDate)); try eassumption; reflexivity.
Qed.

Lemma rented_db_consistent : consistent rented_db.
Proof.
  split.
  - intros c. unfold ongoing_count. cbn [rentals rented_db filter].
    destruct (is_ongoing demo_rental && (car_id demo_rental =? c));
      cbn [List.length]; [apply le_n|apply le_0_n].
  - intros car [<-|[]] Hst. discriminate Hst.
Defined.

Lemma finishing_ongoing_keeps_consistency_witness :
  let w := mkWorld rented_db [] [] in
  calls_ok 3 w = true
  /\ NoDup (map rental_id (rentals (tables w)))
  /\ In demo_rental (rentals (tables w))
  /\ status demo_rental = Ongoing
  /\ consistent (tables w)
  /\ consistent (tables (snd (rentalService.cancel 1 w))).
Proof.
  intros w.
  assert (Hnd : NoDup (map rental_id (rentals (tables w)))).
  { constructor; [intros []|constructor]. }
  assert (Hin : In demo_rental (rentals (tables w))) by (left; reflexivity).
  split; [reflexivity|]. split; [exact Hnd|]. split; [exact Hin|].
  split; [reflexivity|]. split; [exact rented_db_consistent|].
  exact (proj1 (finishing_ongoing_keeps_consistency w demo_rental 20003
                  eq_refl Hnd Hin eq_refl rented_db_consistent)).
Defined.

(** X8. A payment submitted on an Ongoing rental, full or partial, with
    its backend calls succeeding, keeps the tables consistent. *)
Theorem payment_keeps_consistency (today : date) (R : Rental)
  (st : PaymentModal.state) (fd : PaymentModal.PaymentFormData) (w : world) :
  calls_ok 3 w = true ->
  NoDup (map rental_id (rentals (tables w))) ->
  In R (rentals (tables w)) ->
  status R = Ongoing ->
  consistent (tables w) ->
  consistent (tables (snd (PaymentModal.onSubmit today (Some R) st fd w))).
Proof.
  intros Hok Hnd Hin Hst Hcons.
  destruct (Z_lt_ge_dec (PaymentModal.totalPaid st + PaymentModal.amount fd)
                        (total_cost R)) as [Hlt|Hge].
  - assert (Hok1 : calls_ok 1 w = true)
      by (apply (calls_ok_le 1 3); [lia|exact Hok]).
    rewrite (onSubmit_partial_run today R st fd w Hok1 Hin Hlt).
    cbn [snd tables]. exact Hcons.
  - rewrite (onSubmit_full_run today R st fd w Hok Hin Hge). cbn [snd tables].
    eapply (release_keeps_consistency (tables w) _ R
              (set_rental_completed today)); try eassumption; reflexivity.
Qed.

Lemma payment_keeps_consistency_witness :
  let w := mkWorld rented_db [] [] in
  let fd := PaymentModal.mkFormData 15000 Cash 20003 in
  calls_ok 3 w = true
  /\ NoDup (map rental_id (rentals (tables w)))
  /\ In demo_rental (rentals (tables w))
  /\ status demo_rental = Ongoing
  /\ consistent (tables w)
  /\ consistent
       (tables (snd (PaymentModal.onSubmit 20003 (Some demo_rental)
                       (PaymentModal.initial 20003) fd w))).
Proof.
  intros w fd.
  assert (Hnd : NoDup (map rental_id (rentals (tables w)))).
  { constructor; [intros []|constructor]. }
  assert (Hin : In demo_rental (rentals (tables w))) by (left; reflexivity).
  split; [reflexivity|]. split; [exact Hnd|]. split; [exact Hin|].
  split; [reflexivity|]. split; [exact rented_db_consistent|].
  exact (payment_keeps_consistency 20003 demo_rental (PaymentModal.initial 20003)
           fd w eq_refl Hnd Hin eq_refl rented_db_consistent).
Defined.

(** ** PaymentModal: failures, the prefilled amount, settled rentals *)

(** X9. When the payment insert fails, at the backend or because the
    rental row is gone, the submission stops there: the toast is 'Failed
    to process payment', nothing is written, and no update of the rental
    or the car is issued, whatever the amount. *)
Theorem payment_insert_failure (today : date) (R : Rental)
  (st : PaymentModal.state) (fd : PaymentModal.PaymentFormData) (w : world) :
  (exists fs, faults w = true :: fs)
  \/ has_key rental_id (rental_id R) (rentals (tables w)) = false ->
  let out := PaymentModal.onSubmit today (Some R) st fd w in
  fst out = Some (toast_error "Failed to process payment")
  /\ tables (snd out) = tables w
  /\ log (snd out) = log w ++ [(INSERT, t_payments)].
Proof.
  intros H. destruct w as [d fs l].
  unfold PaymentModal.onSubmit, try_toast, PaymentModal.onSubmit_body, bind, await,
    q_insert_payment, backend, throw_if_error, throw.
  cbn [faults tables log pins_rental_id] in *.
  destruct H as [[fs' ->]|Hk].
  - cbn. auto.
  - rewrite Hk. destruct fs as [|[] fs]; cbn; auto.
Qed.

Lemma payment_insert_failure_witness :
  let w := mkWorld rented_db [true] [] in
  let fd := PaymentModal.mkFormData 15000 Cash 20003 in
  ((exists fs, faults w = true :: fs)
   \/ has_key rental_id (rental_id demo_rental) (rentals (tables w)) = false)
  /\ tables (snd (PaymentModal.onSubmit 20003 (Some demo_rental)
                    (PaymentModal.initial 20003) fd w))
     = rented_db.
Proof.
  intros w fd.
  assert (H : (exists fs, faults w = true :: fs)
              \/ has_key rental_id (rental_id demo_rental) (rentals (tables w))
                 = false).
  { left. exists []. reflexivity. }
  split; [exact H|].
  exact (proj1 (proj2 (payment_insert_failure 20003 demo_rental
                         (PaymentModal.initial 20003) fd w H))).
Defined.



(** X11. For a rental with no payment recorded yet, the amount the modal
    fills in on opening is the rental's total cost, and submitting it
    untouched settles the rental: with the fetch and the three writes
    succeeding, a date in the form and a total cost between 0.01 and
    1,000,000, the submission reports the full payment, the payments of
    the rental sum to exactly its total cost, and the rental is Completed
    with today's return date.  (The running total is 0 here, so the sums
    and the comparison are exact on the code's doubles as well.) *)
Theorem prefilled_amount_settles (today pd : date) (R : Rental)
  (st0 : PaymentModal.state) (w : world) :
  calls_ok 4 w = true ->
  In R (rentals (tables w)) ->
  select_where Payments.rental_id (rental_id R) (payments (tables w)) = [] ->
  PaymentModal.in_payment_date (PaymentModal.form st0) = Some pd ->
  0 < total_cost R <= 100000000 ->
  let opened := PaymentModal.fetchPreviousPayments (Some R) st0 w in
  let out := PaymentModal.submit today (Some R) (fst (fst opened)) (snd opened) in
  PaymentModal.totalPaid (fst (fst opened)) = 0
  /\ PaymentModal.in_amount (PaymentModal.form (fst (fst opened)))
     = Some (total_cost R)
  /\ fst out = PaymentModal.Submitted
                 (Some (toast_success "Full payment processed and rental completed"))
  /\ paid_for (tables (snd out)) (rental_id R) = total_cost R
  /\ In (set_rental_completed today R) (rentals (tables (snd out))).
Proof.
  intros Hok Hin Hnone Hpd [Hpos Hcap]. cbv zeta.
  assert (Hok1 : calls_ok 1 w = true)
    by (apply (calls_ok_le 1 4); [lia|exact Hok]).
  assert (HP : paid_for (tables w) (rental_id R) = 0).
  { unfold paid_for. rewrite Hnone. reflexivity. }
  rewrite (fetchPreviousPayments_loads R st0 w Hok1). cbn [fst snd].
  rewrite HP.
  set (w1 := mkWorld (tables w) (tl (faults w)) (log w ++ [(SELECT, t_payments)])).
  assert (Hok3 : calls_ok 3 w1 = true).
  { subst w1. destruct w as [d fs l]. exact (calls_ok_tl 3 d d fs l _ Hok). }
  split; [reflexivity|].
  split; [cbn [PaymentModal.form PaymentModal.setValue_amount PaymentModal.in_amount];
          f_equal; apply Z.sub_0_r|].
  unfold PaymentModal.submit, PaymentModal.amount_input_valid,
    PaymentModal.remainingBalance, PaymentModal.handleSubmit,
    PaymentModal.paymentSchema.
  cbn [PaymentModal.form PaymentModal.totalPaid PaymentModal.setValue_amount
       PaymentModal.in_amount PaymentModal.in_payment_date
       PaymentModal.in_payment_method].
  rewrite Z.leb_refl, Hpd.
  destruct (Z.ltb_spec 0 (total_cost R - 0)) as [_|]; [|lia].
  destruct (Z.leb_spec (total_cost R - 0) 100000000) as [_|]; [|lia].
  cbn [andb].
  match goal with
  | |- context [PaymentModal.onSubmit today (Some R) ?s ?f w1] =>
      set (st := s); set (fd := f)
  end.
  assert (Hge : PaymentModal.totalPaid st + PaymentModal.amount fd >= total_cost R).
  { subst st fd. cbn [PaymentModal.totalPaid PaymentModal.amount]. lia. }
  rewrite (onSubmit_full_run today R st fd w1 Hok3 Hin Hge). cbn [fst snd tables].
  split; [reflexivity|]. split.
  - rewrite (paid_for_after_insert (tables w) _ R fd) by reflexivity.
    subst fd. cbn [PaymentModal.amount]. rewrite HP. lia.
  - cbn [rentals]. apply update_where_in; [exact Hin|reflexivity].
Qed.

Lemma prefilled_amount_settles_witness :
  let w := mkWorld rented_db [] [] in
  calls_ok 4 w = true
  /\ In demo_rental (rentals (tables w))
  /\ select_where Payments.rental_id (rental_id demo_rental) (payments (tables w))
     = []
  /\ PaymentModal.in_payment_date (PaymentModal.form (PaymentModal.initial 20003))
     = Some 20003
  /\ 0 < total_cost demo_rental <= 100000000
  /\ paid_for
       (tables (snd (PaymentModal.submit 20003 (Some demo_rental)
                       (fst (fst (PaymentModal.fetchPreviousPayments
                                    (Some demo_rental)
                                    (PaymentModal.initial 20003) w)))
                       (snd (PaymentModal.fetchPreviousPayments
                               (Some demo_rental)
                               (PaymentModal.initial 20003) w)))))
       (rental_id demo_rental)
     = total_cost demo_rental.
Proof.
  intros w.
  assert (Hin : In demo_rental (rentals (tables w))) by (left; reflexivity).
  assert (Hb : 0 < total_cost demo_rental <= 100000000).
  { split; [reflexivity|]. vm_compute. discriminate. }
  split; [reflexivity|]. split; [exact Hin|]. split; [reflexivity|].
  split; [reflexivity|]. split; [exact Hb|].
  exact (proj1 (proj2 (proj2 (proj2
    (prefilled_amount_settles 20003 20003 demo_rental (PaymentModal.initial 20003)
       w eq_refl Hin eq_refl eq_refl Hb))))).
Defined.



(** X13. When the fetch of the prior payments fails the modal shows an
    error toast and keeps the total paid it had, 0 on a first opening; the
    form is still usable, and a submission of the whole total cost is then
    accepted as a full payment whatever was paid before, so that the
    payments of the rental sum to what was paid before plus its total
    cost. *)
Theorem failed_fetch_keeps_old_total (today : date) (R : Rental) (w : world)
  (fs : list bool) :
  faults w = true :: false :: false :: false :: fs ->
  In R (rentals (tables w)) ->
  0 < total_cost R <= 100000000 ->
  let opened := PaymentModal.fetchPreviousPayments (Some R)
                  (PaymentModal.initial today) w in
  let typed := PaymentModal.mkState (PaymentModal.totalPaid (fst (fst opened)))
                 (PaymentModal.mkFormInput (Some (total_cost R)) Cash (Some today)) in
  let out := PaymentModal.submit today (Some R) typed (snd opened) in
  snd (fst opened) = Some (toast_error "Failed to fetch payment history")
  /\ PaymentModal.totalPaid (fst (fst opened)) = 0
  /\ fst out = PaymentModal.Submitted
                 (Some (toast_success "Full payment processed and rental completed"))
  /\ paid_for (tables (snd out)) (rental_id R)
     = paid_for (tables w) (rental_id R) + total_cost R.
Proof.
  intros Hf Hin [Hpos Hcap]. cbv zeta.
  rewrite (fetchPreviousPayments_fails R (PaymentModal.initial today) w _ Hf).
  cbn [fst snd PaymentModal.initial PaymentModal.totalPaid].
  split; [reflexivity|]. split; [reflexivity|].
  unfold PaymentModal.submit, PaymentModal.amount_input_valid,
    PaymentModal.remainingBalance, PaymentModal.handleSubmit,
    PaymentModal.paymentSchema.
  cbn [PaymentModal.form PaymentModal.totalPaid PaymentModal.in_amount
       PaymentModal.in_payment_date PaymentModal.in_payment_method].
  rewrite Z.sub_0_r, Z.leb_refl.
  destruct (Z.ltb_spec 0 (total_cost R)) as [_|]; [|lia].
  destruct (Z.leb_spec (total_cost R) 100000000) as [_|]; [|lia].
  cbn [andb].
  match goal with
  | |- context [PaymentModal.onSubmit today (Some R) ?s ?f ?x] =>
      set (st := s); set (fd := f); set (w1 := x)
  end.
  assert (Hok3 : calls_ok 3 w1 = true) by reflexivity.
  assert (Hge : PaymentModal.totalPaid st + PaymentModal.amount fd >= total_cost R).
  { subst st fd. cbn [PaymentModal.totalPaid PaymentModal.amount]. lia. }
  rewrite (onSubmit_full_run today R st fd w1 Hok3 Hin Hge). cbn [fst snd tables].
  split; [reflexivity|].
  rewrite (paid_for_after_insert (tables w) _ R fd) by reflexivity.
  reflexivity.
Qed.

Lemma failed_fetch_keeps_old_total_witness :
  let d := mkDb [demo_customer] [set_car_status Rented demo_car] [demo_rental]
                [Payments.mkPayment 1 1 10000 20001 Cash Paid] 2 2 in
  let w := mkWorld d [true; false; false; false] [] in
  faults w = [true; false; false; false]
  /\ In demo_rental (rentals (tables w))
  /\ 0 < total_cost demo_rental <= 100000000
  /\ paid_for d 1 = 10000
  /\ paid_for
       (tables (snd (PaymentModal.submit 20003 (Some demo_rental)
                       (PaymentModal.mkState
                          (PaymentModal.totalPaid
                             (fst (fst (PaymentModal.fetchPreviousPayments
                                          (Some demo_rental)
                                          (PaymentModal.initial 20003) w))))
                          (PaymentModal.mkFormInput (Some (total_cost demo_rental))
                             Cash (Some 20003)))
                       (snd (PaymentModal.fetchPreviousPayments (Some demo_rental)
                               (PaymentModal.initial 20003) w)))))
       (rental_id demo_rental)
     = 10000 + 15000.
Proof.
  intros d w.
  assert (Hin : In demo_rental (rentals (tables w))) by (left; reflexivity).
  assert (Hb : 0 < total_cost demo_rental <= 100000000).
  { split; [reflexivity|]. vm_compute. discriminate. }
  split; [reflexivity|]. split; [exact Hin|]. split; [exact Hb|].
  split; [reflexivity|].
  exact (proj2 (proj2 (proj2
    (failed_fetch_keeps_old_total 20003 demo_rental w [] eq_refl Hin Hb)))).
Defined.

(** ** paymentService and carService *)

Lemma select_where_app {A} (key : A -> Z) k (l1 l2 : list A) :
  select_where key k (l1 ++ l2) = select_where key k l1 ++ select_where key k l2.
Proof. unfold select_where. apply filter_app. Qed.

Lemma amounts_after_status_update (id rid : Z) (s : PaymentStatus)
  (ps : list Payment) :
  map Payments.amount
      (select_where Payments.rental_id rid
         (update_where Payments.payment_id id (set_payment_status s) ps))
  = map Payments.amount (select_where Payments.rental_id rid ps).
Proof.
  unfold select_where, update_where.
  induction ps as [|p ps IH]; cbn [map filter]; [reflexivity|].
  destruct (Payments.payment_id p =? id);
    cbn [set_payment_status Payments.rental_id];
    destruct (Payments.rental_id p =? rid); cbn [map]; rewrite IH; reflexivity.
Qed.

(** X14. The status of a payment plays no part in the balance: whatever
    [paymentService.updateStatus] does to a payment (marking it Failed or
    Pending included), the payments of every rental sum to the same
    amount, and the payment modal opened afterwards still counts the
    payment in the total paid. *)
Theorem payment_status_leaves_balance (w : world) (id : Z) (s : PaymentStatus)
  (R : Rental) (st : PaymentModal.state) :
  calls_ok 2 w = true ->
  let w' := snd (paymentService.updateStatus id s w) in
  (forall rid, paid_for (tables w') rid = paid_for (tables w) rid)
  /\ PaymentModal.totalPaid
       (fst (fst (PaymentModal.fetchPreviousPayments (Some R) st w')))
     = paid_for (tables w) (rental_id R).
Proof.
  intros Hok. cbv zeta.
  unfold paymentService.updateStatus, bind, await, q_update_payment_status.
  backend_step Hok E1 H1. cbn [fst snd] in *. clear E1.
  unfold throw_if_error, throw, ret.
  match goal with
  | |- context [single ?l] => generalize (single l); intros [dd [e|]]
  end; cbn [snd error];
    (split;
     [intros rid
     |rewrite (fetchPreviousPayments_loads R st _ H1);
      cbn [fst PaymentModal.totalPaid]]);
    unfold paid_for; cbn [tables payments];
    rewrite amounts_after_status_update; reflexivity.
Qed.

Lemma payment_status_leaves_balance_witness :
  let d := mkDb [demo_customer] [set_car_status Rented demo_car] [demo_rental]
                [Payments.mkPayment 1 1 6000 20001 Cash Paid] 2 2 in
  let w := mkWorld d [] [] in
  calls_ok 2 w = true
  /\ paid_for d 1 = 6000
  /\ PaymentModal.totalPaid
       (fst (fst (PaymentModal.fetchPreviousPayments (Some demo_rental)
                    (PaymentModal.initial 20003)
                    (snd (paymentService.updateStatus 1 Failed w)))))
     = paid_for d 1.
Proof.
  intros d w. split; [reflexivity|]. split; [reflexivity|].
  exact (proj2 (payment_status_leaves_balance w 1 Failed demo_rental
                  (PaymentModal.initial 20003) eq_refl)).
Defined.

(** X15. [paymentService.create] followed by [getById] of the new id gives
    back the payment that was created, with the customer of its rental;
    the payment is added as given, and, unlike a submission of the payment
    form, the rentals and cars tables are not touched however large the
    amount. *)
Theorem payment_create_then_getById (p : PaymentInsert) (w : world) :
  calls_ok 2 w = true ->
  has_key rental_id (pins_rental_id p) (rentals (tables w)) = true ->
  (forall q, In q (payments (tables w)) ->
             Payments.payment_id q <> next_payment_id (tables w)) ->
  let d := tables w in
  let row := Payments.mkPayment (next_payment_id d) (pins_rental_id p)
               (pins_amount p) (pins_payment_date p) (pins_payment_method p)
               (pins_status p) in
  let created := paymentService.create p w in
  let got := paymentService.getById (next_payment_id d) (snd created) in
  fst created = Returned (Some row)
  /\ fst got = Returned (Some (mkPaymentWithRental row
                                (embed_rental d (pins_rental_id p))))
  /\ payments (tables (snd created)) = payments d ++ [row]
  /\ rentals (tables (snd created)) = rentals d
  /\ cars (tables (snd created)) = cars d.
Proof.
  intros Hok Hk Hfresh. cbv zeta.
  unfold paymentService.create, paymentService.getById, bind, await,
    q_insert_payment_single.
  backend_step Hok E1 H1. rewrite Hk.
  cbn [fst snd resp_ok data error throw_if_error ret tables].
  unfold q_payment_by_id. backend_last H1 E2.
  cbn [fst snd tables payments rentals cars].
  rewrite select_where_app.
  rewrite (select_where_none Payments.payment_id
             (next_payment_id (tables w)) _ Hfresh).
  unfold select_where. cbn [filter app Payments.payment_id]. rewrite Z.eqb_refl.
  cbn [map single resp_ok data error throw_if_error ret Payments.rental_id].
  repeat split.
Qed.

Lemma payment_create_then_getById_witness :
  let w := mkWorld rented_db [] [] in
  let p := mkPaymentInsert 1 6000 Cash 20003 Paid in
  calls_ok 2 w = true
  /\ has_key rental_id (pins_rental_id p) (rentals (tables w)) = true
  /\ (forall q, In q (payments (tables w)) ->
                Payments.payment_id q <> next_payment_id (tables w))
  /\ fst (paymentService.create p w)
     = Returned (Some (Payments.mkPayment 1 1 6000 20003 Cash Paid)).
Proof.
  intros w p.
  assert (Hf : forall q, In q (payments (tables w)) ->
                         Payments.payment_id q <> next_payment_id (tables w))
    by (intros q []).
  split; [reflexivity|]. split; [reflexivity|]. split; [exact Hf|].
  exact (proj1 (payment_create_then_getById p w eq_refl eq_refl Hf)).
Defined.

(** X16. [carService.updateStatus] followed by [getById] gives back the
    car with the new status and every other column as it was, and leaves
    the rentals alone; for an id no car carries it throws and changes
    nothing. *)
Theorem car_updateStatus_then_getById (w : world) (id : Z) (s : CarStatus) :
  calls_ok 2 w = true ->
  NoDup (map Cars.car_id (cars (tables w))) ->
  let updated := carService.updateStatus id s w in
  (forall c, In c (cars (tables w)) -> Cars.car_id c = id ->
     fst updated = Returned (Some (set_car_status s c))
     /\ fst (carService.getById id (snd updated))
        = Returned (Some (set_car_status s c))
     /\ rentals (tables (snd updated)) = rentals (tables w))
  /\ ((forall c, In c (cars (tables w)) -> Cars.car_id c <> id) ->
      fst updated = Thrown BackendError
      /\ tables (snd updated) = tables w).
Proof.
  intros Hok Hnd. cbv zeta.
  unfold carService.updateStatus, carService.getById, bind, await,
    q_update_car_status_single.
  backend_step Hok E1 H1. cbn [fst snd].
  rewrite select_update_where by reflexivity.
  split.
  - intros c Hin <-.
    rewrite (select_where_unique Cars.car_id c _ Hnd Hin).
    cbn [map single resp_ok data error throw_if_error ret fst snd].
    unfold q_car_by_id. backend_last H1 E2.
    cbn [fst snd tables with_cars cars rentals].
    rewrite select_update_where by reflexivity.
    rewrite (select_where_unique Cars.car_id c _ Hnd Hin).
    cbn [map single resp_ok data error throw_if_error ret fst snd].
    repeat split.
  - intros Hno.
    rewrite (select_where_none Cars.car_id id _ Hno).
    cbn [map single resp_error data error throw_if_error throw fst snd tables].
    split; [reflexivity|].
    rewrite (update_where_miss Cars.car_id id _ _ Hno).
    destruct (tables w); reflexivity.
Qed.

Lemma car_updateStatus_then_getById_witness :
  let w := demo_world [] in
  calls_ok 2 w = true
  /\ NoDup (map Cars.car_id (cars (tables w)))
  /\ fst (carService.getById 1 (snd (carService.updateStatus 1 Maintenance w)))
     = Returned (Some (set_car_status Maintenance demo_car)).
Proof.
  intros w.
  assert (Hnd : NoDup (map Cars.car_id (cars (tables w)))).
  { constructor; [intros []|constructor]. }
  split; [reflexivity|]. split; [exact Hnd|].
  exact (proj1 (proj2 (proj1 (car_updateStatus_then_getById w 1 Maintenance
                                eq_refl Hnd)
                         demo_car (or_introl eq_refl) eq_refl))).
Defined.

(** ** RentalModal: the cars on offer and the total cost *)

(** X17. The rental form offers only Available cars: after the list was
    fetched, whatever the form holds, a selected car is an Available row
    of the cars table carrying the id held by the form; when no Available
    car carries that id no car is selected and the total cost is 0. *)
Theorem only_available_cars_selectable (st0 : RentalModal.state)
  (form : RentalModal.FormInput) (w : world) :
  calls_ok 1 w = true ->
  let offered := RentalModal.availableCars
                   (fst (fst (RentalModal.fetchAvailableCars st0 w))) in
  let st := RentalModal.mkState offered form in
  (forall c, RentalModal.selectedCar st = Some c ->
     In c (cars (tables w)) /\ Cars.status c = Available
     /\ RentalModal.in_car_id form = Some (Cars.car_id c))
  /\ ((forall c, In c (cars (tables w)) ->
         RentalModal.in_car_id form = Some (Cars.car_id c) ->
         Cars.status c <> Available) ->
      RentalModal.selectedCar st = None /\ RentalModal.totalCost st = 0).
Proof.
  intros Hok. cbv zeta.
  destruct (fetchAvailableCars_loads st0 w 0 Hok) as [Eload _].
  rewrite Eload. cbn [fst RentalModal.availableCars].
  set (st := RentalModal.mkState _ form).
  assert (Hsel : forall c, RentalModal.selectedCar st = Some c ->
            In c (cars (tables w)) /\ Cars.status c = Available
            /\ RentalModal.in_car_id form = Some (Cars.car_id c)).
  { intros c Hc. destruct (selectedCar_spec st c Hc) as [Hin Hid].
    subst st. cbn [RentalModal.availableCars RentalModal.form] in Hin, Hid.
    apply filter_In in Hin. destruct Hin as [Hin Hav]. apply in_rev in Hin.
    split; [exact Hin|]. split; [|exact Hid].
    destruct (Cars.status c); [reflexivity|discriminate|discriminate]. }
  split; [exact Hsel|].
  intros Hno.
  assert (Hnone : RentalModal.selectedCar st = None).
  { case_eq (RentalModal.selectedCar st); [|reflexivity].
    intros c E. destruct (Hsel c E) as (Hin & Hav & Hid).
    exfalso. exact (Hno c Hin Hid Hav). }
  split; [exact Hnone|].
  unfold RentalModal.totalCost, RentalModal.totalCost_in. rewrite Hnone.
  reflexivity.
Qed.

Lemma only_available_cars_selectable_witness :
  let w := mkWorld rented_db [] [] in
  let st0 := RentalModal.mkState [] demo_form in
  calls_ok 1 w = true
  /\ RentalModal.totalCost
       (RentalModal.mkState
          (RentalModal.availableCars
             (fst (fst (RentalModal.fetchAvailableCars st0 w))))
          demo_form)
     = 0.
Proof.
  intros w st0. split; [reflexivity|].
  refine (proj2 (proj2 (only_available_cars_selectable st0 demo_form w eq_refl) _)).
  intros c [<-|[]] _. discriminate.
Defined.

(** X18. With a car of non-negative daily rate selected, the total cost
    shown is never less than one day's rate, in any time zone; where the
    zone has the same UTC offset on the days involved, it never decreases
    when the expected return date moves later, and it is the number of
    days times the rate as soon as the return date is after the rental
    date. *)
Theorem total_cost_by_return_date (tz : zone) (offered : list Car)
  (cu : option Z) (id : Z) (d1 d2 d2' : date) (c : Car) :
  let st x := RentalModal.mkState offered
                (RentalModal.mkFormInput cu (Some id) (Some d1) (Some x)) in
  RentalModal.selectedCar (st d2) = Some c ->
  0 <= Cars.daily_rate c ->
  d2 <= d2' ->
  Cars.daily_rate c <= RentalModal.totalCost_in tz (st d2)
  /\ (tz d2 = tz d1 -> tz d2' = tz d1 ->
      RentalModal.totalCost_in tz (st d2) <= RentalModal.totalCost_in tz (st d2'))
  /\ (tz d2 = tz d1 -> d1 < d2 ->
      RentalModal.totalCost_in tz (st d2) = (d2 - d1) * Cars.daily_rate c).
Proof.
  intros st Hsel Hrate Hle.
  assert (Hcost : forall x, RentalModal.totalCost_in tz (st x)
                            = Z.max 1 (whole_days tz d1 x) * Cars.daily_rate c).
  { intros x. unfold RentalModal.totalCost_in.
    assert (Hx : RentalModal.selectedCar (st x) = Some c) by exact Hsel.
    rewrite Hx. subst st.
    cbn [RentalModal.form RentalModal.in_rental_date
         RentalModal.in_expected_return_date].
    cbv zeta. rewrite differenceInDays_whole_days. reflexivity. }
  rewrite !Hcost. split; [|split].
  - nia.
  - intros E E'.
    rewrite (whole_days_same_offset tz d1 d2 E),
      (whole_days_same_offset tz d1 d2' E').
    apply Z.mul_le_mono_nonneg_r; [exact Hrate|lia].
  - intros E Hlt. rewrite (whole_days_same_offset tz d1 d2 E).
    rewrite Z.max_r by lia. reflexivity.
Qed.

Lemma total_cost_by_return_date_witness :
  let st x := RentalModal.mkState [demo_car]
                (RentalModal.mkFormInput (Some 1) (Some 1) (Some 20000) (Some x)) in
  RentalModal.selectedCar (st 20003) = Some demo_car
  /\ 0 <= Cars.daily_rate demo_car
  /\ 20003 <= 20010
  /\ Cars.daily_rate demo_car <= RentalModal.totalCost_in clock_set_back (st 20003).
Proof.
  intros st.
  assert (H0 : 0 <= Cars.daily_rate demo_car) by (vm_compute; discriminate).
  assert (H1 : 20003 <= 20010) by (vm_compute; discriminate).
  split; [reflexivity|]. split; [exact H0|]. split; [exact H1|].
  exact (proj1 (total_cost_by_return_date clock_set_back [demo_car] (Some 1) 1
                  20000 20003 20010 demo_car eq_refl H0 H1)).
Defined.

(** ** The statistics pages *)

Lemma getRevenue_run (startDate : date) (w : world) :
  reportService.getRevenue startDate w
  = (if next_fails w then Thrown BackendError
     else Returned (revenue_of startDate (rentals (tables w))),
     after_read (SELECT, t_rentals) w).
Proof.
  unfold reportService.getRevenue, bind, await, reportService.q_revenue, backend,
    next_fails, after_read.
  destruct w as [d fs l]. cbn [faults tables log].
  destruct fs as [|[] fs];
    cbn [fst snd resp_ok resp_error data error throw_if_error throw ret hd tl
         reportService.rows_or_throw];
    try reflexivity;
    rewrite revenue_filter_agree, sum_amounts_from; reflexivity.
Qed.

Lemma getTopCars_run (startDate : date) (w : world) :
  reportService.getTopCars startDate w
  = (if next_fails w then Thrown BackendError
     else Returned (reportService.topCars (car_rows startDate (tables w))),
     after_read (SELECT, t_rentals) w).
Proof.
  unfold reportService.getTopCars, bind, await, reportService.q_top_cars, backend,
    next_fails, after_read.
  destruct w as [d fs l]. cbn [faults tables log].
  destruct fs as [|[] fs]; reflexivity.
Qed.

Lemma getTopCustomers_run (startDate : date) (w : world) :
  reportService.getTopCustomers startDate w
  = (if next_fails w then Thrown BackendError
     else Returned (reportService.topCustomers
                      (customer_rows startDate (tables w))),
     after_read (SELECT, t_rentals) w).
Proof.
  unfold reportService.getTopCustomers, bind, await,
    reportService.q_top_customers, backend, next_fails, after_read.
  destruct w as [d fs l]. cbn [faults tables log].
  destruct fs as [|[] fs]; reflexivity.
Qed.

Lemma getTotalCars_run (w : world) :
  reportService.getTotalCars w
  = (if next_fails w then Thrown BackendError
     else Returned (Z.of_nat (List.length (cars (tables w)))),
     after_read (SELECT, t_cars) w).
Proof.
  unfold reportService.getTotalCars, bind, await, q_count_cars, backend,
    next_fails, after_read.
  destruct w as [d fs l]. cbn [faults tables log].
  destruct fs as [|[] fs]; reflexivity.
Qed.

Lemma getAvailableCars_run (w : world) :
  reportService.getAvailableCars w
  = (if next_fails w then Thrown BackendError
     else Returned
            (Z.of_nat (List.length
               (filter (fun c => match Cars.status c with
                                 | Available => true
                                 | _ => false
                                 end) (cars (tables w))))),
     after_read (SELECT, t_cars) w).
Proof.
  unfold reportService.getAvailableCars, bind, await, q_count_available_cars,
    backend, next_fails, after_read.
  destruct w as [d fs l]. cbn [faults tables log].
  destruct fs as [|[] fs]; reflexivity.
Qed.

Lemma getOngoingRentals_run (w : world) :
  reportService.getOngoingRentals w
  = (if next_fails w then Thrown BackendError
     else Returned (Z.of_nat (List.length (filter is_ongoing (rentals (tables w))))),
     after_read (SELECT, t_rentals) w).
Proof.
  unfold reportService.getOngoingRentals, bind, await, q_count_ongoing_rentals,
    backend, next_fails, after_read.
  destruct w as [d fs l]. cbn [faults tables log].
  destruct fs as [|[] fs]; reflexivity.
Qed.

(** X19. The reports page loads all or nothing: its three reports are
    always requested, one after the other, and nothing is written; when
    the three calls succeed the statistics shown are the revenue and the
    two top lists of the cutoff; when any of them fails the statistics
    shown before stay and an error toast is shown. *)
Theorem reports_page_all_or_nothing (today : date) (timeframe : Z)
  (old : option Reports.ReportStats) (w : world) :
  let out := Reports.fetchStats today timeframe old w in
  let startDate := startDate_of today timeframe in
  tables (snd out) = tables w
  /\ log (snd out)
     = log w ++ [(SELECT, t_rentals); (SELECT, t_rentals); (SELECT, t_rentals)]
  /\ (calls_ok 3 w = true ->
      fst out
      = (Some (Reports.mkReportStats
                 (revenue_of startDate (rentals (tables w)))
                 (reportService.topCars (car_rows startDate (tables w)))
                 (reportService.topCustomers (customer_rows startDate (tables w)))),
         None))
  /\ (calls_ok 3 w = false ->
      fst out = (old, Some (toast_error "Failed to fetch report statistics"))).
Proof.
  cbv zeta. unfold Reports.fetchStats, Promise_all.
  rewrite getRevenue_run. cbv iota beta.
  rewrite getTopCars_run. cbv iota beta.
  rewrite getTopCustomers_run. cbv iota beta.
  unfold calls_ok, next_fails, after_read.
  destruct w as [d fs l]. cbn [faults tables log tl].
  destruct fs as [|[] [|[] [|[] fs]]];
    cbn [hd tl fst snd tables log firstn forallb negb andb];
    rewrite <- ?app_assoc; cbn [app];
    (split; [reflexivity|]); (split; [reflexivity|]);
    split; intros H; try discriminate H; reflexivity.
Qed.

Lemma reports_page_all_or_nothing_witness :
  let w := mkWorld report_db [] [] in
  calls_ok 3 w = true
  /\ fst (Reports.fetchStats 20100 30 None w)
     = (Some (Reports.mkReportStats
                (revenue_of (startDate_of 20100 30) (rentals (tables w)))
                (reportService.topCars (car_rows (startDate_of 20100 30) (tables w)))
                (reportService.topCustomers
                   (customer_rows (startDate_of 20100 30) (tables w)))),
        None).
Proof.
  intros w. split; [reflexivity|].
  exact (proj1 (proj2 (proj2 (reports_page_all_or_nothing 20100 30 None w))) eq_refl).
Defined.

Lemma ongoing_in_count (rs : list Rental) (r : Rental) :
  In r rs -> is_ongoing r = true -> (1 <= ongoing_count rs (car_id r))%nat.
Proof.
  intros Hin Hon. unfold ongoing_count.
  assert (H : In r (filter (fun r0 => is_ongoing r0 && (car_id r0 =? car_id r)) rs)).
  { apply filter_In. split; [exact Hin|]. rewrite Hon, Z.eqb_refl. reflexivity. }
  destruct (filter _ rs); [contradiction|]. cbn [List.length]. lia.
Qed.

Lemma ongoing_ids_NoDup (rs : list Rental) :
  (forall c, (ongoing_count rs c <= 1)%nat) ->
  NoDup (map car_id (filter is_ongoing rs)).
Proof.
  induction rs as [|r rs IH]; intros H; cbn [filter map]; [constructor|].
  assert (Hrs : forall c, (ongoing_count rs c <= 1)%nat).
  { intros c. specialize (H c). rewrite ongoing_count_cons in H. lia. }
  destruct (is_ongoing r) eqn:Hon; [|exact (IH Hrs)].
  cbn [map]. constructor; [|exact (IH Hrs)].
  intros Hin. apply in_map_iff in Hin. destruct Hin as (r' & Hk & Hr').
  apply filter_In in Hr'. destruct Hr' as [Hr' Hon'].
  pose proof (ongoing_in_count rs r' Hr' Hon') as Hc. rewrite Hk in Hc.
  specialize (H (car_id r)). rewrite ongoing_count_cons in H.
  rewrite Hon, Z.eqb_refl in H. cbn [andb] in H. lia.
Qed.

(** When the tables agree on who has which car, the Ongoing rentals are
    no more than the cars that are not Available. *)
Lemma occupied_cars_bound (d : database) :
  consistent d -> rentals_have_cars d ->
  (List.length (filter is_ongoing (rentals d))
   + List.length (filter (fun c => match Cars.status c with
                                   | Available => true
                                   | _ => false
                                   end) (cars d))
   <= List.length (cars d))%nat.
Proof.
  intros [Hone Hfree] Hfk.
  set (avail := fun c : Car => match Cars.status c with
                               | Available => true
                               | _ => false
                               end).
  pose proof (filter_length avail (cars d)) as Hlen.
  change (List.length (filter is_ongoing (rentals d))
          + List.length (filter avail (cars d)) <= List.length (cars d))%nat.
  enough (List.length (filter is_ongoing (rentals d))
          <= List.length (filter (fun c => negb (avail c)) (cars d)))%nat by lia.
  enough (Hincl : incl (map car_id (filter is_ongoing (rentals d)))
                        (map Cars.car_id
                           (filter (fun c => negb (avail c)) (cars d)))).
  { pose proof (NoDup_incl_length (ongoing_ids_NoDup _ Hone) Hincl) as H.
    rewrite !length_map in H. exact H. }
  intros k Hk. apply in_map_iff in Hk. destruct Hk as (r & <- & Hr).
  apply filter_In in Hr. destruct Hr as [Hr Hon].
  pose proof (Hfk r Hr) as Hkey. unfold has_key in Hkey.
  apply existsb_exists in Hkey. destruct Hkey as (c & Hc & Eid).
  apply Z.eqb_eq in Eid.
  apply in_map_iff. exists c. split; [exact Eid|].
  apply filter_In. split; [exact Hc|].
  destruct (avail c) eqn:Hav; [|reflexivity]. exfalso.
  assert (Hst : Cars.status c = Available).
  { unfold avail in Hav. destruct (Cars.status c);
      [reflexivity|discriminate|discriminate]. }
  pose proof (Hfree c Hc Hst) as H0. rewrite Eid in H0.
  pose proof (ongoing_in_count (rentals d) r Hr Hon). lia.
Qed.

(** X20. On the dashboard (its six calls succeeding), when the tables
    agree on who has which car and every rental refers to a car of the
    cars table, the numbers shown add up: the total is the number of cars,
    and the Available cars and the Ongoing rentals together are no more
    than the total.  Nothing is written. *)
Theorem dashboard_counts_add_up (today : date) (timeframe : Z)
  (old : option Dashboard.DashboardStats) (w : world) :
  calls_ok 6 w = true ->
  consistent (tables w) ->
  rentals_have_cars (tables w) ->
  let out := Dashboard.fetchDashboardStats today timeframe old w in
  tables (snd out) = tables w
  /\ exists st,
       fst out = (Some st, None)
       /\ Dashboard.totalCars st = Z.of_nat (List.length (cars (tables w)))
       /\ Dashboard.ongoingRentals st
          = Z.of_nat (List.length (filter is_ongoing (rentals (tables w))))
       /\ 0 <= Dashboard.availableCars st
       /\ Dashboard.availableCars st + Dashboard.ongoingRentals st
          <= Dashboard.totalCars st
       /\ Dashboard.totalRevenue st
          = revenue_of (startDate_of today timeframe) (rentals (tables w)).
Proof.
  intros Hok Hcons Hfk. cbv zeta.
  pose proof (occupied_cars_bound (tables w) Hcons Hfk) as Hbound.
  unfold Dashboard.fetchDashboardStats, Promise_all.
  rewrite getTotalCars_run. cbv iota beta.
  rewrite getAvailableCars_run. cbv iota beta.
  rewrite getOngoingRentals_run. cbv iota beta.
  rewrite getRevenue_run. cbv iota beta.
  rewrite getTopCars_run. cbv iota beta.
  rewrite getTopCustomers_run. cbv iota beta.
  unfold calls_ok, next_fails, after_read in *.
  destruct w as [d fs l]. cbn [faults tables log tl] in *.
  destruct fs as [|[] [|[] [|[] [|[] [|[] [|[] fs]]]]]];
    cbn [hd tl fst snd tables log firstn forallb negb andb] in *;
    try discriminate Hok;
    (split; [reflexivity|]); eexists; (split; [reflexivity|]);
    cbn [Dashboard.totalCars Dashboard.availableCars Dashboard.ongoingRentals
         Dashboard.totalRevenue];
    repeat split; lia.
Qed.

Lemma dashboard_counts_add_up_witness :
  let w := mkWorld rented_db [] [] in
  calls_ok 6 w = true
  /\ consistent (tables w)
  /\ rentals_have_cars (tables w)
  /\ tables (snd (Dashboard.fetchDashboardStats 20100 30 None w)) = tables w.
Proof.
  intros w.
  assert (Hfk : rentals_have_cars (tables w)).
  { intros r [<-|[]]. reflexivity. }
  split; [reflexivity|]. split; [exact rented_db_consistent|].
  split; [exact Hfk|].
  exact (proj1 (dashboard_counts_add_up 20100 30 None w eq_refl
                  rented_db_consistent Hfk)).
Defined.

(** X21. The dashboard loads all or nothing: its six numbers are always
    requested, in the order of the array, and nothing is written; when any
    of the six calls fails the statistics shown before stay and an error
    toast is shown, and only when all succeed are they replaced. *)
Theorem dashboard_all_or_nothing (today : date) (timeframe : Z)
  (old : option Dashboard.DashboardStats) (w : world) :
  let out := Dashboard.fetchDashboardStats today timeframe old w in
  tables (snd out) = tables w
  /\ log (snd out)
     = log w ++ [(SELECT, t_cars); (SELECT, t_cars); (SELECT, t_rentals);
                 (SELECT, t_rentals); (SELECT, t_rentals); (SELECT, t_rentals)]
  /\ (calls_ok 6 w = false ->
      fst out = (old, Some (toast_error "Failed to fetch dashboard statistics")))
  /\ (calls_ok 6 w = true ->
      exists st, fst out = (Some st, None)).
Proof.
  cbv zeta. unfold Dashboard.fetchDashboardStats, Promise_all.
  rewrite getTotalCars_run. cbv iota beta.
  rewrite getAvailableCars_run. cbv iota beta.
  rewrite getOngoingRentals_run. cbv iota beta.
  rewrite getRevenue_run. cbv iota beta.
  rewrite getTopCars_run. cbv iota beta.
  rewrite getTopCustomers_run. cbv iota beta.
  unfold calls_ok, next_fails, after_read.
  destruct w as [d fs l]. cbn [faults tables log tl].
  destruct fs as [|[] [|[] [|[] [|[] [|[] [|[] fs]]]]]];
    cbn [hd tl fst snd tables log firstn forallb negb andb];
    rewrite <- ?app_assoc; cbn [app];
    (split; [reflexivity|]); (split; [reflexivity|]);
    (split; intros H; try discriminate H; try reflexivity);
    eexists; reflexivity.
Qed.

Lemma dashboard_all_or_nothing_witness :
  let w := mkWorld rented_db [false; false; false; true] [] in
  calls_ok 6 w = false
  /\ fst (Dashboard.fetchDashboardStats 20100 30 None w)
     = (None, Some (toast_error "Failed to fetch dashboard statistics")).
Proof.
  intros w. split; [reflexivity|].
  exact (proj1 (proj2 (proj2 (dashboard_all_or_nothing 20100 30 None w))) eq_refl).
Defined.

(** ** Revenue over time *)

Lemma revenue_of_cons (startDate : date) (r : Rental) (rs : list Rental) :
  revenue_of startDate (r :: rs)
  = (if counts_for_revenue startDate r then total_cost r else 0)
    + revenue_of startDate rs.
Proof.
  unfold revenue_of. cbn [filter].
  destruct (counts_for_revenue startDate r); cbn [map fold_right]; lia.
Qed.

Lemma revenue_of_mono (s1 s2 : date) (rs : list Rental) :
  (forall r, In r rs -> 0 <= total_cost r) ->
  s2 <= s1 ->
  0 <= revenue_of s1 rs <= revenue_of s2 rs.
Proof.
  intros Hpos Hle. induction rs as [|r rs IH].
  - unfold revenue_of. cbn. lia.
  - rewrite !revenue_of_cons.
    assert (H0 : 0 <= total_cost r) by (apply Hpos; left; reflexivity).
    assert (IH' : 0 <= revenue_of s1 rs <= revenue_of s2 rs).
    { apply IH. intros r' Hr'. apply Hpos. right. exact Hr'. }
    unfold counts_for_revenue. destruct (status r); try lia.
    destruct (Z.leb_spec s1 (rental_date r)) as [H1|H1];
      destruct (Z.leb_spec s2 (rental_date r)) as [H2|H2]; lia.
Qed.

(** X22. As long as no rental has a negative total cost, the revenue is
    never negative and a longer timeframe never shows less revenue than a
    shorter one (the queries succeeding). *)
Theorem longer_timeframe_never_less_revenue (today : date) (tf1 tf2 : Z) (w : world) :
  calls_ok 1 w = true ->
  (forall r, In r (rentals (tables w)) -> 0 <= total_cost r) ->
  tf1 <= tf2 ->
  exists v1 v2,
    fst (reportService.getRevenue (startDate_of today tf1) w) = Returned v1
    /\ fst (reportService.getRevenue (startDate_of today tf2) w) = Returned v2
    /\ 0 <= v1 <= v2.
Proof.
  intros Hok Hpos Hle.
  assert (Hnf : next_fails w = false).
  { unfold calls_ok in Hok. unfold next_fails.
    destruct (faults w) as [|[] fs]; [reflexivity|discriminate Hok|reflexivity]. }
  rewrite !getRevenue_run, Hnf. cbn [fst].
  eexists. eexists. split; [reflexivity|]. split; [reflexivity|].
  apply revenue_of_mono; [exact Hpos|]. unfold startDate_of. lia.
Qed.

Lemma longer_timeframe_never_less_revenue_witness :
  let w := mkWorld report_db [] [] in
  calls_ok 1 w = true
  /\ (forall r, In r (rentals (tables w)) -> 0 <= total_cost r)
  /\ 7 <= 30
  /\ exists v1 v2,
       fst (reportService.getRevenue (startDate_of 20100 7) w) = Returned v1
       /\ fst (reportService.getRevenue (startDate_of 20100 30) w) = Returned v2
       /\ 0 <= v1 <= v2.
Proof.
  intros w.
  assert (Hpos : forall r, In r (rentals (tables w)) -> 0 <= total_cost r).
  { intros r [<-|[<-|[<-|[]]]]; vm_compute; discriminate. }
  assert (Hle : 7 <= 30) by (vm_compute; discriminate).
  split; [reflexivity|]. split; [exact Hpos|]. split; [exact Hle|].
  exact (longer_timeframe_never_less_revenue 20100 7 30 w eq_refl Hpos Hle).
Defined.



(** ** The top lists: ties and totals *)

Section Stability.
Context {V : Type} (m : V -> Z).

Lemma sort_insert_class (x : V) (l : list V) (c : Z) :
  filter (fun e => m e =? c) (sort_insert (fun a b => m b - m a) x l)
  = filter (fun e => m e =? c) (x :: l).
Proof.
  induction l as [|y ys IH]; cbn [sort_insert]; [reflexivity|].
  destruct (Z.ltb_spec 0 (m y - m x)) as [Hlt|Hge]; [|reflexivity].
  cbn [filter] in IH |- *. rewrite IH.
  destruct (Z.eqb_spec (m x) c) as [Ex|Ex]; [|reflexivity].
  destruct (Z.eqb_spec (m y) c) as [Ey|Ey]; [lia|reflexivity].
Qed.

(** The sort is stable: entries of equal measure keep their order. *)
Lemma Array_sort_class (l : list V) (c : Z) :
  filter (fun e => m e =? c) (Array_sort (fun a b => m b - m a) l)
  = filter (fun e => m e =? c) l.
Proof.
  unfold Array_sort. induction l as [|x l IH]; cbn [fold_right]; [reflexivity|].
  rewrite sort_insert_class. cbn [filter]. rewrite IH. reflexivity.
Qed.

Lemma sum_of_perm (l l' : list V) :
  Permutation l l' -> sum_of m l = sum_of m l'.
Proof.
  unfold sum_of. induction 1; cbn [map fold_right]; lia.
Qed.

End Stability.

Section KeyOrder.
Context {V : Type}.
Implicit Types (o : obj V) (k : Z) (v : V).

Lemma index_key_agree k : is_array_index k = index_key k.
Proof.
  unfold is_array_index, index_key.
  destruct (Z.leb_spec 0 k); cbn [andb]; [|reflexivity].
  destruct (Z.ltb_spec k 4294967295), (Z.leb_spec k 4294967294);
    try reflexivity; lia.
Qed.

Lemma goes_before_other k k' : index_key k = false -> goes_before k k' = false.
Proof.
  intros H. unfold goes_before. rewrite index_key_agree, H. reflexivity.
Qed.

Lemma goes_before_index k k' :
  index_key k = true ->
  goes_before k k' = other_key k' || (k <? k').
Proof.
  intros H. unfold goes_before, other_key. rewrite !index_key_agree, H.
  reflexivity.
Qed.

Lemma obj_create_listed o k v :
  listed (keys o) -> listed (keys (obj_create o k v)).
Proof.
  unfold listed. induction o as [|[k' v'] o IH]; intros Hs.
  - repeat constructor.
  - change (keys ((k', v') :: o)) with (k' :: keys o) in Hs.
    apply StronglySorted_inv in Hs. destruct Hs as [Hs Hall].
    cbn [obj_create]. destruct (goes_before k k') eqn:B.
    + change (StronglySorted (fun a b => goes_before b a = false)
                (k :: k' :: keys o)).
      assert (Hk : index_key k = true).
      { destruct (index_key k) eqn:E; [reflexivity|].
        rewrite (goes_before_other k k' E) in B. discriminate. }
      rewrite (goes_before_index k k' Hk) in B.
      constructor; [constructor; assumption|].
      rewrite Forall_forall in Hall.
      apply Forall_forall. intros x [<-|Hx].
      * unfold goes_before, other_key in *. rewrite !index_key_agree, Hk in *.
        cbn [negb orb] in *.
        destruct (index_key k'); cbn [andb negb orb] in *; [|reflexivity].
        apply Z.ltb_ge. apply Z.ltb_lt in B. lia.
      * specialize (Hall x Hx). cbv beta in Hall.
        unfold goes_before, other_key in *. rewrite !index_key_agree, Hk in *.
        cbn [negb orb] in *.
        destruct (index_key x); cbn [andb] in *; [|reflexivity].
        destruct (index_key k'); cbn [negb orb] in *; [|discriminate].
        apply Z.ltb_ge. apply Z.ltb_lt in B. apply Z.ltb_ge in Hall. lia.
    + change (StronglySorted (fun a b => goes_before b a = false)
                (k' :: keys (obj_create o k v))).
      constructor; [exact (IH Hs)|].
      rewrite Forall_forall in Hall.
      apply Forall_forall. intros x Hx. apply obj_create_keys in Hx.
      destruct Hx as [->|Hx]; [exact B|exact (Hall x Hx)].
Qed.

Lemma obj_set_listed o k v : listed (keys o) -> listed (keys (obj_set o k v)).
Proof.
  intros Hs. unfold obj_set. destruct (obj_get o k).
  - rewrite obj_assign_keys. exact Hs.
  - apply obj_create_listed. exact Hs.
Qed.

(** In a list so ordered and free of repetitions the array indices come
    first, in ascending order. *)
Lemma listed_split (l : list Z) :
  listed l -> NoDup l ->
  l = filter index_key l ++ filter other_key l
  /\ StronglySorted Z.lt (filter index_key l).
Proof.
  unfold listed. induction 1 as [|a l Hs IH Hall]; intros Hnd.
  - split; [reflexivity|constructor].
  - apply NoDup_cons_iff in Hnd. destruct Hnd as [Ha Hnd].
    destruct (IH Hnd) as [IH1 IH2]. rewrite Forall_forall in Hall.
    cbn [filter]. unfold other_key at 1. destruct (index_key a) eqn:Ea; cbn [negb].
    + split; [cbn [app]; f_equal; exact IH1|].
      constructor; [exact IH2|].
      apply Forall_forall. intros x Hx. apply filter_In in Hx.
      destruct Hx as [Hx Ex]. specialize (Hall x Hx). cbv beta in Hall.
      rewrite (goes_before_index x a Ex) in Hall.
      apply orb_false_iff in Hall. destruct Hall as [_ Hall].
      apply Z.ltb_ge in Hall.
      assert (x <> a) by (intros ->; exact (Ha Hx)). lia.
    + assert (Hnone : filter index_key l = []).
      { destruct (filter index_key l) as [|x xs] eqn:E; [reflexivity|].
        exfalso. assert (Hx : In x (filter index_key l))
          by (rewrite E; left; reflexivity).
        apply filter_In in Hx. destruct Hx as [Hx Ex].
        specialize (Hall x Hx). cbv beta in Hall.
        rewrite (goes_before_index x a Ex) in Hall.
        unfold other_key in Hall. rewrite Ea in Hall. discriminate. }
      rewrite Hnone in *. cbn [app] in *. split; [|constructor].
      f_equal. exact IH1.
Qed.

Lemma obj_create_other o k v :
  index_key k = false -> keys (obj_create o k v) = keys o ++ [k].
Proof.
  intros Hk. unfold keys.
  induction o as [|[k' v'] o IH]; cbn [obj_create map fst app]; [reflexivity|].
  rewrite (goes_before_other k k' Hk). cbn [map fst]. rewrite IH. reflexivity.
Qed.

Lemma obj_create_index o k v :
  index_key k = true ->
  filter other_key (keys (obj_create o k v)) = filter other_key (keys o).
Proof.
  intros Hk. unfold keys.
  induction o as [|[k' v'] o IH]; cbn [obj_create map fst filter].
  - unfold other_key. rewrite Hk. reflexivity.
  - destruct (goes_before k k'); cbn [map fst filter].
    + unfold other_key at 1. rewrite Hk. reflexivity.
    + rewrite IH. reflexivity.
Qed.

Lemma existsb_other_keys (l : list Z) k :
  index_key k = false ->
  existsb (Z.eqb k) (filter other_key l) = true <-> In k l.
Proof.
  intros Hk. rewrite existsb_exists. split.
  - intros (x & Hx & E). apply Z.eqb_eq in E. subst x.
    apply filter_In in Hx. apply Hx.
  - intros H. exists k. split; [|apply Z.eqb_refl].
    apply filter_In. split; [exact H|]. unfold other_key. rewrite Hk. reflexivity.
Qed.

Lemma filter_firstn (p : V -> bool) (l : list V) : forall n,
  exists n', filter p (firstn n l) = firstn n' (filter p l).
Proof.
  induction l as [|x l IH]; intros n.
  - exists 0%nat. rewrite firstn_nil. reflexivity.
  - destruct n as [|n]; [exists 0%nat; reflexivity|].
    destruct (IH n) as [n' E]. cbn [firstn filter].
    destruct (p x); [exists (S n'); cbn [firstn]; rewrite E; reflexivity|].
    exists n'. exact E.
Qed.

End KeyOrder.

Section GroupOrder.
Context {R V : Type} (key : R -> Z) (init : R -> V) (bump : R -> V -> V).

Lemma upsert_keys acc row :
  keys (upsert key init bump acc row)
  = match obj_get acc (key row) with
    | Some _ => keys acc
    | None => keys (obj_create acc (key row) (init row))
    end.
Proof.
  unfold upsert. destruct (obj_get acc (key row)) as [e|] eqn:G.
  - rewrite G. unfold obj_set. rewrite G. apply obj_assign_keys.
  - rewrite obj_get_set_eq. unfold obj_set at 1. rewrite obj_get_set_eq.
    rewrite obj_assign_keys. unfold obj_set. rewrite G. reflexivity.
Qed.

Lemma upsert_listed acc row :
  listed (keys acc) -> listed (keys (upsert key init bump acc row)).
Proof.
  intros Hs. rewrite upsert_keys. destruct (obj_get acc (key row)); [exact Hs|].
  apply obj_create_listed. exact Hs.
Qed.

Lemma fold_upsert_listed rows : forall acc,
  listed (keys acc) -> listed (keys (fold_left (upsert key init bump) rows acc)).
Proof.
  induction rows as [|row rows IH]; intros acc Hs; cbn [fold_left];
    [exact Hs|apply IH, upsert_listed, Hs].
Qed.

Lemma upsert_other_keys acc row :
  filter other_key (keys (upsert key init bump acc row))
  = if other_key (key row)
    then (if existsb (Z.eqb (key row)) (filter other_key (keys acc))
          then filter other_key (keys acc)
          else filter other_key (keys acc) ++ [key row])
    else filter other_key (keys acc).
Proof.
  rewrite upsert_keys. unfold other_key at 2.
  destruct (index_key (key row)) eqn:Hk; cbn [negb].
  - destruct (obj_get acc (key row)); [reflexivity|].
    apply obj_create_index. exact Hk.
  - destruct (obj_get acc (key row)) as [e|] eqn:G.
    + assert (Hin : In (key row) (keys acc))
        by (apply obj_keys_get; exists e; exact G).
      apply (existsb_other_keys _ _ Hk) in Hin. rewrite Hin. reflexivity.
    + assert (Hnin : existsb (Z.eqb (key row)) (filter other_key (keys acc))
                     = false).
      { apply not_true_is_false. intros H.
        apply (existsb_other_keys _ _ Hk) in H.
        apply obj_get_none_keys in G. exact (G H). }
      rewrite Hnin, (obj_create_other _ _ _ Hk), filter_app. cbn [filter].
      unfold other_key at 2. rewrite Hk. reflexivity.
Qed.

Lemma fold_upsert_other_keys rows : forall acc,
  filter other_key (keys (fold_left (upsert key init bump) rows acc))
  = fold_left (fun seen k => if existsb (Z.eqb k) seen then seen else seen ++ [k])
      (filter other_key (map key rows)) (filter other_key (keys acc)).
Proof.
  induction rows as [|row rows IH]; intros acc; cbn [fold_left map filter];
    [reflexivity|].
  rewrite IH, upsert_other_keys.
  destruct (other_key (key row)); reflexivity.
Qed.

End GroupOrder.

(** Ids from 2^32 - 1 on are not array indices: their groups come after
    the others, in the order of their first row. *)
Example topCars_large_ids :
  let row k b := reportService.mkCarRow k (Some (b, "")) in
  let entry b n := reportService.mkCarEntry (Some (b, "")) n in
  reportService.topCars
    [row 5000000000 "E"; row 4294967295 "D"; row 7 "A"; row 5000000000 "E";
     row 4294967295 "D"; row 7 "A"; row 4294967294 "C"; row 4294967294 "C"]
  = [entry "A" 2; entry "C" 2; entry "E" 2; entry "D" 2].
Proof. vm_compute. reflexivity. Qed.

(** X24. Ties in the top-cars list.  The groups are listed in the order
    of Object.values: first the cars whose id is an array index (0 to
    2^32 - 2), in ascending order of the id, then the other cars in the
    order of their first row.  The report is in descending order of the
    number of rentals, and the cars of one number of rentals that made the
    report are the first of their number in the listed order. *)
Theorem ties_keep_key_order (data : list reportService.CarRow) :
  let ids := map reportService.row_car_id data in
  let groups := reportService.carCounts data in
  let report := reportService.topCars data in
  keys groups = filter index_key (keys groups) ++ filter other_key (keys groups)
  /\ StronglySorted Z.lt (filter index_key (keys groups))
  /\ filter other_key (keys groups) = first_seen (filter other_key ids)
  /\ (forall k, In k (keys groups) <-> In k ids)
  /\ StronglySorted (desc_by reportService.rental_count) report
  /\ (forall c, exists n,
        filter (fun e => reportService.rental_count e =? c) report
        = firstn n (filter (fun e => reportService.rental_count e =? c)
                           (map snd groups))).
Proof.
  cbv zeta.
  assert (Hl : listed (keys (reportService.carCounts data))).
  { rewrite carCounts_is_grouping. apply fold_upsert_listed. constructor. }
  assert (Hnd : NoDup (keys (reportService.carCounts data))).
  { rewrite carCounts_is_grouping. apply fold_upsert_NoDup. constructor. }
  destruct (listed_split _ Hl Hnd) as [H1 H2].
  split; [exact H1|]. split; [exact H2|]. split; [|split; [|split]].
  - rewrite carCounts_is_grouping, fold_upsert_other_keys. reflexivity.
  - intros k. rewrite obj_keys_get, carCounts_is_grouping.
    split.
    + intros [e He]. rewrite fold_upsert_get in He. cbn [obj_get] in He.
      rewrite car_group_none in He.
      destruct (select_where reportService.row_car_id k data) as [|r0 l] eqn:E;
        [discriminate|].
      assert (Hin : In r0 (select_where reportService.row_car_id k data))
        by (rewrite E; left; reflexivity).
      unfold select_where in Hin. apply filter_In in Hin.
      destruct Hin as [Hin Hk]. apply Z.eqb_eq in Hk. subst k.
      apply in_map. exact Hin.
    + intros Hin. apply in_map_iff in Hin. destruct Hin as (r & <- & Hin).
      rewrite fold_upsert_get. cbn [obj_get]. rewrite car_group_none.
      destruct (select_where reportService.row_car_id
                  (reportService.row_car_id r) data) as [|r0 l] eqn:E.
      * exfalso.
        assert (H : In r (select_where reportService.row_car_id
                            (reportService.row_car_id r) data)).
        { unfold select_where. apply filter_In. split; [exact Hin|].
          apply Z.eqb_refl. }
        rewrite E in H. exact H.
      * eexists. reflexivity.
  - apply (sort_slice_top reportService.rental_count 5
             (Object_values (reportService.carCounts data))).
  - intros c. unfold reportService.topCars, slice0.
    destruct (filter_firstn (fun e => reportService.rental_count e =? c)
                (Array_sort (fun a b => reportService.rental_count b
                                        - reportService.rental_count a)
                   (Object_values (reportService.carCounts data))) 5)
      as [n E].
    exists n. rewrite E.
    rewrite (Array_sort_class reportService.rental_count). reflexivity.
Qed.

Section Totals.
Context {R V : Type} (key : R -> Z) (init : R -> V) (bump : R -> V -> V).
Context (m : V -> Z) (delta : R -> Z).
Hypothesis m_init : forall r, m (init r) = 0.
Hypothesis m_bump : forall r e, m (bump r e) = m e + delta r.

Lemma obj_assign_sum (o : obj V) (k : Z) (v v0 : V) :
  obj_get o k = Some v0 ->
  sum_of m (Object_values (obj_assign o k v))
  = sum_of m (Object_values o) - m v0 + m v.
Proof.
  unfold sum_of, Object_values.
  induction o as [|[k' v'] o IH]; cbn [obj_get obj_assign]; [discriminate|].
  destruct (k' =? k); cbn [map snd fold_right].
  - intros G. injection G as ->. lia.
  - intros G. rewrite (IH G). lia.
Qed.

Lemma obj_create_sum (o : obj V) (k : Z) (v : V) :
  sum_of m (Object_values (obj_create o k v))
  = sum_of m (Object_values o) + m v.
Proof.
  unfold sum_of, Object_values.
  induction o as [|[k' v'] o IH]; cbn [obj_create map snd fold_right]; [lia|].
  destruct (goes_before k k'); cbn [map snd fold_right]; [lia|].
  rewrite IH. lia.
Qed.

Lemma obj_set_sum (o : obj V) (k : Z) (v : V) :
  sum_of m (Object_values (obj_set o k v))
  = sum_of m (Object_values o)
    - match obj_get o k with Some v0 => m v0 | None => 0 end
    + m v.
Proof.
  unfold obj_set. destruct (obj_get o k) as [v0|] eqn:G.
  - apply obj_assign_sum. exact G.
  - rewrite obj_create_sum. lia.
Qed.

Lemma upsert_sum (acc : obj V) (row : R) :
  sum_of m (Object_values (upsert key init bump acc row))
  = sum_of m (Object_values acc) + delta row.
Proof.
  unfold upsert. destruct (obj_get acc (key row)) as [v|] eqn:G.
  - rewrite G. rewrite obj_set_sum, G, m_bump. lia.
  - rewrite obj_get_set_eq.
    rewrite obj_set_sum, obj_get_set_eq.
    rewrite obj_set_sum, G, m_bump, m_init. lia.
Qed.

Lemma fold_upsert_sum (rows : list R) : forall acc,
  sum_of m (Object_values (fold_left (upsert key init bump) rows acc))
  = sum_of m (Object_values acc) + sum_of delta rows.
Proof.
  induction rows as [|row rows IH]; intros acc; cbn [fold_left].
  - unfold sum_of at 3. cbn. lia.
  - rewrite IH, upsert_sum.
    unfold sum_of at 4. cbn [map fold_right]. fold (sum_of delta rows). lia.
Qed.

End Totals.

Lemma sum_of_ones {A} (l : list A) :
  sum_of (fun _ => 1) l = Z.of_nat (List.length l).
Proof.
  unfold sum_of. induction l as [|x l IH]; [reflexivity|].
  cbn [map fold_right List.length]. rewrite IH. lia.
Qed.

Lemma eligible_filter_agree (startDate : date) (rs : list Rental) :
  filter (fun r => reportService.in_window startDate r
                   && reportService.not_cancelled r) rs
  = filter (eligible startDate) rs.
Proof. apply filter_ext. intros r. apply eligible_agree. Qed.

Lemma top_is_all {V} (m : V -> Z) (l : list V) :
  (List.length l <= 5)%nat ->
  sum_of m (slice0 5 (Array_sort (fun a b => m b - m a) l)) = sum_of m l.
Proof.
  intros Hlen. unfold slice0.
  pose proof (Array_sort_perm (fun a b => m b - m a) l) as Hp.
  rewrite firstn_all2 by (rewrite (Permutation_length Hp); exact Hlen).
  apply sum_of_perm. exact Hp.
Qed.

(** X25. The groups of the top reports account for every counted rental
    (not Cancelled, dated at or after the cutoff) exactly once: the counts
    of the car groups add up to the number of counted rentals, so do the
    counts of the customer groups, and the totals spent add up to the sum
    of their total costs; with at most five groups the lists shown add up
    to the same. *)
Theorem top_groups_account_for_all (startDate : date) (d : database) :
  let counted := filter (eligible startDate) (rentals d) in
  let car_groups :=
    Object_values (reportService.carCounts (car_rows startDate d)) in
  let customer_groups :=
    Object_values (reportService.customerStats (customer_rows startDate d)) in
  sum_of reportService.rental_count car_groups = Z.of_nat (List.length counted)
  /\ sum_of reportService.cust_rental_count customer_groups
     = Z.of_nat (List.length counted)
  /\ sum_of reportService.total_spent customer_groups = sum_of total_cost counted
  /\ ((List.length car_groups <= 5)%nat ->
      sum_of reportService.rental_count
        (reportService.topCars (car_rows startDate d))
      = Z.of_nat (List.length counted))
  /\ ((List.length customer_groups <= 5)%nat ->
      sum_of reportService.total_spent
        (reportService.topCustomers (customer_rows startDate d))
      = sum_of total_cost counted).
Proof.
  cbv zeta.
  assert (Hcars : sum_of reportService.rental_count
                    (Object_values (reportService.carCounts (car_rows startDate d)))
                  = Z.of_nat (List.length (filter (eligible startDate) (rentals d)))).
  { rewrite carCounts_is_grouping.
    rewrite (fold_upsert_sum reportService.row_car_id car_init car_bump
               reportService.rental_count (fun _ => 1))
      by reflexivity.
    rewrite sum_of_ones. unfold car_rows.
    rewrite length_map, eligible_filter_agree. reflexivity. }
  assert (Hcount : sum_of reportService.cust_rental_count
                     (Object_values
                        (reportService.customerStats (customer_rows startDate d)))
                   = Z.of_nat (List.length (filter (eligible startDate) (rentals d)))).
  { rewrite customerStats_is_grouping.
    rewrite (fold_upsert_sum reportService.row_customer_id customer_init
               customer_bump reportService.cust_rental_count (fun _ => 1))
      by reflexivity.
    rewrite sum_of_ones. unfold customer_rows.
    rewrite length_map, eligible_filter_agree. reflexivity. }
  assert (Hspent : sum_of reportService.total_spent
                     (Object_values
                        (reportService.customerStats (customer_rows startDate d)))
                   = sum_of total_cost (filter (eligible startDate) (rentals d))).
  { rewrite customerStats_is_grouping.
    rewrite (fold_upsert_sum reportService.row_customer_id customer_init
               customer_bump reportService.total_spent
               reportService.row_total_cost)
      by reflexivity.
    unfold customer_rows, sum_of, Object_values.
    rewrite !map_map, eligible_filter_agree. reflexivity. }
  split; [exact Hcars|]. split; [exact Hcount|]. split; [exact Hspent|].
  split; intros Hlen.
  - unfold reportService.topCars.
    rewrite (top_is_all reportService.rental_count _ Hlen). exact Hcars.
  - unfold reportService.topCustomers.
    rewrite (top_is_all reportService.total_spent _ Hlen). exact Hspent.
Qed.

Lemma top_groups_account_for_all_witness :
  (List.length
     (Object_values (reportService.carCounts (car_rows 20070%Z report_db))) <= 5)%nat
  /\ sum_of reportService.rental_count
       (reportService.topCars (car_rows 20070 report_db))
     = Z.of_nat (List.length (filter (eligible 20070) (rentals report_db))).
Proof.
  assert (Hlen : (List.length
                    (Object_values
                       (reportService.carCounts (car_rows 20070%Z report_db)))
                  <= 5)%nat) by (vm_compute; repeat constructor).
  split; [exact Hlen|].
  exact (proj1 (proj2 (proj2 (proj2 (top_groups_account_for_all 20070 report_db))))
           Hlen).
Defined.

Lemma revenue_within_counted (startDate : date) (rs : list Rental) :
  (forall r, In r rs -> 0 <= total_cost r) ->
  revenue_of startDate rs <= sum_of total_cost (filter (eligible startDate) rs).
Proof.
  intros Hpos. induction rs as [|r rs IH].
  - unfold revenue_of, sum_of. cbn. lia.
  - rewrite revenue_of_cons. cbn [filter].
    assert (H0 : 0 <= total_cost r) by (apply Hpos; left; reflexivity).
    assert (IH' : revenue_of startDate rs
                  <= sum_of total_cost (filter (eligible startDate) rs)).
    { apply IH. intros r' Hr'. apply Hpos. right. exact Hr'. }
    assert (Hel : eligible startDate r
                  = match status r with
                    | Cancelled => false
                    | _ => startDate <=? rental_date r
                    end) by reflexivity.
    rewrite Hel. unfold counts_for_revenue. unfold sum_of in *.
    destruct (status r); cbv iota; try exact IH';
      destruct (startDate <=? rental_date r);
      cbn [map fold_right]; lia.
Qed.

(** X26. The two reports of one cutoff agree with each other: as long as
    no rental has a negative total cost, the revenue is no more than the
    totals spent of all customer groups together (Ongoing rentals count as
    spent but not as revenue), hence no more than the total of the
    customers shown when there are at most five groups. *)
Theorem revenue_within_customer_spending (startDate : date) (w : world) :
  calls_ok 1 w = true ->
  (forall r, In r (rentals (tables w)) -> 0 <= total_cost r) ->
  exists revenue shown,
    fst (reportService.getRevenue startDate w) = Returned revenue
    /\ fst (reportService.getTopCustomers startDate w) = Returned shown
    /\ revenue
       <= sum_of reportService.total_spent
            (Object_values
               (reportService.customerStats (customer_rows startDate (tables w))))
    /\ ((List.length
           (Object_values
              (reportService.customerStats (customer_rows startDate (tables w))))
         <= 5)%nat ->
        revenue <= sum_of reportService.total_spent shown).
Proof.
  intros Hok Hpos.
  assert (Hnf : next_fails w = false).
  { unfold calls_ok in Hok. unfold next_fails.
    destruct (faults w) as [|[] fs]; [reflexivity|discriminate Hok|reflexivity]. }
  rewrite getRevenue_run, getTopCustomers_run, Hnf. cbn [fst].
  eexists. eexists. split; [reflexivity|]. split; [reflexivity|].
  assert (Hspent : sum_of reportService.total_spent
                     (Object_values
                        (reportService.customerStats
                           (customer_rows startDate (tables w))))
                   = sum_of total_cost
                       (filter (eligible startDate) (rentals (tables w)))).
  { rewrite customerStats_is_grouping.
    rewrite (fold_upsert_sum reportService.row_customer_id customer_init
               customer_bump reportService.total_spent
               reportService.row_total_cost)
      by reflexivity.
    unfold customer_rows, sum_of, Object_values.
    rewrite !map_map, eligible_filter_agree. reflexivity. }
  pose proof (revenue_within_counted startDate _ Hpos) as Hle.
  split.
  - rewrite Hspent. exact Hle.
  - intros Hlen. unfold reportService.topCustomers.
    rewrite (top_is_all reportService.total_spent _ Hlen), Hspent. exact Hle.
Qed.

Lemma revenue_within_customer_spending_witness :
  let w := mkWorld report_db [] [] in
  calls_ok 1 w = true
  /\ (forall r, In r (rentals (tables w)) -> 0 <= total_cost r)
  /\ exists revenue shown,
       fst (reportService.getRevenue 20070 w) = Returned revenue
       /\ fst (reportService.getTopCustomers 20070 w) = Returned shown.
Proof.
  intros w.
  assert (Hpos : forall r, In r (rentals (tables w)) -> 0 <= total_cost r).
  { intros r [<-|[<-|[<-|[]]]]; vm_compute; discriminate. }
  split; [reflexivity|]. split; [exact Hpos|].
  destruct (revenue_within_customer_spending 20070 w eq_refl Hpos)
    as (revenue & shown & E1 & E2 & _).
  exists revenue, shown. split; assumption.
Defined.

(** ** The rentals page *)

Lemma getAll_rentals_run (w : world) (n : nat) :
  calls_ok (S n) w = true ->
  rentalService_getAll w
  = (Returned
       (map (fun r => mkRentalView r
                        (reportService.embed_customer (tables w) (customer_id r))
                        (reportService.embed_car (tables w) (car_id r)))
            (rev (rentals (tables w)))),
     mkWorld (tables w) (tl (faults w)) (log w ++ [(SELECT, t_rentals)])).
Proof.
  intros Hok. unfold rentalService_getAll, bind, await, q_all_rentals.
  backend_last Hok E. reflexivity.
Qed.

(** X28. Cancelling from the rentals page.  When the confirmation is
    declined nothing happens.  When it is confirmed for a rental of the
    table (the three calls of the cancellation and the reload succeeding),
    the success toast is shown and the reloaded list holds the table's
    rentals, newest first, the cancelled one as Cancelled: its row has no
    Complete and Cancel buttons any more, and the other rows are as they
    were. *)
Theorem cancel_from_the_page (R : Rental) (st : RentalsPage.state) (w : world) :
  calls_ok 4 w = true ->
  NoDup (map rental_id (rentals (tables w))) ->
  In R (rentals (tables w)) ->
  let out := RentalsPage.handleCancel true (rental_id R) st w in
  let st' := fst (fst out) in
  snd (fst out) = [toast_success "Rental cancelled successfully"]
  /\ map view_rental (RentalsPage.rentals st')
     = rev (update_where rental_id (rental_id R) (set_rental_status Cancelled)
              (rentals (tables w)))
  /\ (forall v, In v (RentalsPage.rentals st') ->
        rental_id (view_rental v) = rental_id R ->
        RentalsPage.has_actions v = false)
  /\ (forall v, In v (RentalsPage.rentals st') ->
        rental_id (view_rental v) <> rental_id R ->
        In (view_rental v) (rentals (tables w)))
  /\ RentalsPage.handleCancel false (rental_id R) st w = ((st, []), w).
Proof.
  intros Hok Hnd Hin. cbv zeta.
  unfold RentalsPage.handleCancel. cbn [negb].
  rewrite (cancel_run w R (calls_ok_le 3 4 w (Nat.le_succ_diag_r 3) Hok) Hnd Hin).
  unfold RentalsPage.fetchRentals.
  match goal with
  | |- context [rentalService_getAll ?x] =>
      assert (Hok1 : calls_ok 1 x = true)
  end.
  { unfold calls_ok in Hok |- *. cbn [faults].
    destruct (faults w) as [|[] [|[] [|[] [|[] fs]]]]; cbn in Hok |- *;
      try discriminate Hok; reflexivity. }
  rewrite (getAll_rentals_run _ 0 Hok1).
  cbn [fst snd tables with_cars with_rentals rentals RentalsPage.rentals].
  set (rs' := update_where rental_id (rental_id R) (set_rental_status Cancelled)
                (rentals (tables w))).
  assert (Hrows : forall v,
            In v (map (fun r => mkRentalView r
                         (reportService.embed_customer
                            (with_cars (with_rentals (tables w) rs')
                               (update_where Cars.car_id (car_id R)
                                  (set_car_status Available) (cars (tables w))))
                            (customer_id r))
                         (reportService.embed_car
                            (with_cars (with_rentals (tables w) rs')
                               (update_where Cars.car_id (car_id R)
                                  (set_car_status Available) (cars (tables w))))
                            (car_id r)))
                    (rev rs')) ->
            In (view_rental v) rs').
  { intros v Hv. apply in_map_iff in Hv. destruct Hv as (r & <- & Hr).
    cbn [view_rental]. apply in_rev. exact Hr. }
  split; [reflexivity|]. split; [|split; [|split]].
  - rewrite map_map. cbn [view_rental]. apply map_id.
  - intros v Hv Eid. apply Hrows in Hv.
    destruct (update_where_hit rental_id (rental_id R)
                (set_rental_status Cancelled) _ _ Hv Eid (fun _ => eq_refl))
      as (r & _ & _ & Ev).
    unfold RentalsPage.has_actions. rewrite Ev. reflexivity.
  - intros v Hv Hne. apply Hrows in Hv.
    apply (update_where_other rental_id (rental_id R)
             (set_rental_status Cancelled) _ _ (fun _ => eq_refl) Hne).
    exact Hv.
  - reflexivity.
Qed.

Lemma cancel_from_the_page_witness :
  let w := mkWorld rented_db [] [] in
  let st := RentalsPage.mkState [] None in
  calls_ok 4 w = true
  /\ NoDup (map rental_id (rentals (tables w)))
  /\ In demo_rental (rentals (tables w))
  /\ snd (fst (RentalsPage.handleCancel true (rental_id demo_rental) st w))
     = [toast_success "Rental cancelled successfully"].
Proof.
  intros w st.
  assert (Hnd : NoDup (map rental_id (rentals (tables w)))).
  { repeat constructor. intros []. }
  assert (Hin : In demo_rental (rentals (tables w))) by (left; reflexivity).
  split; [reflexivity|]. split; [exact Hnd|]. split; [exact Hin|].
  exact (proj1 (cancel_from_the_page demo_rental st w eq_refl Hnd Hin)).
Defined.

